(** * dir2mcp demo bridge (demo-corpus/bridge.py)

    A shallow embedding of the ElevenLabs -> MCP bridge: the JSON values it
    handles with Python's duck typing, the two process-wide globals
    ([_session_id], [_request_id]), the outbound HTTP calls as an explicit
    log threaded through a state-and-exception monad, and the Flask routes
    built on top of them. *)

From Stdlib Require Import ZArith String Ascii List Bool Lia Sorted.
From Stdlib Require Import Floats.PrimFloat Floats.SpecFloat Floats.FloatOps.
From Stdlib Require Import DecimalString.
Import ListNotations.

Set Warnings "-inexact-float,-register-all".
Open Scope string_scope.
Open Scope Z_scope.

(* ================================================================= *)
(** ** JSON values as Python sees them *)

(** What [json.loads] / [request.json] / [resp.json()] hand to the code:
    [None], [bool], [int] (unbounded), [float] (binary64), [str], [list],
    and [dict] (insertion ordered, here an association list read by its
    first matching key). *)
Inductive json : Type :=
| JNull
| JBool (b : bool)
| JInt (z : Z)
| JFloat (f : float)
| JStr (s : string)
| JArr (items : list json)
| JObj (fields : list (string * json)).

(** Exceptions the bridge can raise.  [PyTypeError] stands for the family
    Python raises when an operation meets a value of the wrong type
    (TypeError, AttributeError, KeyError, ValueError, OverflowError): the
    code never catches any of them, so they are not told apart. *)
Inductive exn : Type :=
| RequestException          (* requests.post: connection refused, timeout, ... *)
| HTTPError (status : Z)    (* resp.raise_for_status() *)
| JSONDecodeError           (* resp.json() on a body that is not JSON *)
| PyTypeError.

Inductive outcome (A : Type) : Type :=
| Return (a : A)
| Raise (e : exn).
Arguments Return {A} a.
Arguments Raise {A} e.

Definition obind {A B} (x : outcome A) (k : A -> outcome B) : outcome B :=
  match x with
  | Return a => k a
  | Raise e => Raise e
  end.

Notation "x <~ m ;; k" := (obind m (fun x => k))
  (at level 61, m at next level, right associativity).

(** Python truthiness ([if v:], [v or d], [not v]). *)
Definition truthy (v : json) : bool :=
  match v with
  | JNull => false
  | JBool b => b
  | JInt z => negb (z =? 0)
  | JFloat f => negb (PrimFloat.eqb f 0%float)
  | JStr s => negb (s =? "")%string
  | JArr items => match items with [] => false | _ :: _ => true end
  | JObj fields => match fields with [] => false | _ :: _ => true end
  end.

(** [a or b] *)
Definition py_or (a b : json) : json := if truthy a then a else b.

Fixpoint dict_lookup (key : string) (fields : list (string * json)) : option json :=
  match fields with
  | [] => None
  | (k, v) :: rest => if (k =? key)%string then Some v else dict_lookup key rest
  end.

(** [d[key] = v] on a dict: replace in place, or append a new key. *)
Fixpoint dict_set (key : string) (v : json) (fields : list (string * json))
  : list (string * json) :=
  match fields with
  | [] => [(key, v)]
  | (k, w) :: rest =>
      if (k =? key)%string then (k, v) :: rest else (k, w) :: dict_set key v rest
  end.

(** [x.get(key, default)]: only a dict has [.get]. *)
Definition py_get (x : json) (key : string) (default : json) : outcome json :=
  match x with
  | JObj fields =>
      match dict_lookup key fields with
      | Some v => Return v
      | None => Return default
      end
  | _ => Raise PyTypeError
  end.

(** [v == s] for a string literal [s]. *)
Definition py_eq_str (v : json) (s : string) : bool :=
  match v with
  | JStr t => (t =? s)%string
  | _ => false
  end.

Fixpoint str_contains (needle hay : string) : bool :=
  if String.prefix needle hay then true
  else match hay with
       | EmptyString => false
       | String _ rest => str_contains needle rest
       end.

(** [key in data]: key membership on a dict, element membership on a list,
    substring test on a str, TypeError on anything else. *)
Definition py_in (key : string) (data : json) : outcome bool :=
  match data with
  | JObj fields =>
      Return (match dict_lookup key fields with Some _ => true | None => false end)
  | JArr items => Return (existsb (fun v => py_eq_str v key) items)
  | JStr s => Return (str_contains key s)
  | _ => Raise PyTypeError
  end.

(** [data[key]] with a string key: defined on dicts only. *)
Definition py_getitem (data : json) (key : string) : outcome json :=
  match data with
  | JObj fields =>
      match dict_lookup key fields with
      | Some v => Return v
      | None => Raise PyTypeError
      end
  | _ => Raise PyTypeError
  end.

Fixpoint chars (s : string) : list json :=
  match s with
  | EmptyString => []
  | String c rest => JStr (String c EmptyString) :: chars rest
  end.

(** What a [for c in v] loop (or a generator over [v]) visits. *)
Definition py_iter (v : json) : outcome (list json) :=
  match v with
  | JArr items => Return items
  | JObj fields => Return (map (fun kv => JStr (fst kv)) fields)
  | JStr s => Return (chars s)
  | _ => Raise PyTypeError
  end.

(** [v[:n]] *)
Definition py_slice_to (n : nat) (v : json) : outcome json :=
  match v with
  | JArr items => Return (JArr (firstn n items))
  | JStr s => Return (JStr (String.substring 0 n s))
  | _ => Raise PyTypeError
  end.

(** The one-character string [chr(10)], Python's newline escape. *)
Definition nl : string := String "010" "".

(** [sep.join(parts)]: every part must be a str. *)
Fixpoint all_strs (parts : list json) : outcome (list string) :=
  match parts with
  | [] => Return []
  | JStr s :: rest => ss <~ all_strs rest ;; Return (s :: ss)
  | _ :: _ => Raise PyTypeError
  end.

Definition py_join (sep : string) (parts : list json) : outcome string :=
  ss <~ all_strs parts ;; Return (String.concat sep ss).

(* ================================================================= *)
(** ** Number formatting: the [.0%] format specifier *)

Definition decimal (z : Z) : string := NilZero.string_of_int (Z.to_int z).

(** The integer nearest to [m * 2^e], ties to even: what the correctly
    rounded ['f'] conversion with precision 0 prints. *)
Definition round_half_even (m : positive) (e : Z) : Z :=
  if 0 <=? e then Z.pos m * 2 ^ e
  else
    let d := 2 ^ (- e) in
    let q := Z.pos m / d in
    let r := Z.pos m mod d in
    if 2 * r <? d then q
    else if d <? 2 * r then q + 1
    else if Z.even q then q else q + 1.

(** [format(x, '.0%')] on a float: multiply by 100 in binary64, print with
    no decimals, append the percent sign. *)
Definition format_percent_float (x : float) : string :=
  match Prim2SF (x * 100)%float with
  | S754_nan => "nan%"
  | S754_infinity s => if s then "-inf%" else "inf%"
  | S754_zero s => if s then "-0%" else "0%"
  | S754_finite s m e =>
      (if s then "-" else "") ++ decimal (round_half_even m e) ++ "%"
  end.

(** [float(n)] on an int: nearest binary64, OverflowError past the range. *)
Definition float_of_int (n : Z) : outcome float :=
  match binary_normalize prec emax n 0 false with
  | S754_infinity _ => Raise PyTypeError
  | sf => Return (SF2Prim sf)
  end.

(** [f"{v:.0%}"]: floats directly, ints and bools through [float(v)];
    [str], [None], lists and dicts reject the format specifier. *)
Definition format_percent (v : json) : outcome string :=
  match v with
  | JFloat x => Return (format_percent_float x)
  | JInt n => x <~ float_of_int n ;; Return (format_percent_float x)
  | JBool b => Return (format_percent_float (if b then 1 else 0)%float)
  | _ => Raise PyTypeError
  end.

(* ================================================================= *)
(** ** HTTP as the bridge sees it *)

Record http_request : Type := {
  url : string;
  headers : list (string * string);
  json_body : json;
  timeout : Z
}.

(** [body = None]: the response body is not JSON. *)
Record http_response : Type := {
  status_code : Z;
  response_headers : list (string * string);
  body : option json
}.

Inductive http_outcome : Type :=
| Responded (r : http_response)
| TransportFailed.

Definition ascii_lower (c : ascii) : ascii :=
  let n := nat_of_ascii c in
  if ((65 <=? n) && (n <=? 90))%nat then ascii_of_nat (n + 32) else c.

Fixpoint lower (s : string) : string :=
  match s with
  | EmptyString => EmptyString
  | String c rest => String (ascii_lower c) (lower rest)
  end.

(** [resp.headers.get(name, default)]: requests keeps response headers in a
    case-insensitive dict. *)
Fixpoint headers_get (name default : string) (hs : list (string * string)) : string :=
  match hs with
  | [] => default
  | (k, v) :: rest =>
      if (lower k =? lower name)%string then v else headers_get name default rest
  end.

(** [resp.raise_for_status()]: raises on 4xx and 5xx only. *)
Definition raise_for_status (r : http_response) : outcome unit :=
  if (400 <=? status_code r) && (status_code r <? 600)
  then Raise (HTTPError (status_code r))
  else Return tt.

(** [resp.json()] *)
Definition response_json (r : http_response) : outcome json :=
  match body r with
  | Some v => Return v
  | None => Raise JSONDecodeError
  end.

(* ================================================================= *)
(** ** The bridge *)

(** What [_call_tool] returns: the tuple [({"error": ...}, 500)] or the
    dict [{"result": text, "structured": ...}].  The routes tell them apart
    with [isinstance(result, tuple)]. *)
Inductive tool_return : Type :=
| ToolTuple (payload : json) (status : Z)
| ToolDict (d : json).

(** A Flask view's return value: [jsonify(payload), status]. *)
Record flask_response : Type := {
  response_payload : json;
  response_status : Z
}.

Definition jsonify (payload : json) : flask_response :=
  {| response_payload := payload; response_status := 200 |}.

Definition jsonify_status (payload : json) (status : Z) : flask_response :=
  {| response_payload := payload; response_status := status |}.

(** One entry of the [enriched] list of [/search] and of [/ask]. *)
Record search_entry : Type := {
  se_file : json;
  se_score : json;
  se_content : json
}.

Record ask_entry : Type := {
  ae_file : json;
  ae_content : json
}.

(** The module globals, and the log of every request handed to
    [requests.post] (oldest first). *)
Record bridge_state : Type := {
  _session_id : option string;
  _request_id : Z;
  sent : list http_request
}.

Definition initial_state : bridge_state :=
  {| _session_id := None; _request_id := 0; sent := [] |}.

Definition PROTOCOL_VERSION : string := "2025-11-25".

(** [if _session_id: return _session_id]: the cached identifier, when the
    global is neither [None] nor the empty string. *)
Definition cached (session_id : option string) : option string :=
  match session_id with
  | Some sid => if (sid =? "")%string then None else Some sid
  | None => None
  end.

Definition cached_session (st : bridge_state) : option string :=
  cached (_session_id st).

(** Computations over the globals that may raise.  A raise keeps the state
    reached so far: globals written before the exception stay written. *)
Definition M (A : Type) : Type := bridge_state -> outcome A * bridge_state.

Definition ret {A} (a : A) : M A := fun st => (Return a, st).
Definition raise {A} (e : exn) : M A := fun st => (Raise e, st).
Definition bind {A B} (m : M A) (k : A -> M B) : M B :=
  fun st =>
    match m st with
    | (Return a, st') => k a st'
    | (Raise e, st') => (Raise e, st')
    end.
Definition lift {A} (x : outcome A) : M A := fun st => (x, st).

Notation "x <- m ;; k" := (bind m (fun x => k))
  (at level 61, m at next level, right associativity).
Notation "m ;;; k" := (bind m (fun _ => k))
  (at level 61, right associativity).

(** The body of a [for] loop run over a list, collecting what each
    iteration appends. *)
Fixpoint for_each {A B} (f : A -> M B) (l : list A) : M (list B) :=
  match l with
  | [] => ret []
  | a :: rest => b <- f a ;; bs <- for_each f rest ;; ret (b :: bs)
  end.

Fixpoint collect {A B} (f : A -> outcome B) (l : list A) : outcome (list B) :=
  match l with
  | [] => Return []
  | a :: rest => b <~ f a ;; bs <~ collect f rest ;; Return (b :: bs)
  end.

(** An inbound request, by the view Flask's routing table hands it to:
    GET /health, POST /search and POST /ask with the parsed JSON body
    ([request.json]), GET|POST /list_files and GET|POST /stats, whose views
    never look at the request. *)
Inductive inbound : Type :=
| GetHealth
| PostSearch (request_json : json)
| PostAsk (request_json : json)
| ListFiles
| Stats.

(* ================================================================= *)
(** ** Reading the wire log *)

(** [v.get(key, default)] read off without raising: [default] also when
    [v] is not an object. *)
Definition field_or (key : string) (default : json) (v : json) : json :=
  match v with
  | JObj fields =>
      match dict_lookup key fields with
      | Some x => x
      | None => default
      end
  | _ => default
  end.

Definition json_field (key : string) (v : json) : json := field_or key JNull v.

Definition request_method (r : http_request) : json :=
  json_field "method" (json_body r).

Definition request_tool (r : http_request) : json :=
  json_field "name" (json_field "params" (json_body r)).

Definition request_arguments (r : http_request) : json :=
  json_field "arguments" (json_field "params" (json_body r)).

Definition is_initialize (r : http_request) : bool :=
  py_eq_str (request_method r) "initialize".

Definition is_tools_call (r : http_request) : bool :=
  py_eq_str (request_method r) "tools/call".

(** The [tools/call] requests of a log, oldest first: tool name and
    arguments. *)
Fixpoint tool_calls (log : list http_request) : list (json * json) :=
  match log with
  | [] => []
  | r :: rest =>
      if is_tools_call r
      then (request_tool r, request_arguments r) :: tool_calls rest
      else tool_calls rest
  end.

(** [json.dumps(v, allow_nan=False)], which requests applies to the
    [json=] argument before anything is sent: it refuses NaN and the
    infinities, wherever they sit in the value. *)
Fixpoint serialisable (v : json) : bool :=
  match v with
  | JFloat f => PrimFloat.is_finite f
  | JArr items => forallb serialisable items
  | JObj fields => forallb (fun kv => serialisable (snd kv)) fields
  | _ => true
  end.

(** The requests of a log whose body the library accepted.  The others
    were refused (InvalidJSONError, a RequestException) before anything
    left the process. *)
Definition accepted (log : list http_request) : list http_request :=
  filter (fun r => serialisable (json_body r)) log.

(* ================================================================= *)
(** ** A scripted upstream, for running the bridge on concrete inputs *)

Definition ok_response (hs : list (string * string)) (v : json) : http_outcome :=
  Responded {| status_code := 200; response_headers := hs; body := Some v |}.

Definition rpc_result (result : json) : json :=
  JObj [("jsonrpc", JStr "2.0"); ("id", JInt 0); ("result", result)].

Definition rpc_error (code : Z) (message : string) : json :=
  JObj [("jsonrpc", JStr "2.0"); ("id", JInt 0);
        ("error", JObj [("code", JInt code); ("message", JStr message)])].

Definition text_item (t : string) : json :=
  JObj [("type", JStr "text"); ("text", JStr t)].

Definition demo_hits : list json :=
  [ JObj [("RelPath", JStr "a.md"); ("Score", JFloat 0.87);
          ("Span", JObj [("Kind", JStr "lines"); ("StartLine", JInt 5);
                         ("EndLine", JInt 9)])];
    JObj [("RelPath", JStr "b.md"); ("Score", JFloat 0.5);
          ("Span", JObj [("Kind", JStr "lines")])];
    JObj [("RelPath", JStr "c.pdf"); ("Score", JInt 0);
          ("Span", JObj [("Kind", JStr "page"); ("Page", JInt 2)])];
    JObj [("RelPath", JStr "d.md")] ].

Definition last_request (log : list http_request) : option http_request :=
  last (map Some log) None.

Definition session_granted : http_outcome :=
  ok_response [("mcp-session-id", "sess-1")] (rpc_result (JObj [])).

(** The [dir2mcp.search] answer carrying [hits]. *)
Definition hits_answer (hits : list json) : http_outcome :=
  ok_response [] (rpc_result
    (JObj [("content", JArr [text_item "hits"]);
           ("structuredContent", JObj [("hits", JArr hits)])])).

(** Answers [initialize] with a session header, [dir2mcp.search] with
    [search_answer], and [dir2mcp.open_file] according to [open_file]. *)
Definition scripted (search_answer : http_outcome) (open_file : json -> http_outcome)
  (log : list http_request) : http_outcome :=
  match last_request log with
  | None => TransportFailed
  | Some r =>
      if is_initialize r then session_granted
      else if py_eq_str (request_tool r) "dir2mcp.search" then search_answer
      else if py_eq_str (request_tool r) "dir2mcp.open_file" then
        open_file (json_field "rel_path" (request_arguments r))
      else ok_response [] (rpc_result (JObj []))
  end.

Definition file_text (rel_path : json) : http_outcome :=
  ok_response [] (rpc_result
    (JObj [("content", JArr [text_item "line one"; text_item "line two"])])).

(** [b.md] cannot be opened: the tool reports a JSON-RPC error. *)
Definition second_tool_error (rel_path : json) : http_outcome :=
  if py_eq_str rel_path "b.md"
  then ok_response [] (rpc_error (-32000) "file not found")
  else file_text rel_path.

(** [b.md] cannot be fetched: the upstream answers HTTP 503. *)
Definition second_unavailable (rel_path : json) : http_outcome :=
  if py_eq_str rel_path "b.md"
  then Responded {| status_code := 503; response_headers := []; body := None |}
  else file_text rel_path.

(** The search tool itself reports a JSON-RPC error. *)
Definition search_rejected : http_outcome :=
  ok_response [] (rpc_error (-32602) "index not ready").

(** Upstreams for the handshake alone: a 200 answer with no session
    header, a 401, and a connection that cannot be opened. *)
Definition no_session_header (log : list http_request) : http_outcome :=
  ok_response [("content-type", "application/json")] (rpc_result (JObj [])).

Definition unauthorized (log : list http_request) : http_outcome :=
  Responded {| status_code := 401; response_headers := []; body := None |}.

Definition unreachable (log : list http_request) : http_outcome :=
  TransportFailed.

Definition foo_body : json := JObj [("query", JStr "foo"); ("k", JInt 2)].
Definition foo_question : json := JObj [("question", JStr "foo"); ("k", JInt 9)].

(** The demo hits served, with [b.md] failing as a tool error. *)
Definition tolerant_upstream : list http_request -> http_outcome :=
  scripted (hits_answer demo_hits) second_tool_error.

(** An upstream that answers every request the same way. *)
Definition always (o : http_outcome) (log : list http_request) : http_outcome := o.

(** HTTP 502 whose body is a JSON-RPC error all the same. *)
Definition bad_gateway : http_response :=
  {| status_code := 502;
     response_headers := [];
     body := Some (rpc_error (-32000) "upstream down") |}.

(** A 200 whose body is not JSON, and one whose body is a JSON array. *)
Definition html_page : http_response :=
  {| status_code := 200; response_headers := []; body := None |}.

Definition array_page : http_response :=
  {| status_code := 200; response_headers := []; body := Some (JArr [JInt 1]) |}.

(** A tool error under a 200. *)
Definition tool_failed : http_response :=
  {| status_code := 200;
     response_headers := [];
     body := Some (rpc_error (-32000) "index not ready") |}.

(** What [dir2mcp.list_files] answers: two textual entries around an
    image, and a structured payload. *)
Definition listed_content : list json :=
  [text_item "a.md";
   JObj [("type", JStr "image"); ("data", JStr "iVBORw0KGgo=")];
   text_item "b.md"].

Definition listed_result : list (string * json) :=
  [("content", JArr listed_content);
   ("structuredContent", JObj [("files", JArr [JStr "a.md"; JStr "b.md"])])].

Definition files_listed : http_response :=
  {| status_code := 200;
     response_headers := [];
     body := Some (rpc_result (JObj listed_result)) |}.

(** A search answered with text only: no [structuredContent]. *)
Definition text_only_result : list (string * json) :=
  [("content", JArr [text_item "2 hits"])].

Definition text_only : http_response :=
  {| status_code := 200;
     response_headers := [];
     body := Some (rpc_result (JObj text_only_result)) |}.

(** Two hits, the second with a null score. *)
Definition unscored_hits : list json :=
  [ JObj [("RelPath", JStr "a.md"); ("Score", JFloat 0.87)];
    JObj [("RelPath", JStr "b.md"); ("Score", JNull)] ].

(** The scripted upstream again, handing out no session identifier. *)
Definition stateless (search_answer : http_outcome) (open_file : json -> http_outcome)
  (log : list http_request) : http_outcome :=
  match last_request log with
  | None => TransportFailed
  | Some r =>
      if is_initialize r then no_session_header log
      else scripted search_answer open_file log
  end.

(** Two hits, the second with a null span. *)
Definition null_span_hits : list json :=
  [ JObj [("RelPath", JStr "a.md"); ("Score", JFloat 0.87)];
    JObj [("RelPath", JStr "b.md"); ("Score", JFloat 0.5); ("Span", JNull)] ].

(** An upstream as the library presents it: a request whose body cannot
    be serialised is refused, whatever the server would have answered. *)
Definition refusing (up : list http_request -> http_outcome)
  (log : list http_request) : http_outcome :=
  match last_request log with
  | None => up log
  | Some r => if serialisable (json_body r) then up log else TransportFailed
  end.

(** The body [{"query": "foo", "k": 1e999}] as [request.json] reads it. *)
Definition huge_k_body : json :=
  JObj [("query", JStr "foo"); ("k", JFloat infinity)].

Definition demo_url : string := "http://127.0.0.1:8087/mcp".
Definition demo_token : string := "secret".

Definition demo_str (v : json) : string := "?".


(* ================================================================= *)
(** ** Request threads

    Flask serves each inbound request on a thread of its own.  What the
    threads share are the two globals and the two locks; a thread inside
    [_call_tool] moves through the program points below, one access to a
    shared object per step.  A schedule picks which thread moves next, and
    what the upstream answers when that thread is waiting for it. *)

(** Where [_next_id()] returns to. *)
Inductive caller : Type :=
| ForHandshake               (* the [json=] argument of the initialize POST *)
| ForCall (sid : string).    (* the [json=] argument of the tools/call POST *)

(** Inside [_next_id]. *)
Inductive id_point : Type :=
| IdAcquire                  (* at [with _id_lock:] *)
| IdLoad                     (* [_request_id += 1]: about to read the global *)
| IdStore (tmp : Z)          (* [_request_id += 1]: about to write [tmp + 1] *)
| IdReturn.                  (* [return _request_id], then the lock is released *)

Inductive program_point : Type :=
| AcquireSession             (* [_ensure_session]: at [with _session_lock:] *)
| CheckSession               (* holding the lock, at [if _session_id:] *)
| NextId (k : caller) (p : id_point)
| SendHandshake (id : Z)     (* about to POST initialize *)
| AwaitHandshake (id : Z)    (* blocked in [requests.post], lock held *)
| HaveSession (sid : string) (* [_ensure_session] returned [sid] *)
| SendTool (sid : string) (id : Z)
| AwaitTool (sid : string) (id : Z)
| Finished.                  (* [_call_tool] returned or raised *)

Inductive event : Type :=
| EvIssued (t : nat) (n : Z)                 (* [_next_id] read its return value *)
| EvHandshakeSent (t : nat) (id : Z)
| EvHandshakeFailed (t : nat) (e : exn)      (* the POST or raise_for_status raised *)
| EvHandshakeAnswered (t : nat) (sid : string)  (* [_session_id = sid] *)
| EvSession (t : nat) (sid : string)         (* [_ensure_session] returned [sid] *)
| EvToolSent (t : nat) (sid : string) (id : Z).

Record world : Type := {
  threads : nat -> program_point;
  w_session_id : option string;     (* _session_id *)
  w_request_id : Z;                 (* _request_id *)
  w_session_lock : option nat;      (* holder of _session_lock *)
  w_id_lock : option nat;           (* holder of _id_lock *)
  history : list event              (* oldest first *)
}.

Definition initial_world : world :=
  {| threads := fun _ => AcquireSession;
     w_session_id := None;
     w_request_id := 0;
     w_session_lock := None;
     w_id_lock := None;
     history := [] |}.

Definition update (t : nat) (p : program_point) (f : nat -> program_point)
  : nat -> program_point :=
  fun u => if Nat.eqb u t then p else f u.

Definition at_point (t : nat) (p : program_point) (w : world) : world :=
  {| threads := update t p (threads w);
     w_session_id := w_session_id w;
     w_request_id := w_request_id w;
     w_session_lock := w_session_lock w;
     w_id_lock := w_id_lock w;
     history := history w |}.

Definition set_session_lock (l : option nat) (w : world) : world :=
  {| threads := threads w;
     w_session_id := w_session_id w;
     w_request_id := w_request_id w;
     w_session_lock := l;
     w_id_lock := w_id_lock w;
     history := history w |}.

Definition set_id_lock (l : option nat) (w : world) : world :=
  {| threads := threads w;
     w_session_id := w_session_id w;
     w_request_id := w_request_id w;
     w_session_lock := w_session_lock w;
     w_id_lock := l;
     history := history w |}.

Definition set_session_id (sid : string) (w : world) : world :=
  {| threads := threads w;
     w_session_id := Some sid;
     w_request_id := w_request_id w;
     w_session_lock := w_session_lock w;
     w_id_lock := w_id_lock w;
     history := history w |}.

Definition set_request_id (n : Z) (w : world) : world :=
  {| threads := threads w;
     w_session_id := w_session_id w;
     w_request_id := n;
     w_session_lock := w_session_lock w;
     w_id_lock := w_id_lock w;
     history := history w |}.

Definition record (es : list event) (w : world) : world :=
  {| threads := threads w;
     w_session_id := w_session_id w;
     w_request_id := w_request_id w;
     w_session_lock := w_session_lock w;
     w_id_lock := w_id_lock w;
     history := (history w ++ es)%list |}.

(** What the handshake makes of the upstream's answer: lines 42-62. *)
Definition handshake_result (o : http_outcome) : outcome string :=
  match o with
  | TransportFailed => Raise RequestException
  | Responded r =>
      obind (raise_for_status r) (fun _ =>
      Return (headers_get "Mcp-Session-Id" "" (response_headers r)))
  end.

Definition after_id (k : caller) (n : Z) : program_point :=
  match k with
  | ForHandshake => SendHandshake n
  | ForCall sid => SendTool sid n
  end.

(** Thread [t] takes its next step; [o] is the upstream's answer, used
    only when [t] is waiting for one.  A thread at a lock that is taken
    stays where it is. *)
Definition thread_step (t : nat) (o : http_outcome) (w : world) : world :=
  match threads w t with
  | AcquireSession =>
      match w_session_lock w with
      | None => at_point t CheckSession (set_session_lock (Some t) w)
      | Some _ => w
      end
  | CheckSession =>
      match cached (w_session_id w) with
      | Some sid =>
          at_point t (HaveSession sid)
            (record [EvSession t sid] (set_session_lock None w))
      | None => at_point t (NextId ForHandshake IdAcquire) w
      end
  | NextId k IdAcquire =>
      match w_id_lock w with
      | None => at_point t (NextId k IdLoad) (set_id_lock (Some t) w)
      | Some _ => w
      end
  | NextId k IdLoad => at_point t (NextId k (IdStore (w_request_id w))) w
  | NextId k (IdStore tmp) =>
      at_point t (NextId k IdReturn) (set_request_id (tmp + 1) w)
  | NextId k IdReturn =>
      at_point t (after_id k (w_request_id w))
        (record [EvIssued t (w_request_id w)] (set_id_lock None w))
  | SendHandshake id =>
      at_point t (AwaitHandshake id) (record [EvHandshakeSent t id] w)
  | AwaitHandshake id =>
      match handshake_result o with
      | Return sid =>
          at_point t (HaveSession sid)
            (record [EvHandshakeAnswered t sid; EvSession t sid]
               (set_session_lock None (set_session_id sid w)))
      | Raise e =>
          at_point t Finished
            (record [EvHandshakeFailed t e] (set_session_lock None w))
      end
  | HaveSession sid => at_point t (NextId (ForCall sid) IdAcquire) w
  | SendTool sid id =>
      at_point t (AwaitTool sid id) (record [EvToolSent t sid id] w)
  | AwaitTool sid id => at_point t Finished w
  | Finished => at_point t AcquireSession w
  end.

Fixpoint run_schedule (schedule : list (nat * http_outcome)) (w : world) : world :=
  match schedule with
  | [] => w
  | (t, o) :: rest => run_schedule rest (thread_step t o w)
  end.

(** The request ids in the order they were issued. *)
Fixpoint issued (h : list event) : list Z :=
  match h with
  | [] => []
  | EvIssued _ n :: rest => n :: issued rest
  | _ :: rest => issued rest
  end.

(** The session identifiers [_ensure_session] handed to its callers. *)
Fixpoint observed (h : list event) : list string :=
  match h with
  | [] => []
  | EvSession _ sid :: rest => sid :: observed rest
  | _ :: rest => observed rest
  end.

Definition is_handshake_sent (e : event) : bool :=
  match e with EvHandshakeSent _ _ => true | _ => false end.

(** A handshake that left the session unset: it raised, or it stored the
    empty string. *)
Definition is_handshake_lost (e : event) : bool :=
  match e with
  | EvHandshakeFailed _ _ => true
  | EvHandshakeAnswered _ sid => (sid =? "")%string
  | _ => false
  end.

Definition is_handshake_established (e : event) : bool :=
  match e with
  | EvHandshakeAnswered _ sid => negb (sid =? "")%string
  | _ => false
  end.

Definition count (p : event -> bool) (h : list event) : nat :=
  length (filter p h).

Definition holds_session_lock (p : program_point) : bool :=
  match p with
  | CheckSession | NextId ForHandshake _ | SendHandshake _ | AwaitHandshake _ => true
  | _ => false
  end.

Definition holds_id_lock (p : program_point) : bool :=
  match p with
  | NextId _ IdLoad | NextId _ (IdStore _) | NextId _ IdReturn => true
  | _ => false
  end.

Definition awaiting_handshake (p : program_point) : bool :=
  match p with
  | AwaitHandshake _ => true
  | _ => false
  end.

(** Handshakes in flight: requests sent and not yet answered. *)
Definition in_flight (w : world) : nat :=
  match w_session_lock w with
  | Some t => if awaiting_handshake (threads w t) then 1 else 0
  | None => 0
  end.

(** An upstream answer that establishes a session when it is the answer
    to a handshake. *)
Definition establishes (o : http_outcome) : bool :=
  match handshake_result o with
  | Return sid => negb (sid =? "")%string
  | Raise _ => false
  end.

(** The world in which the globals are those of [st], no thread has
    started and both locks are free. *)
Definition world_of (st : bridge_state) : world :=
  {| threads := fun _ => AcquireSession;
     w_session_id := _session_id st;
     w_request_id := _request_id st;
     w_session_lock := None;
     w_id_lock := None;
     history := [] |}.

(** Thread [t] running alone for [n] steps, the upstream answering [o]. *)
Definition alone (t : nat) (o : http_outcome) (n : nat) : list (nat * http_outcome) :=
  repeat (t, o) n.

(** Two requests racing their first tool call: thread 1 arrives while
    thread 0 is inside the handshake, and they then draw their request ids
    in alternation. *)
Definition racing_schedule : list (nat * http_outcome) :=
  map (fun t => (t, session_granted))
      [0; 1; 0; 0; 0; 1; 0; 0; 0; 1; 0; 1; 1; 0; 1; 0; 1; 0; 1; 0; 1; 0; 1;
       1; 1; 1; 0; 1; 0; 1]%nat.

(** Thread 0's handshake cannot reach the upstream; thread 1, which was
    waiting at the guard, then makes a handshake of its own. *)
Definition retry_schedule : list (nat * http_outcome) :=
  (map (fun t => (t, TransportFailed)) [0; 1; 0; 0; 0; 0; 0; 0; 0]
   ++ map (fun t => (t, session_granted)) [1; 1; 1; 1; 1; 1; 1; 1])%nat%list.

(** The thread is between the cache miss and the end of the handshake. *)
Definition handshaking (p : program_point) : bool :=
  match p with
  | NextId ForHandshake _ | SendHandshake _ | AwaitHandshake _ => true
  | _ => false
  end.

(** What holds of every world the threads can reach. *)
Record consistent (w : world) : Prop := {
  session_lock_held :
    forall u, holds_session_lock (threads w u) = true <-> w_session_lock w = Some u;
  id_lock_held :
    forall u, holds_id_lock (threads w u) = true <-> w_id_lock w = Some u;
  issued_bounded : Forall (fun n => n <= w_request_id w) (issued (history w));
  store_fresh :
    forall u k tmp, threads w u = NextId k (IdStore tmp) -> tmp = w_request_id w;
  return_fresh :
    forall u k, threads w u = NextId k IdReturn ->
                Forall (fun n => n < w_request_id w) (issued (history w));
  issued_sorted : StronglySorted Z.lt (issued (history w));
  handshake_unset :
    forall u, handshaking (threads w u) = true -> cached (w_session_id w) = None;
  observed_cached :
    forall sid, In sid (observed (history w)) -> sid <> "" ->
                w_session_id w = Some sid;
  handshakes_counted :
    count is_handshake_sent (history w)
    = (count is_handshake_lost (history w)
       + count is_handshake_established (history w) + in_flight w)%nat;
  established_cached :
    count is_handshake_established (history w)
    = match cached (w_session_id w) with Some _ => 1%nat | None => 0%nat end
}.

(** The thread is waiting at a lock that another thread holds. *)
Definition blocked (t : nat) (w : world) : bool :=
  match threads w t with
  | AcquireSession =>
      match w_session_lock w with Some _ => true | None => false end
  | NextId _ IdAcquire =>
      match w_id_lock w with Some _ => true | None => false end
  | _ => false
  end.

(** The JSON-RPC ids put on the wire, in the order the requests left. *)
Fixpoint sent_ids (h : list event) : list Z :=
  match h with
  | [] => []
  | EvHandshakeSent _ id :: rest => id :: sent_ids rest
  | EvToolSent _ _ id :: rest => id :: sent_ids rest
  | _ :: rest => sent_ids rest
  end.

(** The id a thread has drawn for a request it has not sent yet. *)
Definition pending_id (p : program_point) : option Z :=
  match p with
  | SendHandshake id => Some id
  | SendTool _ id => Some id
  | _ => None
  end.

(** Ids between [_next_id] and the wire: every id sent or about to be
    sent was issued, and none is sent, or held, twice. *)
Record wire_consistent (w : world) : Prop := {
  sent_issued :
    forall id, In id (sent_ids (history w)) -> In id (issued (history w));
  sent_nodup : NoDup (sent_ids (history w));
  pending_issued :
    forall u id, pending_id (threads w u) = Some id -> In id (issued (history w));
  pending_unsent :
    forall u id, pending_id (threads w u) = Some id ->
                 ~ In id (sent_ids (history w));
  pending_distinct :
    forall u v id, pending_id (threads w u) = Some id ->
                   pending_id (threads w v) = Some id -> u = v
}.

(** Thread 0 shakes hands and draws the id of its tool call; thread 1
    then finds the session cached, draws the next id and sends its tool
    call before thread 0 sends its own. *)
Definition overtaking_schedule : list (nat * http_outcome) :=
  map (fun t => (t, session_granted))
      [0; 0; 0; 0; 0; 0; 0; 0; 0; 0; 0; 0; 0;
       1; 1; 1; 1; 1; 1; 1; 1; 0]%nat.

Section Bridge.

(** Configuration read from the environment at import time. *)
Variable MCP_URL : string.
Variable MCP_TOKEN : string.

(** The upstream server and the network: what [requests.post] yields for
    the newest request, given everything sent so far. *)
Variable upstream : list http_request -> http_outcome.

(** [str(v)] for a value that is not a str (f-string interpolation with
    no format specifier); its text is left open. *)
Variable py_str : json -> string.

Definition format_value (v : json) : string :=
  match v with
  | JStr s => s
  | _ => py_str v
  end.

(** [requests.post(MCP_URL, headers=..., json=..., timeout=...)].  The
    call is logged, and what it yields, a response or a RequestException,
    is the upstream's to say.  The log is of calls, not of what reached
    the network: a call the library refuses before sending (a body that
    [json.dumps(allow_nan=False)] rejects raises InvalidJSONError, a
    RequestException) is logged like any other, and corresponds to an
    upstream that answers [TransportFailed] to it. *)
Definition requests_post (req : http_request) : M http_response :=
  fun st =>
    let log := (sent st ++ [req])%list in
    let st' := {| _session_id := _session_id st;
                  _request_id := _request_id st;
                  sent := log |} in
    match upstream log with
    | Responded r => (Return r, st')
    | TransportFailed => (Raise RequestException, st')
    end.

Definition _next_id : M Z :=
  fun st =>
    let n := _request_id st + 1 in
    (Return n, {| _session_id := _session_id st; _request_id := n; sent := sent st |}).

Definition set_session (sid : string) : M unit :=
  fun st =>
    (Return tt, {| _session_id := Some sid;
                   _request_id := _request_id st;
                   sent := sent st |}).

Definition initialize_request (id : Z) : http_request :=
  {| url := MCP_URL;
     headers := [("Content-Type", "application/json");
                 ("MCP-Protocol-Version", PROTOCOL_VERSION);
                 ("Authorization", "Bearer " ++ MCP_TOKEN)];
     json_body :=
       JObj [("jsonrpc", JStr "2.0");
             ("id", JInt id);
             ("method", JStr "initialize");
             ("params",
              JObj [("protocolVersion", JStr PROTOCOL_VERSION);
                    ("capabilities", JObj []);
                    ("clientInfo",
                     JObj [("name", JStr "elevenlabs-bridge");
                           ("version", JStr "1.0")])])];
     timeout := 10 |}.

(** Initialize MCP session if not already done. *)
Definition _ensure_session : M string :=
  fun st =>
    match cached_session st with
    | Some sid => (Return sid, st)
    | None =>
        (id <- _next_id ;;
         resp <- requests_post (initialize_request id) ;;
         lift (raise_for_status resp) ;;;
         let sid := headers_get "Mcp-Session-Id" "" (response_headers resp) in
         set_session sid ;;;
         ret sid) st
    end.

Definition tools_call_request (session_id : string) (id : Z)
           (tool_name : string) (arguments : json) : http_request :=
  {| url := MCP_URL;
     headers := [("Content-Type", "application/json");
                 ("MCP-Protocol-Version", PROTOCOL_VERSION);
                 ("Authorization", "Bearer " ++ MCP_TOKEN);
                 ("MCP-Session-Id", session_id)];
     json_body :=
       JObj [("jsonrpc", JStr "2.0");
             ("id", JInt id);
             ("method", JStr "tools/call");
             ("params", JObj [("name", JStr tool_name);
                              ("arguments", arguments)])];
     timeout := 30 |}.

(** The generator [c.get("text", "") for c in content
    if c.get("type") == "text"], one element at a time. *)
Definition text_entry (c : json) : outcome (list json) :=
  ty <~ py_get c "type" JNull ;;
  if py_eq_str ty "text"
  then t <~ py_get c "text" (JStr "") ;; Return [t]
  else Return [].

Definition text_entries (content : json) : outcome (list json) :=
  cs <~ py_iter content ;;
  parts <~ collect text_entry cs ;;
  Return (concat parts).

(** The part of [_call_tool] after [data = resp.json()]. *)
Definition decode_tool_response (data : json) : outcome tool_return :=
  has_error <~ py_in "error" data ;;
  if has_error then
    e <~ py_getitem data "error" ;;
    Return (ToolTuple (JObj [("error", e)]) 500)
  else
    result <~ py_get data "result" (JObj []) ;;
    content <~ py_get result "content" (JArr []) ;;
    parts <~ text_entries content ;;
    text <~ py_join nl parts ;;
    structured <~ py_get result "structuredContent" JNull ;;
    Return (ToolDict (JObj [("result", JStr text);
                            ("structured", structured)])).

(** Call an MCP tool and return the result. *)
Definition _call_tool (tool_name : string) (arguments : json) : M tool_return :=
  session_id <- _ensure_session ;;
  id <- _next_id ;;
  resp <- requests_post (tools_call_request session_id id tool_name arguments) ;;
  lift (raise_for_status resp) ;;;
  data <- lift (response_json resp) ;;
  lift (decode_tool_response data).

(** Lines 119-124 and 153-158, the same in both routes: the hit's
    [rel_path] and the [args] dict for [dir2mcp.open_file]. *)
Definition open_file_args (h : json) : outcome (json * json) :=
  rel_path <~ py_get h "RelPath" (JStr "") ;;
  span <~ py_get h "Span" (JObj []) ;;
  let args := [("rel_path", rel_path); ("max_chars", JInt 3000)] in
  kind <~ py_get span "Kind" JNull ;;
  if py_eq_str kind "lines" then
    start_line <~ py_get span "StartLine" (JInt 1) ;;
    let args := dict_set "start_line" start_line args in
    end_line <~ py_get span "EndLine" (JInt 100) ;;
    let args := dict_set "end_line" end_line args in
    Return (rel_path, JObj args)
  else Return (rel_path, JObj args).

(** [source.get("result", "") if not isinstance(source, tuple) else ""] *)
Definition source_text (source : tool_return) : outcome json :=
  match source with
  | ToolTuple _ _ => Return (JStr "")
  | ToolDict d => py_get d "result" (JStr "")
  end.

(** What both loop bodies do first: build the arguments, call
    [dir2mcp.open_file]. *)
Definition fetch_hit (h : json) : M (json * tool_return) :=
  ra <- lift (open_file_args h) ;;
  source <- _call_tool "dir2mcp.open_file" (snd ra) ;;
  ret (fst ra, source).

(** One iteration of the loop of [/search]. *)
Definition search_hit (h : json) : M search_entry :=
  fetched <- fetch_hit h ;;
  text <- lift (source_text (snd fetched)) ;;
  score <- lift (py_get h "Score" (JInt 0)) ;;
  ret {| se_file := fst fetched; se_score := score; se_content := text |}.

(** One iteration of the loop of [/ask]. *)
Definition ask_hit (h : json) : M ask_entry :=
  fetched <- fetch_hit h ;;
  text <- lift (source_text (snd fetched)) ;;
  ret {| ae_file := fst fetched; ae_content := text |}.

(** [f"=== {e['file']} (relevance: {e['score']:.0%}) ===\n{e['content']}"] *)
Definition search_block (e : search_entry) : outcome string :=
  pct <~ format_percent (se_score e) ;;
  Return ("=== " ++ format_value (se_file e) ++ " (relevance: " ++ pct ++ ") ==="
          ++ nl ++ format_value (se_content e)).

(** [f"=== Source: {e['file']} ===\n{e['content']}"] *)
Definition ask_block (e : ask_entry) : string :=
  "=== Source: " ++ format_value (ae_file e) ++ " ===" ++ nl
  ++ format_value (ae_content e).

(** [result.get("structured", {}).get("hits", [])] followed by the
    slice [hits[:3]] the loop runs over. *)
Definition first_hits (d : json) : outcome (list json) :=
  structured <~ py_get d "structured" (JObj []) ;;
  hits <~ py_get structured "hits" (JArr []) ;;
  first3 <~ py_slice_to 3 hits ;;
  py_iter first3.

(** GET /health *)
Definition health : flask_response :=
  jsonify (JObj [("status", JStr "ok")]).

(** The rest of [search] once the [dir2mcp.search] call has returned:
    the error passthrough, then enrichment and the summary. *)
Definition search_respond (result : tool_return) : M flask_response :=
  match result with
  | ToolTuple payload status => ret (jsonify_status payload status)
  | ToolDict d =>
      hits <- lift (first_hits d) ;;
      enriched <- for_each search_hit hits ;;
      blocks <- lift (collect search_block enriched) ;;
      ret (jsonify (JObj [("result", JStr (String.concat (nl ++ nl) blocks))]))
  end.

(** POST /search: semantic search across indexed documents, returns full
    source text.  [request_json] is Flask's [request.json]. *)
Definition search (request_json : json) : M flask_response :=
  let body := py_or request_json (JObj []) in
  query <- lift (py_get body "query" (JStr "")) ;;
  if negb (truthy query) then
    ret (jsonify_status (JObj [("error", JStr "query is required")]) 400)
  else
    k <- lift (py_get body "k" (JInt 3)) ;;
    result <- _call_tool "dir2mcp.search" (JObj [("query", query); ("k", k)]) ;;
    search_respond result.

(** The rest of [ask] once the [dir2mcp.search] call has returned. *)
Definition ask_respond (question : json) (result : tool_return) : M flask_response :=
  match result with
  | ToolTuple payload status => ret (jsonify_status payload status)
  | ToolDict d =>
      hits <- lift (first_hits d) ;;
      enriched <- for_each ask_hit hits ;;
      let context := String.concat (nl ++ nl) (map ask_block enriched) in
      ret (jsonify (JObj [("result",
             JStr ("Question: " ++ format_value question ++ nl ++ nl
                   ++ "Relevant document content:" ++ nl ++ nl ++ context))]))
  end.

(** POST /ask: answer a question using search + full source text. *)
Definition ask (request_json : json) : M flask_response :=
  let body := py_or request_json (JObj []) in
  question <- lift (py_get body "question" (JStr "")) ;;
  if negb (truthy question) then
    ret (jsonify_status (JObj [("error", JStr "question is required")]) 400)
  else
    result <- _call_tool "dir2mcp.search" (JObj [("query", question); ("k", JInt 3)]) ;;
    ask_respond question result.

(** GET|POST /list_files and /stats: the tool's result, or its error. *)
Definition passthrough (tool_name : string) : M flask_response :=
  result <- _call_tool tool_name (JObj []) ;;
  match result with
  | ToolTuple payload status => ret (jsonify_status payload status)
  | ToolDict d => ret (jsonify d)
  end.

Definition list_files : M flask_response := passthrough "dir2mcp.list_files".
Definition stats : M flask_response := passthrough "dir2mcp.stats".

(** The routing table. *)
Definition serve (i : inbound) : M flask_response :=
  match i with
  | GetHealth => ret health
  | PostSearch request_json => search request_json
  | PostAsk request_json => ask request_json
  | ListFiles => list_files
  | Stats => stats
  end.

(** Requests served one after the other by the same process.  A view that
    raises is answered by Flask with a 500 of its own; the globals stay as
    the view left them and the next request is served from there. *)
Fixpoint serve_all (requests : list inbound) (st : bridge_state) : bridge_state :=
  match requests with
  | [] => st
  | i :: rest => serve_all rest (snd (serve i st))
  end.

(* --------------------------------------------------------------- *)
(** *** Specification-side and auxiliary definitions *)

(** A request body "has a non-empty [key] field". *)
Definition has_nonempty (key : string) (request_json : json) : bool :=
  match request_json with
  | JObj fields =>
      match dict_lookup key fields with
      | Some v => truthy v
      | None => false
      end
  | _ => false
  end.

Definition is_object (v : json) : bool :=
  match v with
  | JObj _ => true
  | _ => false
  end.

(** The 400 answer of a route whose required field is missing. *)
Definition missing_field_response (key : string) : flask_response :=
  {| response_payload := JObj [("error", JStr (key ++ " is required"))];
     response_status := 400 |}.

(** The response carries a session identifier header. *)
Definition has_header (name : string) (hs : list (string * string)) : bool :=
  existsb (fun kv => (lower (fst kv) =? lower name)%string) hs.

(** A content entry is flagged as textual. *)
Definition is_textual (c : json) : bool :=
  py_eq_str (json_field "type" c) "text".

Definition entry_text (c : json) : string :=
  match json_field "text" c with
  | JStr t => t
  | _ => ""
  end.

(** The newline-join, in the order returned, of the textual entries. *)
Definition joined_text (content : list json) : string :=
  String.concat nl (map entry_text (filter is_textual content)).

(** A content entry the code can read: an object whose [text], when the
    entry is textual and has one, is a string. *)
Definition readable_entry (c : json) : bool :=
  match c with
  | JObj fields =>
      if is_textual c then
        match dict_lookup "text" fields with
        | Some (JStr _) | None => true
        | Some _ => false
        end
      else true
  | _ => false
  end.

(** The state after a [tools/call] request went out. *)
Definition after_call_sent (sid tool_name : string) (arguments : json)
           (st : bridge_state) : bridge_state :=
  {| _session_id := _session_id st;
     _request_id := _request_id st + 1;
     sent := sent st ++ [tools_call_request sid (_request_id st + 1)
                                            tool_name arguments] |}.

(** What [_call_tool] makes of the upstream's answer to its request. *)
Definition tool_outcome (o : http_outcome) : outcome tool_return :=
  match o with
  | TransportFailed => Raise RequestException
  | Responded r =>
      obind (raise_for_status r) (fun _ =>
      data <~ response_json r ;;
      decode_tool_response data)
  end.

(** The [open_file] argument set in the specification's words:
    [rel_path], the 3000 character cap and, only when the span kind is
    "lines", the [start_line]/[end_line] pair with defaults 1 and 100. *)
Definition spec_open_file_arguments (h : json) : json :=
  let span := field_or "Span" (JObj []) h in
  JObj ([("rel_path", field_or "RelPath" (JStr "") h);
         ("max_chars", JInt 3000)]
        ++ (if py_eq_str (field_or "Kind" JNull span) "lines"
            then [("start_line", field_or "StartLine" (JInt 1) span);
                  ("end_line", field_or "EndLine" (JInt 100) span)]
            else []))%list.

(** The [tools/call] a hit's content fetch puts on the wire. *)
Definition open_file_call (h : json) : json * json :=
  (JStr "dir2mcp.open_file", spec_open_file_arguments h).

(** The content kept for a hit: the fetched text, or the empty string
    when the fetch came back as a tool error. *)
Definition fetched_text (source : tool_return) : string :=
  match source with
  | ToolTuple _ _ => ""
  | ToolDict d =>
      match field_or "result" (JStr "") d with
      | JStr t => t
      | _ => ""
      end
  end.

Definition search_entry_of (h : json) (source : tool_return) : search_entry :=
  {| se_file := field_or "RelPath" (JStr "") h;
     se_score := field_or "Score" (JInt 0) h;
     se_content := JStr (fetched_text source) |}.

Definition ask_entry_of (h : json) (source : tool_return) : ask_entry :=
  {| ae_file := field_or "RelPath" (JStr "") h;
     ae_content := JStr (fetched_text source) |}.

(** The dict [_call_tool] builds on success. *)
Definition tool_dict (text : string) (structured : json) : tool_return :=
  ToolDict (JObj [("result", JStr text); ("structured", structured)]).

Definition well_shaped (source : tool_return) : Prop :=
  match source with
  | ToolTuple _ _ => True
  | ToolDict d => exists text structured,
      d = JObj [("result", JStr text); ("structured", structured)]
  end.

(** The [enriched] list a completed loop leaves, from the hits and what
    each fetch returned. *)
Definition search_entries (hits : list json) (fetched : list (json * tool_return))
  : list search_entry :=
  map (fun p => search_entry_of (fst p) (snd (snd p))) (combine hits fetched).

Definition ask_entries (hits : list json) (fetched : list (json * tool_return))
  : list ask_entry :=
  map (fun p => ask_entry_of (fst p) (snd (snd p))) (combine hits fetched).

(** The arguments [search] passes to [dir2mcp.search]. *)
Definition search_arguments (query k : json) : json :=
  JObj [("query", query); ("k", k)].

(** The [dir2mcp.search] call returned a result whose structured payload
    is an object with the array [all_hits] as its [hits] (or no [hits],
    when [all_hits] is empty). *)
Definition search_returned (arguments : json) (st : bridge_state)
           (all_hits : list json) (st1 : bridge_state) : Prop :=
  exists text structured,
    _call_tool "dir2mcp.search" arguments st
    = (Return (tool_dict text (JObj structured)), st1)
    /\ py_get (JObj structured) "hits" (JArr []) = Return (JArr all_hits).

(** The score as [.0%] prints it (empty where the format is rejected). *)
Definition percent_text (v : json) : string :=
  match format_percent v with
  | Return s => s
  | Raise _ => ""
  end.

Definition percent_defined (v : json) : bool :=
  match format_percent v with
  | Return _ => true
  | Raise _ => false
  end.

(** A /search block in the specification's words: the header line
    [=== {file} (relevance: {score as a percentage}) ===], a newline, the
    content. *)
Definition spec_search_block (e : search_entry) : string :=
  "=== " ++ format_value (se_file e) ++ " (relevance: "
  ++ percent_text (se_score e) ++ ") ===" ++ nl ++ format_value (se_content e).

(** An /ask block: [=== Source: {file} ===], a newline, the content. *)
Definition spec_ask_block (e : ask_entry) : string :=
  "=== Source: " ++ format_value (ae_file e) ++ " ===" ++ nl
  ++ format_value (ae_content e).

(** Blocks separated by a blank line. *)
Definition blank_line_join (blocks : list string) : string :=
  String.concat (nl ++ nl) blocks.

Definition spec_search_result (entries : list search_entry) : string :=
  blank_line_join (map spec_search_block entries).

(** The /ask text: the original question first, then the blocks. *)
Definition spec_ask_result (question : json) (entries : list ask_entry) : string :=
  "Question: " ++ format_value question ++ nl ++ nl
  ++ "Relevant document content:" ++ nl ++ nl
  ++ blank_line_join (map spec_ask_block entries).

Definition result_response (text : string) : flask_response :=
  {| response_payload := JObj [("result", JStr text)]; response_status := 200 |}.

(** [n] calls of [_next_id] one after the other. *)
Fixpoint draw_ids (n : nat) : M (list Z) :=
  match n with
  | O => ret []
  | S m => id <- _next_id ;; ids <- draw_ids m ;; ret (id :: ids)
  end.

(** The state after the [initialize] request went out: one id drawn,
    one request logged, the session global as it was. *)
Definition after_handshake_sent (st : bridge_state) : bridge_state :=
  {| _session_id := _session_id st;
     _request_id := _request_id st + 1;
     sent := sent st ++ [initialize_request (_request_id st + 1)] |}.

Definition with_session (sid : string) (st : bridge_state) : bridge_state :=
  {| _session_id := Some sid; _request_id := _request_id st; sent := sent st |}.

(** The state once a first handshake has been answered with the
    session [sess-1]. *)
Definition session_ready : bridge_state :=
  {| _session_id := Some "sess-1";
     _request_id := 1;
     sent := [initialize_request 1] |}.

Definition foo_arguments : json := search_arguments (JStr "foo") (JInt 2).

(** Where the [dir2mcp.search] call for "foo" leaves a fresh bridge,
    and what the loop over the first three [demo_hits] then fetches. *)
Definition after_search : bridge_state :=
  snd (_call_tool "dir2mcp.search" foo_arguments initial_state).

Definition demo_fetched : list (json * tool_return) :=
  match fst (for_each fetch_hit (firstn 3 demo_hits) after_search) with
  | Return fetched => fetched
  | Raise _ => []
  end.

Definition after_fetches : bridge_state :=
  snd (for_each fetch_hit (firstn 3 demo_hits) after_search).

(** The JSON-RPC [id] a request carries. *)
Definition request_id_of (r : http_request) : json :=
  json_field "id" (json_body r).

Definition posted_ids (log : list http_request) : list json :=
  map request_id_of log.

(** The ids 1, 2, ..., n. *)
Definition count_up (n : nat) : list json :=
  map (fun i => JInt (Z.of_nat i)) (seq 1 n).

(** The tools the views name. *)
Definition bridge_tools : list string :=
  ["dir2mcp.search"; "dir2mcp.open_file"; "dir2mcp.list_files"; "dir2mcp.stats"].

(** [headers[name]] of an outbound request, when the key is set. *)
Fixpoint header_value (name : string) (hs : list (string * string)) : option string :=
  match hs with
  | [] => None
  | (k, v) :: rest => if (k =? name)%string then Some v else header_value name rest
  end.

(** The session identifier an outbound request presents. *)
Definition request_session (r : http_request) : option string :=
  header_value "MCP-Session-Id" (headers r).

(** The session identifiers the upstream handed out over a log: for each
    [initialize] request in it, what the upstream answered to the log up
    to that request, when the answer is one the handshake accepts. *)
Fixpoint grants_from (before log : list http_request) : list string :=
  match log with
  | [] => []
  | r :: rest =>
      let seen := (before ++ [r])%list in
      ((if is_initialize r then
          match handshake_result (upstream seen) with
          | Return sid => [sid]
          | Raise _ => []
          end
        else []) ++ grants_from seen rest)%list
  end.

Definition grants (log : list http_request) : list string := grants_from [] log.

(** The request counter and the log agree: the n-th request handed to
    [requests.post] carries the id [n], and the counter stands at the
    number of requests handed over. *)
Definition numbered (st : bridge_state) : Prop :=
  posted_ids (sent st) = count_up (length (sent st))
  /\ _request_id st = Z.of_nat (length (sent st)).

(** What can be read off a request the bridge built. *)
Definition bridge_request (r : http_request) : Prop :=
  url r = MCP_URL
  /\ header_value "Content-Type" (headers r) = Some "application/json"
  /\ header_value "MCP-Protocol-Version" (headers r) = Some PROTOCOL_VERSION
  /\ header_value "Authorization" (headers r) = Some ("Bearer " ++ MCP_TOKEN)
  /\ json_field "jsonrpc" (json_body r) = JStr "2.0"
  /\ ((is_initialize r = true /\ timeout r = 10 /\ request_session r = None)
      \/ (is_tools_call r = true /\ timeout r = 30
          /\ exists sid tool,
               request_session r = Some sid
               /\ In tool bridge_tools /\ request_tool r = JStr tool)).

(** Every session identifier the bridge holds or has presented is one the
    upstream handed out earlier on the same log. *)
Definition sessions_granted (st : bridge_state) : Prop :=
  (forall sid, _session_id st = Some sid -> In sid (grants (sent st)))
  /\ (forall before r rest sid,
         sent st = (before ++ r :: rest)%list ->
         request_session r = Some sid -> In sid (grants before)).

(** From [st] to [st'] the cached session [sid] stayed in place, and what
    was sent is at most [n] requests, each a tool call presenting it. *)
Definition keeps_session (sid : string) (n : nat) (st st' : bridge_state) : Prop :=
  cached_session st = Some sid ->
  cached_session st' = Some sid
  /\ exists calls,
       sent st' = (sent st ++ calls)%list
       /\ (length calls <= n)%nat
       /\ Forall (fun r => is_tools_call r = true /\ request_session r = Some sid)
                 calls.

(** From [st] to [st'] at most [2 * n] requests were sent. *)
Definition sends_at_most (n : nat) (st st' : bridge_state) : Prop :=
  exists new, sent st' = (sent st ++ new)%list /\ (length new <= 2 * n)%nat.

(** The tool call a view starts with, once the request has passed its
    validation: none for /health and for a body without the required
    field. *)
Definition first_call (i : inbound) : option (string * json) :=
  match i with
  | GetHealth => None
  | PostSearch request_json =>
      if has_nonempty "query" request_json
      then Some ("dir2mcp.search",
                 JObj [("query", json_field "query" request_json);
                       ("k", field_or "k" (JInt 3) request_json)])
      else None
  | PostAsk request_json =>
      if has_nonempty "question" request_json
      then Some ("dir2mcp.search",
                 JObj [("query", json_field "question" request_json);
                       ("k", JInt 3)])
      else None
  | ListFiles => Some ("dir2mcp.list_files", JObj [])
  | Stats => Some ("dir2mcp.stats", JObj [])
  end.

(* --------------------------------------------------------------- *)
(** *** Running the monad *)

Lemma bind_return {A B} (m : M A) (k : A -> M B) st a st' :
  m st = (Return a, st') -> bind m k st = k a st'.
Proof. intros H. unfold bind. now rewrite H. Qed.

Lemma bind_raise {A B} (m : M A) (k : A -> M B) st e st' :
  m st = (Raise e, st') -> bind m k st = (Raise e, st').
Proof. intros H. unfold bind. now rewrite H. Qed.

Lemma bind_lift_return {A B} (x : outcome A) (k : A -> M B) st a :
  x = Return a -> bind (lift x) k st = k a st.
Proof. intros ->. reflexivity. Qed.

Lemma bind_lift_raise {A B} (x : outcome A) (k : A -> M B) st e :
  x = Raise e -> bind (lift x) k st = (Raise e, st).
Proof. intros ->. reflexivity. Qed.

Lemma cached_some s sid : cached s = Some sid -> s = Some sid /\ sid <> "".
Proof.
  destruct s as [x|]; simpl; [|discriminate].
  destruct (String.eqb_spec x ""); [discriminate|]. now intros [= <-].
Qed.

Lemma headers_get_absent name default hs :
  has_header name hs = false -> headers_get name default hs = default.
Proof.
  induction hs as [|[k v] hs IH]; simpl; [reflexivity|].
  destruct (lower k =? lower name)%string; simpl; [discriminate|exact IH].
Qed.

Lemma falsy_body_is_empty request_json :
  truthy request_json = false -> py_or request_json (JObj []) = JObj [].
Proof. unfold py_or. now intros ->. Qed.

(** Reading a field off the request body, for a body that is an object
    or falsy. *)
Lemma body_get_field request_json key default :
  is_object request_json = true \/ truthy request_json = false ->
  py_get (py_or request_json (JObj [])) key default =
  Return (match request_json with
          | JObj fields =>
              match dict_lookup key fields with
              | Some v => v
              | None => default
              end
          | _ => default
          end).
Proof.
  intros [Hobj | Hfalsy].
  - destruct request_json; try discriminate.
    unfold py_or. destruct fields as [|kv fields]; simpl; [reflexivity|].
    destruct kv as [k v]. destruct (k =? key)%string; [reflexivity|].
    destruct (dict_lookup key fields); reflexivity.
  - rewrite falsy_body_is_empty by assumption.
    destruct request_json; try reflexivity.
    destruct fields; [reflexivity|discriminate].
Qed.

(* --------------------------------------------------------------- *)
(** *** Request validation *)

Lemma nonobject_body_raises request_json key default :
  is_object request_json = false -> truthy request_json = true ->
  py_get (py_or request_json (JObj [])) key default = Raise PyTypeError.
Proof.
  intros Hobj Ht. unfold py_or. rewrite Ht.
  destruct request_json; try reflexivity; discriminate.
Qed.

(** C4 (amended).  A POST /search whose body has no non-empty [query]
    field sends nothing upstream (no initialize, no tool call), draws no
    request id and stores no session: the state is returned untouched.
    When the body is a JSON object, or a falsy value such as null, the
    answer is HTTP 400 with the body [{"error": "query is required"}];
    when it is a truthy value that is not an object (a non-empty string or
    array, a non-zero number, true) the handler raises instead. *)
Theorem search_missing_query_400 (request_json : json) (st : bridge_state) :
  has_nonempty "query" request_json = false ->
  (is_object request_json = true \/ truthy request_json = false ->
   search request_json st = (Return (missing_field_response "query"), st))
  /\ (is_object request_json = false -> truthy request_json = true ->
      search request_json st = (Raise PyTypeError, st)).
Proof.
  intros Hq. split.
  - intros Hshape. unfold search.
    rewrite (bind_lift_return _ _ _ _ (body_get_field _ "query" (JStr "") Hshape)).
    assert (Hfalsy : truthy (match request_json with
                             | JObj fields =>
                                 match dict_lookup "query" fields with
                                 | Some v => v
                                 | None => JStr ""
                                 end
                             | _ => JStr ""
                             end) = false).
    { unfold has_nonempty in Hq. destruct request_json; try reflexivity.
      destruct (dict_lookup "query" fields); [exact Hq|reflexivity]. }
    rewrite Hfalsy. reflexivity.
  - intros Hobj Ht. unfold search.
    now rewrite (bind_lift_raise _ _ _ _ (nonobject_body_raises _ "query" _ Hobj Ht)).
Qed.


(* --------------------------------------------------------------- *)
(** *** The session handshake *)

Lemma raise_for_status_ok r :
  ~ 400 <= status_code r < 600 -> raise_for_status r = Return tt.
Proof.
  intros H. unfold raise_for_status.
  destruct (Z.leb_spec 400 (status_code r)); [|reflexivity].
  destruct (Z.ltb_spec (status_code r) 600); [|reflexivity]. lia.
Qed.

Lemma raise_for_status_bad r :
  400 <= status_code r < 600 -> raise_for_status r = Raise (HTTPError (status_code r)).
Proof.
  intros H. unfold raise_for_status.
  destruct (Z.leb_spec 400 (status_code r)); [|lia].
  destruct (Z.ltb_spec (status_code r) 600); [reflexivity|lia].
Qed.

Lemma ensure_session_cached st sid :
  cached_session st = Some sid -> _ensure_session st = (Return sid, st).
Proof. intros H. unfold _ensure_session. now rewrite H. Qed.

Lemma ensure_session_transport_failed st :
  cached_session st = None ->
  upstream (sent (after_handshake_sent st)) = TransportFailed ->
  _ensure_session st = (Raise RequestException, after_handshake_sent st).
Proof.
  intros Hc Hu. unfold _ensure_session. rewrite Hc.
  unfold bind, _next_id, requests_post. simpl in *. now rewrite Hu.
Qed.

Lemma ensure_session_bad_status st r :
  cached_session st = None ->
  upstream (sent (after_handshake_sent st)) = Responded r ->
  (400 <=? status_code r) && (status_code r <? 600) = true ->
  _ensure_session st = (Raise (HTTPError (status_code r)), after_handshake_sent st).
Proof.
  intros Hc Hu Hs. unfold _ensure_session. rewrite Hc.
  unfold bind, _next_id, requests_post, lift, raise_for_status. simpl in *.
  now rewrite Hu, Hs.
Qed.

Lemma ensure_session_responded st r :
  cached_session st = None ->
  upstream (sent (after_handshake_sent st)) = Responded r ->
  (400 <=? status_code r) && (status_code r <? 600) = false ->
  _ensure_session st =
  (Return (headers_get "Mcp-Session-Id" "" (response_headers r)),
   with_session (headers_get "Mcp-Session-Id" "" (response_headers r))
                (after_handshake_sent st)).
Proof.
  intros Hc Hu Hs. unfold _ensure_session. rewrite Hc.
  unfold bind, _next_id, requests_post, lift, raise_for_status. simpl in *.
  now rewrite Hu, Hs.
Qed.

(** C5 (amended).  With no session cached, [_ensure_session] raises when
    the transport call errors (RequestException) and when the initialize
    response has a 4xx or 5xx status (HTTPError); either way the session
    global is left as it was, so the session stays unset.  A response
    that carries no session identifier header raises nothing: the call
    returns the empty string and stores it, which the next call treats as
    no session at all. *)
Theorem ensure_session_failure_modes (st : bridge_state) :
  cached_session st = None ->
  (upstream (sent (after_handshake_sent st)) = TransportFailed ->
   exists st',
     _ensure_session st = (Raise RequestException, st')
     /\ _session_id st' = _session_id st /\ cached_session st' = None)
  /\ (forall r,
      upstream (sent (after_handshake_sent st)) = Responded r ->
      400 <= status_code r < 600 ->
      exists st',
        _ensure_session st = (Raise (HTTPError (status_code r)), st')
        /\ _session_id st' = _session_id st /\ cached_session st' = None)
  /\ (forall r,
      upstream (sent (after_handshake_sent st)) = Responded r ->
      ~ 400 <= status_code r < 600 ->
      has_header "Mcp-Session-Id" (response_headers r) = false ->
      exists st',
        _ensure_session st = (Return "", st')
        /\ _session_id st' = Some "" /\ cached_session st' = None).
Proof.
  intros Hc. repeat split.
  - intros Hu. exists (after_handshake_sent st).
    now rewrite (ensure_session_transport_failed st Hc Hu).
  - intros r Hu Hs. exists (after_handshake_sent st).
    rewrite (ensure_session_bad_status st r Hc Hu); [now split|].
    apply andb_true_intro. split; [apply Z.leb_le|apply Z.ltb_lt]; lia.
  - intros r Hu Hs Hh. exists (with_session "" (after_handshake_sent st)).
    rewrite (ensure_session_responded st r Hc Hu).
    + rewrite (headers_get_absent _ _ _ Hh). now split.
    + apply andb_false_iff.
      destruct (Z.leb_spec 400 (status_code r)); [right|now left].
      apply Z.ltb_ge. lia.
Qed.

(* --------------------------------------------------------------- *)
(** *** Decoding a tool response *)

Lemma text_entry_readable c :
  readable_entry c = true ->
  text_entry c = Return (if is_textual c then [JStr (entry_text c)] else []).
Proof.
  destruct c; try discriminate. unfold readable_entry, text_entry, is_textual, entry_text.
  simpl. destruct (dict_lookup "type" fields) as [ty|]; simpl.
  - destruct (py_eq_str ty "text"); [|reflexivity].
    destruct (dict_lookup "text" fields) as [t|]; simpl; [|reflexivity].
    destruct t; try discriminate. reflexivity.
  - reflexivity.
Qed.

Lemma text_entries_readable content :
  forallb readable_entry content = true ->
  text_entries (JArr content) =
  Return (map (fun c => JStr (entry_text c)) (filter is_textual content)).
Proof.
  unfold text_entries. simpl. induction content as [|c content IH]; simpl.
  - reflexivity.
  - intros H. apply andb_prop in H. destruct H as [Hc Hrest].
    rewrite (text_entry_readable c Hc). simpl.
    specialize (IH Hrest).
    destruct (collect text_entry content) as [parts|e]; simpl in *; [|discriminate].
    injection IH as IH. rewrite IH. now destruct (is_textual c).
Qed.

Lemma all_strs_map {A} (f : A -> string) (l : list A) :
  all_strs (map (fun a => JStr (f a)) l) = Return (map f l).
Proof. induction l as [|a l IH]; simpl; [reflexivity|]. now rewrite IH. Qed.

Lemma decode_error_field fields payload :
  dict_lookup "error" fields = Some payload ->
  decode_tool_response (JObj fields) =
  Return (ToolTuple (JObj [("error", payload)]) 500).
Proof. intros He. unfold decode_tool_response. simpl. now rewrite He. Qed.

Lemma decode_no_field fields :
  dict_lookup "error" fields = None ->
  dict_lookup "result" fields = None ->
  decode_tool_response (JObj fields) =
  Return (ToolDict (JObj [("result", JStr ""); ("structured", JNull)])).
Proof. intros He Hr. unfold decode_tool_response. simpl. now rewrite He, Hr. Qed.

Lemma decode_result_field fields result content :
  dict_lookup "error" fields = None ->
  dict_lookup "result" fields = Some (JObj result) ->
  py_get (JObj result) "content" (JArr []) = Return (JArr content) ->
  forallb readable_entry content = true ->
  decode_tool_response (JObj fields) =
  Return (ToolDict
            (JObj [("result", JStr (joined_text content));
                   ("structured", json_field "structuredContent" (JObj result))])).
Proof.
  intros He Hr Hc Hread.
  unfold decode_tool_response. simpl py_in. rewrite He. simpl obind at 1.
  simpl py_get at 1. rewrite Hr. simpl obind at 1.
  simpl in Hc. rewrite Hc. simpl obind at 1.
  rewrite (text_entries_readable content Hread). simpl obind at 1.
  unfold py_join. rewrite all_strs_map. simpl.
  unfold joined_text. now destruct (dict_lookup "structuredContent" result).
Qed.

Lemma decode_non_object data :
  is_object data = false -> decode_tool_response data = Raise PyTypeError.
Proof.
  destruct data; try discriminate; intros _; try reflexivity;
    unfold decode_tool_response; cbn [py_in obind].
  - now destruct (str_contains "error" s).
  - now destruct (existsb (fun v => py_eq_str v "error") items).
Qed.

(* --------------------------------------------------------------- *)
(** *** Tool calls and the wire log *)

Lemma ensure_session_inv st r st' :
  _ensure_session st = (r, st') ->
  (exists sid, cached_session st = Some sid /\ r = Return sid /\ st' = st)
  \/ (cached_session st = None
      /\ ((exists e, r = Raise e /\ st' = after_handshake_sent st)
          \/ (exists sid, r = Return sid
                          /\ st' = with_session sid (after_handshake_sent st)))).
Proof.
  intros H. destruct (cached_session st) as [sid|] eqn:Hc.
  - left. exists sid. rewrite (ensure_session_cached st sid Hc) in H.
    injection H as <- <-. auto.
  - right. split; [reflexivity|].
    destruct (upstream (sent (after_handshake_sent st))) as [resp|] eqn:Hu.
    + destruct ((400 <=? status_code resp) && (status_code resp <? 600)) eqn:Hs.
      * rewrite (ensure_session_bad_status st resp Hc Hu Hs) in H.
        injection H as <- <-. left. eauto.
      * rewrite (ensure_session_responded st resp Hc Hu Hs) in H.
        injection H as <- <-. right. eauto.
    + rewrite (ensure_session_transport_failed st Hc Hu) in H.
      injection H as <- <-. left. eauto.
Qed.

Lemma call_tool_run tool_name arguments st sid st1 :
  _ensure_session st = (Return sid, st1) ->
  _call_tool tool_name arguments st =
  (tool_outcome (upstream (sent (after_call_sent sid tool_name arguments st1))),
   after_call_sent sid tool_name arguments st1).
Proof.
  intros H. unfold _call_tool. rewrite (bind_return _ _ _ _ _ H).
  unfold bind, _next_id, requests_post, lift, tool_outcome. simpl.
  destruct (upstream _) as [r|]; [|reflexivity].
  destruct (raise_for_status r); [|reflexivity].
  destruct (response_json r); reflexivity.
Qed.

Lemma call_tool_session_raises tool_name arguments st e st1 :
  _ensure_session st = (Raise e, st1) ->
  _call_tool tool_name arguments st = (Raise e, st1).
Proof. intros H. unfold _call_tool. now rewrite (bind_raise _ _ _ _ _ H). Qed.

Lemma tool_calls_app l1 l2 :
  tool_calls (l1 ++ l2) = (tool_calls l1 ++ tool_calls l2)%list.
Proof.
  induction l1 as [|r l1 IH]; simpl; [reflexivity|].
  destruct (is_tools_call r); simpl; now rewrite IH.
Qed.

Lemma ensure_session_tool_calls st r st' :
  _ensure_session st = (r, st') -> tool_calls (sent st') = tool_calls (sent st).
Proof.
  intros H. apply ensure_session_inv in H.
  destruct H as [(sid & _ & _ & ->) | (_ & [(e & _ & ->) | (sid & _ & ->)])];
    [reflexivity| |]; simpl; rewrite tool_calls_app; simpl; apply app_nil_r.
Qed.

Lemma call_tool_tool_calls tool_name arguments st r st' :
  _call_tool tool_name arguments st = (r, st') ->
  exists l, tool_calls (sent st') = (tool_calls (sent st) ++ l)%list
            /\ (l = [(JStr tool_name, arguments)]
                \/ (l = [] /\ exists e, r = Raise e)).
Proof.
  intros H. destruct (_ensure_session st) as [[sid|e] st1] eqn:Hs.
  - rewrite (call_tool_run tool_name arguments st sid st1 Hs) in H.
    injection H as <- <-. exists [(JStr tool_name, arguments)]. split; [|now left].
    simpl. rewrite tool_calls_app. simpl.
    now rewrite (ensure_session_tool_calls _ _ _ Hs).
  - rewrite (call_tool_session_raises tool_name arguments st e st1 Hs) in H.
    injection H as <- <-. exists []. split; [|right; eauto].
    rewrite app_nil_r. apply (ensure_session_tool_calls _ _ _ Hs).
Qed.

Lemma call_tool_returns_tool_calls tool_name arguments st r st' :
  _call_tool tool_name arguments st = (Return r, st') ->
  tool_calls (sent st') = (tool_calls (sent st) ++ [(JStr tool_name, arguments)])%list.
Proof.
  intros H. destruct (call_tool_tool_calls _ _ _ _ _ H) as (l & Hl & [-> | [_ [e He]]]);
    [exact Hl|discriminate].
Qed.

(** C2.  When the [dir2mcp.search] call of a POST /search is answered
    with a JSON-RPC error (a JSON object with an [error] field, under a
    status that is not 4xx/5xx), the route answers HTTP 500 with the body
    [{"error": payload}], the payload being the upstream's, untouched;
    the search request is the last thing sent, so no [dir2mcp.open_file]
    call is made. *)
Theorem search_upstream_error_500
  (fields : list (string * json)) (query k : json) (st st1 : bridge_state)
  (sid : string) (r : http_response) (data : list (string * json))
  (payload : json) :
  dict_lookup "query" fields = Some query -> truthy query = true ->
  py_get (JObj fields) "k" (JInt 3) = Return k ->
  _ensure_session st = (Return sid, st1) ->
  upstream (sent (after_call_sent sid "dir2mcp.search"
                    (JObj [("query", query); ("k", k)]) st1)) = Responded r ->
  ~ 400 <= status_code r < 600 ->
  body r = Some (JObj data) ->
  dict_lookup "error" data = Some payload ->
  exists st',
    search (JObj fields) st =
    (Return {| response_payload := JObj [("error", payload)];
               response_status := 500 |}, st')
    /\ sent st' =
       (sent st1 ++ [tools_call_request sid (_request_id st1 + 1) "dir2mcp.search"
                       (JObj [("query", query); ("k", k)])])%list
    /\ tool_calls (sent st') =
       (tool_calls (sent st)
        ++ [(JStr "dir2mcp.search", JObj [("query", query); ("k", k)])])%list.
Proof.
  intros Hq Ht Hk Hs Hu Hst Hb He.
  set (arguments := JObj [("query", query); ("k", k)]) in *.
  exists (after_call_sent sid "dir2mcp.search" arguments st1).
  assert (Hcall : _call_tool "dir2mcp.search" arguments st =
                  (Return (ToolTuple (JObj [("error", payload)]) 500),
                   after_call_sent sid "dir2mcp.search" arguments st1)).
  { rewrite (call_tool_run _ _ _ _ _ Hs), Hu. unfold tool_outcome.
    rewrite (raise_for_status_ok r Hst). unfold response_json. rewrite Hb.
    simpl obind.
    now rewrite (decode_error_field data payload He). }
  split; [|split].
  - unfold search.
    assert (Hshape : is_object (JObj fields) = true \/ truthy (JObj fields) = false)
      by (left; reflexivity).
    rewrite (bind_lift_return _ _ _ _ (body_get_field _ "query" (JStr "") Hshape)).
    rewrite Hq, Ht. cbn [negb].
    assert (Hk' : py_get (py_or (JObj fields) (JObj [])) "k" (JInt 3) = Return k).
    { rewrite (body_get_field _ "k" (JInt 3) Hshape). simpl in Hk.
      destruct (dict_lookup "k" fields); exact Hk. }
    rewrite (bind_lift_return _ _ _ _ Hk').
    now rewrite (bind_return _ _ _ _ _ Hcall).
  - reflexivity.
  - apply (call_tool_returns_tool_calls _ _ _ _ _ Hcall).
Qed.

(* --------------------------------------------------------------- *)
(** *** The per-hit content fetch *)

Lemma py_get_object fields key default :
  py_get (JObj fields) key default = Return (field_or key default (JObj fields)).
Proof. simpl. now destruct (dict_lookup key fields). Qed.

Lemma open_file_args_spec h rel_path arguments :
  open_file_args h = Return (rel_path, arguments) ->
  rel_path = field_or "RelPath" (JStr "") h
  /\ arguments = spec_open_file_arguments h
  /\ is_object h = true.
Proof.
  unfold open_file_args, spec_open_file_arguments.
  destruct h; try discriminate.
  rewrite !py_get_object. cbn [obind].
  destruct (field_or "Span" (JObj []) (JObj fields)) as [| | | | | |span];
    try discriminate.
  rewrite ?py_get_object. cbn [obind].
  destruct (py_eq_str (field_or "Kind" JNull (JObj span)) "lines");
    intros H; injection H as <- <-; repeat split; reflexivity.
Qed.


Lemma decode_dict_shape data d :
  decode_tool_response data = Return (ToolDict d) -> well_shaped (ToolDict d).
Proof.
  unfold decode_tool_response.
  destruct (py_in "error" data) as [[|]|]; cbn [obind]; try discriminate.
  - destruct (py_getitem data "error"); discriminate.
  - destruct (py_get data "result" (JObj [])) as [result|]; cbn [obind];
      try discriminate.
    destruct (py_get result "content" (JArr [])) as [content|]; cbn [obind];
      try discriminate.
    destruct (text_entries content) as [parts|]; cbn [obind]; try discriminate.
    destruct (py_join nl parts) as [text|]; cbn [obind]; try discriminate.
    destruct (py_get result "structuredContent" JNull) as [sc|]; cbn [obind];
      try discriminate.
    intros H. injection H as <-. simpl. eauto.
Qed.

Lemma call_tool_well_shaped tool_name arguments st source st' :
  _call_tool tool_name arguments st = (Return source, st') -> well_shaped source.
Proof.
  intros H. destruct source as [payload status|d]; [exact I|].
  destruct (_ensure_session st) as [[sid|e] st1] eqn:Hs.
  - rewrite (call_tool_run _ _ _ _ _ Hs) in H. injection H as H _.
    unfold tool_outcome in H. destruct (upstream _) as [r|]; [|discriminate].
    destruct (raise_for_status r); [|discriminate]. cbn [obind] in H.
    destruct (response_json r) as [data|]; [|discriminate]. cbn [obind] in H.
    apply (decode_dict_shape data d H).
  - rewrite (call_tool_session_raises _ _ _ _ _ Hs) in H. discriminate.
Qed.

Lemma source_text_well_shaped source :
  well_shaped source -> source_text source = Return (JStr (fetched_text source)).
Proof.
  destruct source as [payload status|d]; [reflexivity|].
  intros (text & structured & ->). reflexivity.
Qed.

(** What a returning [fetch_hit] did. *)
Lemma fetch_hit_return h st rel_path source st' :
  fetch_hit h st = (Return (rel_path, source), st') ->
  rel_path = field_or "RelPath" (JStr "") h
  /\ is_object h = true
  /\ well_shaped source
  /\ _call_tool "dir2mcp.open_file" (spec_open_file_arguments h) st
     = (Return source, st').
Proof.
  unfold fetch_hit. unfold bind at 1, lift.
  destruct (open_file_args h) as [[rp a]|e] eqn:Ha; [|discriminate].
  apply open_file_args_spec in Ha. destruct Ha as (-> & -> & Hobj).
  unfold bind. cbn [fst snd].
  destruct (_call_tool _ _ st) as [[src|e] st1] eqn:Hc; [|discriminate].
  unfold ret. intros H. injection H as <- <- <-.
  repeat split; auto. apply (call_tool_well_shaped _ _ _ _ _ Hc).
Qed.

Lemma search_hit_return h st rel_path source st' :
  fetch_hit h st = (Return (rel_path, source), st') ->
  search_hit h st = (Return (search_entry_of h source), st').
Proof.
  intros H. destruct (fetch_hit_return _ _ _ _ _ H) as (-> & Hobj & Hw & _).
  unfold search_hit. rewrite (bind_return _ _ _ _ _ H). cbn [fst snd].
  rewrite (bind_lift_return _ _ _ _ (source_text_well_shaped _ Hw)).
  destruct h; try discriminate.
  now rewrite (bind_lift_return _ _ _ _ (py_get_object _ _ _)).
Qed.

Lemma ask_hit_return h st rel_path source st' :
  fetch_hit h st = (Return (rel_path, source), st') ->
  ask_hit h st = (Return (ask_entry_of h source), st').
Proof.
  intros H. destruct (fetch_hit_return _ _ _ _ _ H) as (-> & Hobj & Hw & _).
  unfold ask_hit. rewrite (bind_return _ _ _ _ _ H). cbn [fst snd].
  now rewrite (bind_lift_return _ _ _ _ (source_text_well_shaped _ Hw)).
Qed.

Lemma search_hit_raise h st e st' :
  fetch_hit h st = (Raise e, st') -> search_hit h st = (Raise e, st').
Proof. intros H. unfold search_hit. now rewrite (bind_raise _ _ _ _ _ H). Qed.

Lemma ask_hit_raise h st e st' :
  fetch_hit h st = (Raise e, st') -> ask_hit h st = (Raise e, st').
Proof. intros H. unfold ask_hit. now rewrite (bind_raise _ _ _ _ _ H). Qed.

(* --------------------------------------------------------------- *)
(** *** The enrichment loop *)

Lemma for_each_cons {A B} (f : A -> M B) a l st :
  for_each f (a :: l) st =
  match f a st with
  | (Return b, st1) =>
      match for_each f l st1 with
      | (Return bs, st2) => (Return (b :: bs), st2)
      | (Raise e, st2) => (Raise e, st2)
      end
  | (Raise e, st1) => (Raise e, st1)
  end.
Proof.
  simpl. unfold bind. destruct (f a st) as [[b|e] st1]; [|reflexivity].
  destruct (for_each f l st1) as [[bs|e] st2]; reflexivity.
Qed.

Lemma search_loop hits : forall st,
  for_each search_hit hits st =
  match for_each fetch_hit hits st with
  | (Return fetched, st') => (Return (search_entries hits fetched), st')
  | (Raise e, st') => (Raise e, st')
  end.
Proof.
  induction hits as [|h hits IH]; intros st; [reflexivity|].
  rewrite !for_each_cons.
  destruct (fetch_hit h st) as [[[rp src]|e] st1] eqn:Hf.
  - rewrite (search_hit_return _ _ _ _ _ Hf), IH.
    destruct (for_each fetch_hit hits st1) as [[fs|e] st2]; reflexivity.
  - now rewrite (search_hit_raise _ _ _ _ Hf).
Qed.

Lemma ask_loop hits : forall st,
  for_each ask_hit hits st =
  match for_each fetch_hit hits st with
  | (Return fetched, st') => (Return (ask_entries hits fetched), st')
  | (Raise e, st') => (Raise e, st')
  end.
Proof.
  induction hits as [|h hits IH]; intros st; [reflexivity|].
  rewrite !for_each_cons.
  destruct (fetch_hit h st) as [[[rp src]|e] st1] eqn:Hf.
  - rewrite (ask_hit_return _ _ _ _ _ Hf), IH.
    destruct (for_each fetch_hit hits st1) as [[fs|e] st2]; reflexivity.
  - now rewrite (ask_hit_raise _ _ _ _ Hf).
Qed.

Lemma fetch_hit_tool_calls h st r st1 :
  fetch_hit h st = (r, st1) ->
  exists l, tool_calls (sent st1) = (tool_calls (sent st) ++ l)%list
            /\ (l = [open_file_call h] \/ (l = [] /\ exists e, r = Raise e)).
Proof.
  unfold fetch_hit. unfold bind at 1, lift.
  destruct (open_file_args h) as [[rp a]|e] eqn:Ha.
  - apply open_file_args_spec in Ha. destruct Ha as (-> & -> & _).
    unfold bind. cbn [fst snd].
    destruct (_call_tool _ _ st) as [[src|e] st2] eqn:Hc; unfold ret;
      intros H; injection H as <- <-;
      destruct (call_tool_tool_calls _ _ _ _ _ Hc) as (l & Hl & Hcase);
      exists l; (split; [exact Hl|]).
    + left. destruct Hcase as [->|[_ [e He]]]; [reflexivity|discriminate].
    + destruct Hcase as [->|[-> _]]; [now left|right; eauto].
  - intros H. injection H as <- <-. exists []. rewrite app_nil_r. eauto.
Qed.

(** Every run of the loop, completed or cut short by an exception,
    fetched a prefix of the hits, in order; a completed run fetched all
    of them. *)
Lemma fetch_loop_tool_calls hits : forall st r st',
  for_each fetch_hit hits st = (r, st') ->
  exists n, (n <= length hits)%nat
    /\ tool_calls (sent st') =
       (tool_calls (sent st) ++ map open_file_call (firstn n hits))%list
    /\ (forall fetched, r = Return fetched ->
          n = length hits /\ length fetched = length hits).
Proof.
  induction hits as [|h hits IH]; intros st r st' H.
  - injection H as <- <-. exists 0%nat. simpl. rewrite app_nil_r.
    split; [lia|]. split; [reflexivity|]. intros fs [= <-]. auto.
  - rewrite for_each_cons in H.
    destruct (fetch_hit h st) as [[b|e] st1] eqn:Hf.
    + destruct (fetch_hit_tool_calls _ _ _ _ Hf) as (l & Hl & [->|[_ [e He]]]);
        [|discriminate].
      destruct (for_each fetch_hit hits st1) as [r1 st2] eqn:Hrest.
      destruct (IH _ _ _ Hrest) as (n & Hn & Hlog & Hall).
      exists (S n). assert (st2 = st') as <- by (destruct r1; now injection H).
      split; [simpl; lia|]. split.
      * rewrite Hlog, Hl, <- app_assoc. reflexivity.
      * intros fs ->. destruct r1 as [bs|e]; [|discriminate].
        injection H as <-. destruct (Hall bs eq_refl) as [-> Hlen].
        simpl. now rewrite Hlen.
    + injection H as <- <-.
      destruct (fetch_hit_tool_calls _ _ _ _ Hf) as (l & Hl & [->|[-> _]]).
      * exists 1%nat. simpl. split; [lia|]. split; [exact Hl|discriminate].
      * exists 0%nat. simpl. split; [lia|]. split; [exact Hl|discriminate].
Qed.

Lemma first_hits_array text structured all_hits :
  py_get (JObj structured) "hits" (JArr []) = Return (JArr all_hits) ->
  first_hits (JObj [("result", JStr text); ("structured", JObj structured)])
  = Return (firstn 3 all_hits).
Proof.
  intros H. unfold first_hits.
  change (py_get (JObj [("result", JStr text); ("structured", JObj structured)])
                 "structured" (JObj []))
    with (@Return json (JObj structured)).
  cbn [obind]. rewrite H. reflexivity.
Qed.

(* --------------------------------------------------------------- *)
(** *** The routes, end to end *)

Lemma search_front fields query k st :
  dict_lookup "query" fields = Some query -> truthy query = true ->
  py_get (JObj fields) "k" (JInt 3) = Return k ->
  search (JObj fields) st =
  bind (_call_tool "dir2mcp.search" (search_arguments query k)) search_respond st.
Proof.
  intros Hq Ht Hk. unfold search.
  assert (Hshape : is_object (JObj fields) = true \/ truthy (JObj fields) = false)
    by (left; reflexivity).
  rewrite (bind_lift_return _ _ _ _ (body_get_field _ "query" (JStr "") Hshape)).
  rewrite Hq, Ht. cbn [negb].
  assert (Hk' : py_get (py_or (JObj fields) (JObj [])) "k" (JInt 3) = Return k).
  { rewrite (body_get_field _ "k" (JInt 3) Hshape). simpl in Hk.
    destruct (dict_lookup "k" fields); exact Hk. }
  now rewrite (bind_lift_return _ _ _ _ Hk').
Qed.

Lemma ask_front fields question st :
  dict_lookup "question" fields = Some question -> truthy question = true ->
  ask (JObj fields) st =
  bind (_call_tool "dir2mcp.search" (search_arguments question (JInt 3)))
       (ask_respond question) st.
Proof.
  intros Hq Ht. unfold ask.
  assert (Hshape : is_object (JObj fields) = true \/ truthy (JObj fields) = false)
    by (left; reflexivity).
  rewrite (bind_lift_return _ _ _ _ (body_get_field _ "question" (JStr "") Hshape)).
  now rewrite Hq, Ht.
Qed.

Lemma search_block_spec e :
  percent_defined (se_score e) = true -> search_block e = Return (spec_search_block e).
Proof.
  unfold percent_defined, search_block, spec_search_block, percent_text.
  destruct (format_percent (se_score e)); [reflexivity|discriminate].
Qed.

Lemma collect_search_blocks entries :
  forallb (fun e => percent_defined (se_score e)) entries = true ->
  collect search_block entries = Return (map spec_search_block entries).
Proof.
  induction entries as [|e entries IH]; simpl; [reflexivity|].
  intros H. apply andb_prop in H. destruct H as [He Hrest].
  now rewrite (search_block_spec e He), (IH Hrest).
Qed.

Lemma search_respond_run text structured all_hits st :
  py_get (JObj structured) "hits" (JArr []) = Return (JArr all_hits) ->
  search_respond (tool_dict text (JObj structured)) st =
  match for_each fetch_hit (firstn 3 all_hits) st with
  | (Return fetched, st') =>
      (blocks <~ collect search_block (search_entries (firstn 3 all_hits) fetched) ;;
       Return (result_response (blank_line_join blocks)), st')
  | (Raise e, st') => (Raise e, st')
  end.
Proof.
  intros H. unfold search_respond, tool_dict.
  rewrite (bind_lift_return _ _ _ _ (first_hits_array text structured all_hits H)).
  unfold bind at 1. rewrite search_loop.
  destruct (for_each fetch_hit (firstn 3 all_hits) st) as [[fs|e] st']; [|reflexivity].
  unfold bind, lift, ret.
  destruct (collect search_block _); reflexivity.
Qed.

Lemma ask_respond_run question text structured all_hits st :
  py_get (JObj structured) "hits" (JArr []) = Return (JArr all_hits) ->
  ask_respond question (tool_dict text (JObj structured)) st =
  match for_each fetch_hit (firstn 3 all_hits) st with
  | (Return fetched, st') =>
      (Return (result_response
                 (spec_ask_result question (ask_entries (firstn 3 all_hits) fetched))),
       st')
  | (Raise e, st') => (Raise e, st')
  end.
Proof.
  intros H. unfold ask_respond, tool_dict.
  rewrite (bind_lift_return _ _ _ _ (first_hits_array text structured all_hits H)).
  unfold bind at 1. rewrite ask_loop.
  destruct (for_each fetch_hit (firstn 3 all_hits) st) as [[fs|e] st']; reflexivity.
Qed.





(** The tool calls a route makes after its [dir2mcp.search] call has
    returned, whatever that call returned and however the route ends. *)
Lemma search_respond_calls result st1 r st2 :
  search_respond result st1 = (r, st2) ->
  exists hits, tool_calls (sent st2)
               = (tool_calls (sent st1) ++ map open_file_call hits)%list.
Proof.
  destruct result as [payload status|d]; simpl.
  - unfold ret. intros [= _ <-]. exists []. now rewrite app_nil_r.
  - unfold bind at 1, lift. destruct (first_hits d) as [hits|e].
    + unfold bind at 1. rewrite search_loop.
      destruct (for_each fetch_hit hits st1) as [r1 st'] eqn:Hloop.
      destruct (fetch_loop_tool_calls _ _ _ _ Hloop) as (n & _ & Hlog & _).
      intros H. exists (firstn n hits).
      assert (st2 = st') as ->; [|exact Hlog].
      destruct r1 as [fetched|e]; [|now injection H].
      unfold bind, lift, ret in H.
      destruct (collect search_block _); now injection H.
    + intros [= _ <-]. exists []. now rewrite app_nil_r.
Qed.

Lemma ask_respond_calls question result st1 r st2 :
  ask_respond question result st1 = (r, st2) ->
  exists hits, tool_calls (sent st2)
               = (tool_calls (sent st1) ++ map open_file_call hits)%list.
Proof.
  destruct result as [payload status|d]; simpl.
  - unfold ret. intros [= _ <-]. exists []. now rewrite app_nil_r.
  - unfold bind at 1, lift. destruct (first_hits d) as [hits|e].
    + unfold bind at 1. rewrite ask_loop.
      destruct (for_each fetch_hit hits st1) as [r1 st'] eqn:Hloop.
      destruct (fetch_loop_tool_calls _ _ _ _ Hloop) as (n & _ & Hlog & _).
      intros H. exists (firstn n hits).
      assert (st2 = st') as ->; [|exact Hlog].
      destruct r1 as [fetched|e]; now injection H.
    + intros [= _ <-]. exists []. now rewrite app_nil_r.
Qed.

(** Every run of a route that gets past validation puts on the wire
    nothing, or its one [dir2mcp.search] call followed by
    [dir2mcp.open_file] calls only. *)
Lemma route_calls {A} (respond : tool_return -> M A) arguments st r st' :
  (forall result st1 r1 st2,
      respond result st1 = (r1, st2) ->
      exists hits, tool_calls (sent st2)
                   = (tool_calls (sent st1) ++ map open_file_call hits)%list) ->
  bind (_call_tool "dir2mcp.search" arguments) respond st = (r, st') ->
  tool_calls (sent st') = tool_calls (sent st)
  \/ exists hits,
      tool_calls (sent st')
      = (tool_calls (sent st)
         ++ (JStr "dir2mcp.search", arguments) :: map open_file_call hits)%list.
Proof.
  intros Hrespond H. unfold bind in H.
  destruct (_call_tool "dir2mcp.search" arguments st) as [[result|e] st1] eqn:Hcall.
  - right. destruct (Hrespond _ _ _ _ H) as (hits & Hlog). exists hits.
    now rewrite Hlog, (call_tool_returns_tool_calls _ _ _ _ _ Hcall), <- app_assoc.
  - injection H as <- <-.
    destruct (call_tool_tool_calls _ _ _ _ _ Hcall) as (l & Hl & [->|[-> _]]).
    + right. exists []. exact Hl.
    + left. now rewrite Hl, app_nil_r.
Qed.

(** C10 (amended).  (a) A /search body with a non-empty query and no [k]
    runs [dir2mcp.search] with [k = 3].  (b) /ask runs it with [k = 3]
    whatever the body holds, a [k] of its own included.  In both cases
    the only [dir2mcp.search] call that can appear on the wire is the one
    with [k = 3], all other tool calls being [dir2mcp.open_file] calls.  (c) A falsy body
    (null, false, 0, the empty string, [[]], [{}]) is read as the empty
    body and gets the 400 answer on both routes, nothing being sent.
    (d) A truthy body that is not an object (a non-empty array or string,
    a non-zero number, true) gets no 400: both routes raise, before
    anything is sent. *)
Theorem default_k_and_body_shapes :
  (forall fields q st,
      dict_lookup "query" fields = Some q -> truthy q = true ->
      dict_lookup "k" fields = None ->
      search (JObj fields) st =
      bind (_call_tool "dir2mcp.search" (JObj [("query", q); ("k", JInt 3)]))
           search_respond st
      /\ (tool_calls (sent (snd (search (JObj fields) st))) = tool_calls (sent st)
          \/ exists hits,
             tool_calls (sent (snd (search (JObj fields) st)))
             = (tool_calls (sent st)
                ++ (JStr "dir2mcp.search", JObj [("query", q); ("k", JInt 3)])
                   :: map open_file_call hits)%list))
  /\ (forall fields q st,
      dict_lookup "question" fields = Some q -> truthy q = true ->
      ask (JObj fields) st =
      bind (_call_tool "dir2mcp.search" (JObj [("query", q); ("k", JInt 3)]))
           (ask_respond q) st
      /\ (tool_calls (sent (snd (ask (JObj fields) st))) = tool_calls (sent st)
          \/ exists hits,
             tool_calls (sent (snd (ask (JObj fields) st)))
             = (tool_calls (sent st)
                ++ (JStr "dir2mcp.search", JObj [("query", q); ("k", JInt 3)])
                   :: map open_file_call hits)%list))
  /\ (forall request_json st,
      truthy request_json = false ->
      search request_json st = (Return (missing_field_response "query"), st)
      /\ ask request_json st = (Return (missing_field_response "question"), st))
  /\ (forall request_json st,
      is_object request_json = false -> truthy request_json = true ->
      search request_json st = (Raise PyTypeError, st)
      /\ ask request_json st = (Raise PyTypeError, st)).
Proof.
  split; [|split; [|split]].
  - intros fields q st Hq Ht Hk.
    assert (Hfront : search (JObj fields) st =
                     bind (_call_tool "dir2mcp.search"
                             (JObj [("query", q); ("k", JInt 3)]))
                          search_respond st).
    { apply search_front; [exact Hq|exact Ht|]. simpl. now rewrite Hk. }
    split; [exact Hfront|].
    destruct (search (JObj fields) st) as [r st'] eqn:Hrun. symmetry in Hfront.
    apply (route_calls _ _ _ _ _ search_respond_calls Hfront).
  - intros fields q st Hq Ht.
    pose proof (ask_front fields q st Hq Ht) as Hfront.
    split; [exact Hfront|].
    destruct (ask (JObj fields) st) as [r st'] eqn:Hrun. symmetry in Hfront.
    apply (route_calls _ _ _ _ _ (ask_respond_calls q) Hfront).
  - intros request_json st Hf. split.
    + unfold search. rewrite falsy_body_is_empty by assumption. reflexivity.
    + unfold ask. rewrite falsy_body_is_empty by assumption. reflexivity.
  - intros request_json st Hobj Ht. split.
    + unfold search.
      now rewrite (bind_lift_raise _ _ _ _ (nonobject_body_raises _ "query" _ Hobj Ht)).
    + unfold ask.
      now rewrite (bind_lift_raise _ _ _ _ (nonobject_body_raises _ "question" _ Hobj Ht)).
Qed.

Lemma search_block_inv e s :
  search_block e = Return s -> s = spec_search_block e.
Proof.
  unfold search_block, spec_search_block, percent_text.
  destruct (format_percent (se_score e)); [|discriminate].
  now intros [= <-].
Qed.

Lemma collect_search_blocks_inv entries : forall blocks,
  collect search_block entries = Return blocks ->
  blocks = map spec_search_block entries.
Proof.
  induction entries as [|e entries IH]; simpl; intros blocks H.
  - now injection H as <-.
  - destruct (search_block e) as [s|] eqn:He; [|discriminate]. cbn [obind] in H.
    destruct (collect search_block entries) as [ss|]; [|discriminate].
    injection H as <-. now rewrite (search_block_inv e s He), (IH ss eq_refl).
Qed.

Lemma ask_block_spec e : ask_block e = spec_ask_block e.
Proof. reflexivity. Qed.

Lemma search_entries_nth hits : forall fetched i h f,
  nth_error hits i = Some h -> nth_error fetched i = Some f ->
  nth_error (search_entries hits fetched) i = Some (search_entry_of h (snd f)).
Proof.
  unfold search_entries.
  induction hits as [|h0 hits IH]; intros [|f0 fetched] [|i] h f Hh Hf;
    try discriminate; simpl in *.
  - now injection Hh as ->; injection Hf as ->.
  - now apply IH.
Qed.

Lemma ask_entries_nth hits : forall fetched i h f,
  nth_error hits i = Some h -> nth_error fetched i = Some f ->
  nth_error (ask_entries hits fetched) i = Some (ask_entry_of h (snd f)).
Proof.
  unfold ask_entries.
  induction hits as [|h0 hits IH]; intros [|f0 fetched] [|i] h f Hh Hf;
    try discriminate; simpl in *.
  - now injection Hh as ->; injection Hf as ->.
  - now apply IH.
Qed.

Lemma entries_length {A} (f : json * (json * tool_return) -> A) hits
      (fetched : list (json * tool_return)) :
  length fetched = length hits ->
  length (map f (combine hits fetched)) = length hits.
Proof. intros H. rewrite length_map, length_combine, H. apply Nat.min_id. Qed.

Lemma fetch_loop_length hits st fetched st' :
  for_each fetch_hit hits st = (Return fetched, st') ->
  length fetched = length hits.
Proof.
  intros H. destruct (fetch_loop_tool_calls _ _ _ _ H) as (n & _ & _ & Hall).
  now destruct (Hall fetched eq_refl).
Qed.

(** C8.  A /search that answers after enrichment returns
    [{"result": text}] where [text] is one block per fetched hit, in hit
    order, each block being [=== {file} (relevance: {score:.0%}) ===],
    a newline and the content, and consecutive blocks being separated by
    a blank line.  An /ask that answers returns the original question
    first and then the blocks [=== Source: {file} ===], newline,
    content, separated the same way. *)
Theorem composite_result_format :
  (forall fields query k st all_hits st1 resp st2,
      dict_lookup "query" fields = Some query -> truthy query = true ->
      py_get (JObj fields) "k" (JInt 3) = Return k ->
      search_returned (search_arguments query k) st all_hits st1 ->
      search (JObj fields) st = (Return resp, st2) ->
      exists fetched,
        for_each fetch_hit (firstn 3 all_hits) st1 = (Return fetched, st2)
        /\ length (search_entries (firstn 3 all_hits) fetched)
           = length (firstn 3 all_hits)
        /\ resp = result_response
                    (spec_search_result (search_entries (firstn 3 all_hits) fetched)))
  /\ (forall fields question st all_hits st1 resp st2,
      dict_lookup "question" fields = Some question -> truthy question = true ->
      search_returned (search_arguments question (JInt 3)) st all_hits st1 ->
      ask (JObj fields) st = (Return resp, st2) ->
      exists fetched,
        for_each fetch_hit (firstn 3 all_hits) st1 = (Return fetched, st2)
        /\ length (ask_entries (firstn 3 all_hits) fetched)
           = length (firstn 3 all_hits)
        /\ resp = result_response
                    (spec_ask_result question
                       (ask_entries (firstn 3 all_hits) fetched))).
Proof.
  split.
  - intros fields query k st all_hits st1 resp st2 Hq Ht Hk
           (text & sc & Hcall & Hhits) Hrun.
    rewrite (search_front _ _ _ _ Hq Ht Hk), (bind_return _ _ _ _ _ Hcall),
      (search_respond_run text sc all_hits st1 Hhits) in Hrun.
    destruct (for_each fetch_hit (firstn 3 all_hits) st1) as [[fetched|e] st'] eqn:Hloop;
      [|discriminate].
    destruct (collect search_block _) as [blocks|e] eqn:Hb; [|discriminate].
    cbn [obind] in Hrun. injection Hrun as <- <-.
    exists fetched. split; [reflexivity|]. split.
    + apply entries_length, (fetch_loop_length _ _ _ _ Hloop).
    + now rewrite (collect_search_blocks_inv _ _ Hb).
  - intros fields question st all_hits st1 resp st2 Hq Ht
           (text & sc & Hcall & Hhits) Hrun.
    rewrite (ask_front _ _ _ Hq Ht), (bind_return _ _ _ _ _ Hcall),
      (ask_respond_run question text sc all_hits st1 Hhits) in Hrun.
    destruct (for_each fetch_hit (firstn 3 all_hits) st1) as [[fetched|e] st'] eqn:Hloop;
      [|discriminate].
    injection Hrun as <- <-.
    exists fetched. split; [reflexivity|]. split; [|reflexivity].
    apply entries_length, (fetch_loop_length _ _ _ _ Hloop).
Qed.

(** C3 (amended).  When every per-hit [dir2mcp.open_file] call returns,
    be it with a result or with a JSON-RPC error, the request succeeds
    with one block per processed hit: a hit whose call returned a
    JSON-RPC error gets the empty string as content, the others keep
    their fetched text (for /search, provided each score can be printed
    as a percentage).  A fetch that raises (transport failure, 4xx/5xx
    status, a body that is not JSON) is not caught: the route raises the
    same exception. *)
Theorem tool_error_fetch_tolerated :
  (forall fields query k st all_hits st1 fetched st2,
      dict_lookup "query" fields = Some query -> truthy query = true ->
      py_get (JObj fields) "k" (JInt 3) = Return k ->
      search_returned (search_arguments query k) st all_hits st1 ->
      for_each fetch_hit (firstn 3 all_hits) st1 = (Return fetched, st2) ->
      forallb (fun h => percent_defined (field_or "Score" (JInt 0) h))
              (firstn 3 all_hits) = true ->
      let entries := search_entries (firstn 3 all_hits) fetched in
      search (JObj fields) st
      = (Return (result_response (spec_search_result entries)), st2)
      /\ length entries = length (firstn 3 all_hits)
      /\ (forall i h rel_path payload status,
            nth_error (firstn 3 all_hits) i = Some h ->
            nth_error fetched i = Some (rel_path, ToolTuple payload status) ->
            nth_error entries i =
            Some {| se_file := field_or "RelPath" (JStr "") h;
                    se_score := field_or "Score" (JInt 0) h;
                    se_content := JStr "" |})
      /\ (forall i h rel_path text structured,
            nth_error (firstn 3 all_hits) i = Some h ->
            nth_error fetched i = Some (rel_path, tool_dict text structured) ->
            nth_error entries i =
            Some {| se_file := field_or "RelPath" (JStr "") h;
                    se_score := field_or "Score" (JInt 0) h;
                    se_content := JStr text |}))
  /\ (forall fields question st all_hits st1 fetched st2,
      dict_lookup "question" fields = Some question -> truthy question = true ->
      search_returned (search_arguments question (JInt 3)) st all_hits st1 ->
      for_each fetch_hit (firstn 3 all_hits) st1 = (Return fetched, st2) ->
      let entries := ask_entries (firstn 3 all_hits) fetched in
      ask (JObj fields) st
      = (Return (result_response (spec_ask_result question entries)), st2)
      /\ length entries = length (firstn 3 all_hits)
      /\ (forall i h rel_path payload status,
            nth_error (firstn 3 all_hits) i = Some h ->
            nth_error fetched i = Some (rel_path, ToolTuple payload status) ->
            nth_error entries i =
            Some {| ae_file := field_or "RelPath" (JStr "") h;
                    ae_content := JStr "" |})
      /\ (forall i h rel_path text structured,
            nth_error (firstn 3 all_hits) i = Some h ->
            nth_error fetched i = Some (rel_path, tool_dict text structured) ->
            nth_error entries i =
            Some {| ae_file := field_or "RelPath" (JStr "") h;
                    ae_content := JStr text |}))
  /\ (forall fields query k st all_hits st1 e st2,
      dict_lookup "query" fields = Some query -> truthy query = true ->
      py_get (JObj fields) "k" (JInt 3) = Return k ->
      search_returned (search_arguments query k) st all_hits st1 ->
      for_each fetch_hit (firstn 3 all_hits) st1 = (Raise e, st2) ->
      search (JObj fields) st = (Raise e, st2))
  /\ (forall fields question st all_hits st1 e st2,
      dict_lookup "question" fields = Some question -> truthy question = true ->
      search_returned (search_arguments question (JInt 3)) st all_hits st1 ->
      for_each fetch_hit (firstn 3 all_hits) st1 = (Raise e, st2) ->
      ask (JObj fields) st = (Raise e, st2)).
Proof.
  split; [|split; [|split]].
  - intros fields query k st all_hits st1 fetched st2 Hq Ht Hk
           (text & sc & Hcall & Hhits) Hloop Hscores entries.
    assert (Hlen : length fetched = length (firstn 3 all_hits))
      by apply (fetch_loop_length _ _ _ _ Hloop).
    split; [|split; [|split]].
    + rewrite (search_front _ _ _ _ Hq Ht Hk), (bind_return _ _ _ _ _ Hcall),
        (search_respond_run text sc all_hits st1 Hhits), Hloop.
      rewrite collect_search_blocks; [reflexivity|].
      unfold search_entries. rewrite forallb_forall in *.
      intros e He. apply in_map_iff in He. destruct He as ([h f] & <- & Hin).
      apply in_combine_l in Hin. apply (Hscores h Hin).
    + apply entries_length, Hlen.
    + intros i h rp payload status Hh Hf.
      apply (search_entries_nth _ _ _ _ _ Hh Hf).
    + intros i h rp t s Hh Hf.
      apply (search_entries_nth _ _ _ _ _ Hh Hf).
  - intros fields question st all_hits st1 fetched st2 Hq Ht
           (text & sc & Hcall & Hhits) Hloop entries.
    assert (Hlen : length fetched = length (firstn 3 all_hits))
      by apply (fetch_loop_length _ _ _ _ Hloop).
    split; [|split; [|split]].
    + now rewrite (ask_front _ _ _ Hq Ht), (bind_return _ _ _ _ _ Hcall),
        (ask_respond_run question text sc all_hits st1 Hhits), Hloop.
    + apply entries_length, Hlen.
    + intros i h rp payload status Hh Hf.
      apply (ask_entries_nth _ _ _ _ _ Hh Hf).
    + intros i h rp t s Hh Hf.
      apply (ask_entries_nth _ _ _ _ _ Hh Hf).
  - intros fields query k st all_hits st1 e st2 Hq Ht Hk
           (text & sc & Hcall & Hhits) Hloop.
    now rewrite (search_front _ _ _ _ Hq Ht Hk), (bind_return _ _ _ _ _ Hcall),
      (search_respond_run text sc all_hits st1 Hhits), Hloop.
  - intros fields question st all_hits st1 e st2 Hq Ht
           (text & sc & Hcall & Hhits) Hloop.
    now rewrite (ask_front _ _ _ Hq Ht), (bind_return _ _ _ _ _ Hcall),
      (ask_respond_run question text sc all_hits st1 Hhits), Hloop.
Qed.

(* --------------------------------------------------------------- *)
(** *** Request ids and the session, one call after the other *)

Lemma draw_ids_run n : forall st,
  draw_ids n st =
  (Return (map (fun i => _request_id st + Z.of_nat i) (seq 1 n)),
   {| _session_id := _session_id st;
      _request_id := _request_id st + Z.of_nat n;
      sent := sent st |}).
Proof.
  induction n as [|n IH]; intros st.
  - simpl. unfold ret. rewrite Z.add_0_r. now destruct st.
  - cbn [draw_ids]. unfold bind at 1. unfold _next_id at 1.
    unfold bind. rewrite IH. unfold ret. cbn [_request_id _session_id sent].
    f_equal.
    + f_equal. cbn [seq map]. f_equal.
      rewrite <- (seq_shift n 1), map_map. apply map_ext. intros i. lia.
    + f_equal. lia.
Qed.

Lemma ensure_session_raise_unset st e st' :
  _ensure_session st = (Raise e, st') ->
  _session_id st' = _session_id st /\ cached_session st' = None.
Proof.
  intros H. apply ensure_session_inv in H.
  destruct H as [(sid & _ & Hr & _) | (Hc & [(e' & _ & ->) | (sid & Hr & _)])];
    try discriminate.
  split; [reflexivity|exact Hc].
Qed.

(** With no session cached, a call sends a handshake of its own. *)
Lemma ensure_session_retries st :
  cached_session st = None ->
  sent (snd (_ensure_session st)) =
  (sent st ++ [initialize_request (_request_id st + 1)])%list.
Proof.
  intros Hc. destruct (_ensure_session st) as [r st'] eqn:H.
  apply ensure_session_inv in H.
  destruct H as [(sid & Hs & _) | (_ & [(e' & _ & ->) | (sid & _ & ->)])];
    [congruence|reflexivity|reflexivity].
Qed.

(** Once a call has returned a non-empty identifier, every later call
    returns it from the cache and sends nothing. *)
Lemma ensure_session_sticky st sid st' :
  _ensure_session st = (Return sid, st') -> sid <> "" ->
  _ensure_session st' = (Return sid, st').
Proof.
  intros H Hne. apply ensure_session_cached.
  apply ensure_session_inv in H.
  destruct H as [(sid' & Hc & [= <-] & ->) | (_ & [(e & Hr & _) | (sid' & [= <-] & ->)])];
    [exact Hc|discriminate|].
  unfold cached_session. simpl.
  destruct (String.eqb_spec sid ""); [contradiction|reflexivity].
Qed.

(** The thread model's reading of the upstream's answer is the one
    [_ensure_session] makes. *)
Lemma ensure_session_outcome st :
  cached_session st = None ->
  fst (_ensure_session st) =
  handshake_result (upstream (sent (after_handshake_sent st))).
Proof.
  intros Hc. unfold handshake_result.
  destruct (upstream (sent (after_handshake_sent st))) as [r|] eqn:Hu.
  - unfold raise_for_status.
    destruct ((400 <=? status_code r) && (status_code r <? 600)) eqn:Hs.
    + now rewrite (ensure_session_bad_status st r Hc Hu Hs).
    + now rewrite (ensure_session_responded st r Hc Hu Hs).
  - now rewrite (ensure_session_transport_failed st Hc Hu).
Qed.

(* --------------------------------------------------------------- *)
(** *** What every view keeps

    The views change the globals and reach the upstream through
    [_call_tool] only.  A relation between states that is closed under
    composition and holds across every [_call_tool] therefore holds across
    every view; its index bounds the number of tool calls made. *)

Lemma bind_inv {A B} (m : M A) (k : A -> M B) st r st' :
  bind m k st = (r, st') ->
  (exists a st1, m st = (Return a, st1) /\ k a st1 = (r, st'))
  \/ (exists e, m st = (Raise e, st') /\ r = Raise e).
Proof.
  unfold bind. destruct (m st) as [[a|e] st1]; intros H.
  - left. eauto.
  - right. injection H as <- <-. eauto.
Qed.

Lemma bind_lift_inv {A B} (x : outcome A) (k : A -> M B) st r st' :
  bind (lift x) k st = (r, st') ->
  (exists a, x = Return a /\ k a st = (r, st'))
  \/ (exists e, x = Raise e /\ r = Raise e /\ st' = st).
Proof.
  unfold bind, lift. destruct x as [a|e]; intros H.
  - left. eauto.
  - right. injection H as <- <-. eauto.
Qed.

Lemma chars_length s : length (chars s) = String.length s.
Proof. induction s as [|c s IH]; simpl; [reflexivity|now rewrite IH]. Qed.

Lemma substring_length_le n : forall s, (String.length (substring 0 n s) <= n)%nat.
Proof.
  induction n as [|n IH]; intros [|c s]; simpl; try lia.
  specialize (IH s). lia.
Qed.

(** The loop of /search and of /ask runs at most three times. *)
Lemma first_hits_length d hits :
  first_hits d = Return hits -> (length hits <= 3)%nat.
Proof.
  unfold first_hits.
  destruct (py_get d "structured" (JObj [])) as [structured|]; [|discriminate].
  cbn [obind].
  destruct (py_get structured "hits" (JArr [])) as [all|]; [|discriminate].
  cbn [obind]. destruct all; try discriminate; cbn [py_slice_to obind py_iter];
    intros [= <-].
  - rewrite chars_length. apply substring_length_le.
  - destruct items as [|a [|b [|c l]]]; simpl; lia.
Qed.

Section Steps.

Variable R : nat -> bridge_state -> bridge_state -> Prop.

Hypothesis R_refl : forall st, R 0 st st.
Hypothesis R_trans : forall n m a b c, R n a b -> R m b c -> R (n + m) a c.
Hypothesis R_mono : forall n m a b, (n <= m)%nat -> R n a b -> R m a b.
Hypothesis R_call : forall tool arguments st r st',
    In tool bridge_tools -> _call_tool tool arguments st = (r, st') -> R 1 st st'.

(** The step is the tool call [Hc]. *)
Ltac by_call Hc := eapply R_call; [|exact Hc]; simpl; tauto.

Lemma R_here n st : R n st st.
Proof. apply (R_mono 0); [lia|apply R_refl]. Qed.

Lemma fetch_hit_steps h st r st' : fetch_hit h st = (r, st') -> R 1 st st'.
Proof.
  unfold fetch_hit. intros H.
  apply bind_lift_inv in H. destruct H as [(ra & _ & H) | (e & _ & _ & ->)];
    [|apply R_here].
  apply bind_inv in H. destruct H as [(source & st1 & Hc & H) | (e & Hc & _)].
  - injection H as _ <-. by_call Hc.
  - by_call Hc.
Qed.

Lemma search_hit_steps h st r st' : search_hit h st = (r, st') -> R 1 st st'.
Proof.
  unfold search_hit. intros H.
  apply bind_inv in H. destruct H as [(f & st1 & Hf & H) | (e & Hf & _)];
    [|apply (fetch_hit_steps _ _ _ _ Hf)].
  assert (st' = st1) as ->; [|apply (fetch_hit_steps _ _ _ _ Hf)].
  apply bind_lift_inv in H. destruct H as [(text & _ & H) | (e & _ & _ & ->)];
    [|reflexivity].
  apply bind_lift_inv in H. destruct H as [(score & _ & H) | (e & _ & _ & ->)];
    [|reflexivity].
  now injection H.
Qed.

Lemma ask_hit_steps h st r st' : ask_hit h st = (r, st') -> R 1 st st'.
Proof.
  unfold ask_hit. intros H.
  apply bind_inv in H. destruct H as [(f & st1 & Hf & H) | (e & Hf & _)];
    [|apply (fetch_hit_steps _ _ _ _ Hf)].
  assert (st' = st1) as ->; [|apply (fetch_hit_steps _ _ _ _ Hf)].
  apply bind_lift_inv in H. destruct H as [(text & _ & H) | (e & _ & _ & ->)];
    [|reflexivity].
  now injection H.
Qed.

Lemma for_each_steps {A B} (f : A -> M B) :
  (forall a st r st', f a st = (r, st') -> R 1 st st') ->
  forall l st r st', for_each f l st = (r, st') -> R (length l) st st'.
Proof.
  intros Hf. induction l as [|a l IH]; intros st r st' H.
  - injection H as _ <-. apply R_refl.
  - rewrite for_each_cons in H.
    destruct (f a st) as [[b|e] st1] eqn:Ha.
    + destruct (for_each f l st1) as [r1 st2] eqn:Hl.
      assert (st' = st2) as -> by (destruct r1; now injection H).
      apply (R_trans 1 (length l) _ st1); [apply (Hf _ _ _ _ Ha)|apply (IH _ _ _ Hl)].
    + injection H as _ <-. apply (R_mono 1); [simpl; lia|apply (Hf _ _ _ _ Ha)].
Qed.

Lemma search_respond_steps result st r st' :
  search_respond result st = (r, st') -> R 3 st st'.
Proof.
  destruct result as [payload status|d]; simpl; intros H.
  - injection H as _ <-. apply R_here.
  - apply bind_lift_inv in H. destruct H as [(hits & Hh & H) | (e & _ & _ & ->)];
      [|apply R_here].
    apply first_hits_length in Hh.
    apply bind_inv in H. destruct H as [(en & st1 & Hl & H) | (e & Hl & _)].
    + assert (st' = st1) as ->.
      { apply bind_lift_inv in H.
        destruct H as [(blocks & _ & H) | (e & _ & _ & ->)]; [now injection H|reflexivity]. }
      apply (R_mono (length hits)); [exact Hh|].
      apply (for_each_steps _ search_hit_steps _ _ _ _ Hl).
    + apply (R_mono (length hits)); [exact Hh|].
      apply (for_each_steps _ search_hit_steps _ _ _ _ Hl).
Qed.

Lemma ask_respond_steps question result st r st' :
  ask_respond question result st = (r, st') -> R 3 st st'.
Proof.
  destruct result as [payload status|d]; simpl; intros H.
  - injection H as _ <-. apply R_here.
  - apply bind_lift_inv in H. destruct H as [(hits & Hh & H) | (e & _ & _ & ->)];
      [|apply R_here].
    apply first_hits_length in Hh.
    apply bind_inv in H. destruct H as [(en & st1 & Hl & H) | (e & Hl & _)].
    + injection H as _ <-.
      apply (R_mono (length hits)); [exact Hh|].
      apply (for_each_steps _ ask_hit_steps _ _ _ _ Hl).
    + apply (R_mono (length hits)); [exact Hh|].
      apply (for_each_steps _ ask_hit_steps _ _ _ _ Hl).
Qed.

Lemma search_steps request_json st r st' :
  search request_json st = (r, st') -> R 4 st st'.
Proof.
  unfold search. intros H.
  apply bind_lift_inv in H. destruct H as [(query & _ & H) | (e & _ & _ & ->)];
    [|apply R_here].
  destruct (negb (truthy query)).
  - injection H as _ <-. apply R_here.
  - apply bind_lift_inv in H. destruct H as [(k & _ & H) | (e & _ & _ & ->)];
      [|apply R_here].
    apply bind_inv in H. destruct H as [(result & st1 & Hc & H) | (e & Hc & _)].
    + apply (R_trans 1 3 _ st1);
        [by_call Hc
        |apply (search_respond_steps _ _ _ _ H)].
    + apply (R_mono 1); [lia|by_call Hc].
Qed.

Lemma ask_steps request_json st r st' :
  ask request_json st = (r, st') -> R 4 st st'.
Proof.
  unfold ask. intros H.
  apply bind_lift_inv in H. destruct H as [(question & _ & H) | (e & _ & _ & ->)];
    [|apply R_here].
  destruct (negb (truthy question)).
  - injection H as _ <-. apply R_here.
  - apply bind_inv in H. destruct H as [(result & st1 & Hc & H) | (e & Hc & _)].
    + apply (R_trans 1 3 _ st1);
        [by_call Hc
        |apply (ask_respond_steps _ _ _ _ _ H)].
    + apply (R_mono 1); [lia|by_call Hc].
Qed.

Lemma passthrough_steps tool st r st' :
  In tool bridge_tools -> passthrough tool st = (r, st') -> R 1 st st'.
Proof.
  intros Ht H. unfold passthrough in H.
  apply bind_inv in H. destruct H as [(result & st1 & Hc & H) | (e & Hc & _)];
    [|apply (R_call _ _ _ _ _ Ht Hc)].
  assert (st' = st1) as -> by (destruct result; now injection H).
  apply (R_call _ _ _ _ _ Ht Hc).
Qed.

(** One inbound request: at most four tool calls. *)
Lemma serve_steps i st r st' : serve i st = (r, st') -> R 4 st st'.
Proof.
  destruct i; simpl; intros H.
  - injection H as _ <-. apply R_here.
  - apply (search_steps _ _ _ _ H).
  - apply (ask_steps _ _ _ _ H).
  - apply (R_mono 1); [lia|].
    eapply passthrough_steps; [|exact H]; simpl; tauto.
  - apply (R_mono 1); [lia|].
    eapply passthrough_steps; [|exact H]; simpl; tauto.
Qed.

Lemma serve_all_steps requests : forall st, exists n, R n st (serve_all requests st).
Proof.
  induction requests as [|i requests IH]; intros st; simpl.
  - exists 0%nat. apply R_refl.
  - destruct (serve i st) as [r st1] eqn:H. simpl.
    destruct (IH st1) as (n & Hn). exists (4 + n)%nat.
    apply (R_trans 4 n _ st1); [apply (serve_steps _ _ _ _ H)|exact Hn].
Qed.

End Steps.

(** The three ways a [_call_tool] can leave the globals and the wire:
    the cached session was used; the handshake failed; the handshake was
    answered and the tool call went out under what it answered. *)
Lemma call_tool_shapes tool_name arguments st r st' :
  _call_tool tool_name arguments st = (r, st') ->
  (exists sid, cached_session st = Some sid
               /\ st' = after_call_sent sid tool_name arguments st)
  \/ (cached_session st = None
      /\ ((exists e, r = Raise e /\ st' = after_handshake_sent st
                     /\ handshake_result (upstream (sent (after_handshake_sent st)))
                        = Raise e)
          \/ (exists sid,
                 handshake_result (upstream (sent (after_handshake_sent st)))
                 = Return sid
                 /\ st' = after_call_sent sid tool_name arguments
                            (with_session sid (after_handshake_sent st))))).
Proof.
  intros H. destruct (_ensure_session st) as [r1 st1] eqn:Hs.
  pose proof (ensure_session_inv _ _ _ Hs) as Hinv.
  destruct Hinv as [(sid & Hc & -> & ->) | (Hc & Hrest)].
  - left. exists sid. split; [exact Hc|].
    rewrite (call_tool_run _ _ _ _ _ Hs) in H. now injection H.
  - right. split; [exact Hc|].
    pose proof (ensure_session_outcome st Hc) as Ho. rewrite Hs in Ho. simpl in Ho.
    destruct Hrest as [(e & -> & ->) | (sid & -> & ->)].
    + left. exists e. rewrite (call_tool_session_raises _ _ _ _ _ Hs) in H.
      injection H as <- <-. auto.
    + right. exists sid. split; [now symmetry|].
      rewrite (call_tool_run _ _ _ _ _ Hs) in H. now injection H.
Qed.

(* --------------------------------------------------------------- *)
(** *** Request ids, one call of [requests.post] after the other *)

Lemma count_up_snoc n :
  count_up (S n) = (count_up n ++ [JInt (Z.of_nat n + 1)])%list.
Proof.
  unfold count_up. rewrite seq_S, map_app. simpl. do 3 f_equal. lia.
Qed.

Lemma numbered_sent st session_id req :
  numbered st ->
  request_id_of req = JInt (_request_id st + 1) ->
  numbered {| _session_id := session_id;
              _request_id := _request_id st + 1;
              sent := sent st ++ [req] |}.
Proof.
  intros [Hw Hn] Hreq. unfold numbered, posted_ids in *. simpl.
  rewrite map_app, length_app, Hw. simpl. rewrite Nat.add_1_r, count_up_snoc, Hreq, Hn.
  split; [reflexivity|lia].
Qed.

Lemma call_tool_numbered tool_name arguments st r st' :
  _call_tool tool_name arguments st = (r, st') -> numbered st -> numbered st'.
Proof.
  intros H Hn. apply call_tool_shapes in H.
  destruct H as [(sid & _ & ->) | (_ & [(e & _ & -> & _) | (sid & _ & ->)])].
  - now apply numbered_sent.
  - now apply numbered_sent.
  - apply (numbered_sent (with_session sid (after_handshake_sent st))); [|reflexivity].
    apply (numbered_sent st (Some sid)); [exact Hn|reflexivity].
Qed.

Lemma count_up_numbers n : count_up n = map JInt (map Z.of_nat (seq 1 n)).
Proof. unfold count_up. now rewrite map_map. Qed.

Lemma of_nat_seq_sorted n : forall s, StronglySorted Z.lt (map Z.of_nat (seq s n)).
Proof.
  induction n as [|n IH]; intros s; simpl; constructor; [apply IH|].
  apply Forall_forall. intros x Hx. apply in_map_iff in Hx.
  destruct Hx as (i & <- & Hi). apply in_seq in Hi. lia.
Qed.

(** Dropping requests from a log whose ids increase leaves ids that
    increase. *)
Lemma filter_posted_ids (p : http_request -> bool) log : forall ns,
  posted_ids log = map JInt ns ->
  exists ns',
    posted_ids (filter p log) = map JInt ns'
    /\ (forall n, In n ns' -> In n ns)
    /\ (StronglySorted Z.lt ns -> StronglySorted Z.lt ns').
Proof.
  induction log as [|r log IH]; intros ns H.
  - exists []. repeat split; [intros n []|constructor].
  - destruct ns as [|n ns]; [discriminate|]. simpl in H. injection H as Hr Hrest.
    destruct (IH ns Hrest) as (ns' & Hids & Hin & Hsorted). simpl.
    destruct (p r).
    + exists (n :: ns'). simpl. rewrite Hr, Hids. repeat split.
      * intros x [<-|Hx]; [now left|right; auto].
      * intros Hs. inversion Hs as [|? ? Hs' Hlt]; subst.
        constructor; [auto|]. rewrite Forall_forall in *. auto.
    + exists ns'. repeat split; [exact Hids|intros x Hx; right; auto|].
      intros Hs. inversion Hs; subst. auto.
Qed.

(** X1.  Requests served one after the other by a fresh process: the
    n-th call of [requests.post], handshake or tool call, is given the
    JSON-RPC id [n], whatever the views were asked, whatever the upstream
    answered and however each view ended, and the counter stands at the
    number of calls made.  A call is not always a request on the wire:
    the library refuses a body that holds NaN or an infinity (a [k] of
    [1e999], say) before sending anything, with the id already drawn.
    The calls it accepts therefore carry ids that are strictly increasing
    and between 1 and the counter, with a gap for every refused call in
    between; they are 1, 2, ..., n exactly when no call was refused. *)
Theorem posted_ids_count_up (requests : list inbound) :
  let st := serve_all requests initial_state in
  posted_ids (sent st) = count_up (length (sent st))
  /\ _request_id st = Z.of_nat (length (sent st))
  /\ (exists ns,
        posted_ids (accepted (sent st)) = map JInt ns
        /\ StronglySorted Z.lt ns
        /\ Forall (fun n => 1 <= n <= _request_id st) ns)
  /\ (forallb (fun r => serialisable (json_body r)) (sent st) = true ->
      posted_ids (accepted (sent st)) = count_up (length (sent st)))
  /\ (posted_ids (accepted (sent st)) = count_up (length (sent st)) ->
      forallb (fun r => serialisable (json_body r)) (sent st) = true).
Proof.
  intros st.
  assert (Hn : numbered st).
  { destruct (serve_all_steps (fun _ st st' => numbered st -> numbered st'))
      with (requests := requests) (st := initial_state) as (n & H);
      [auto|auto|auto| |apply H; split; reflexivity].
    intros tool arguments s r s' _ Hc. apply (call_tool_numbered _ _ _ _ _ Hc). }
  destruct Hn as [Hids Hcount]. split; [exact Hids|]. split; [exact Hcount|].
  split; [|split].
  - rewrite count_up_numbers in Hids.
    destruct (filter_posted_ids (fun r => serialisable (json_body r)) (sent st) _ Hids)
      as (ns & Hacc & Hin & Hsorted).
    exists ns. split; [exact Hacc|]. split; [apply Hsorted, of_nat_seq_sorted|].
    apply Forall_forall. intros x Hx. apply Hin, in_map_iff in Hx.
    destruct Hx as (i & <- & Hi). apply in_seq in Hi. lia.
  - intros Hall. unfold accepted. now rewrite (forallb_filter_id _ _ Hall).
  - intros Hsame.
    assert (Hlen : length (accepted (sent st)) = length (sent st)).
    { apply (f_equal (@length json)) in Hsame. unfold posted_ids, count_up in Hsame.
      now rewrite !length_map, length_seq in Hsame. }
    unfold accepted in Hlen. clear -Hlen.
    induction (sent st) as [|r log IH]; [reflexivity|]. simpl in *.
    destruct (serialisable (json_body r)); simpl in *.
    + apply IH. now injection Hlen.
    + pose proof (filter_length_le (fun r => serialisable (json_body r)) log). lia.
Qed.

(* --------------------------------------------------------------- *)
(** *** The shape of outbound requests *)

Lemma initialize_request_shape id : bridge_request (initialize_request id).
Proof. unfold bridge_request. simpl. repeat split. left. repeat split. Qed.

Lemma tools_call_request_shape sid id tool arguments :
  In tool bridge_tools -> bridge_request (tools_call_request sid id tool arguments).
Proof.
  intros Ht. unfold bridge_request. simpl. repeat split. right. repeat split.
  exists sid, tool. repeat split. exact Ht.
Qed.

Lemma call_tool_bridge_requests tool arguments st r st' :
  In tool bridge_tools ->
  _call_tool tool arguments st = (r, st') ->
  Forall bridge_request (sent st) -> Forall bridge_request (sent st').
Proof.
  intros Ht H Hf. apply call_tool_shapes in H.
  destruct H as [(sid & _ & ->) | (_ & [(e & _ & -> & _) | (sid & _ & ->)])]; simpl;
    repeat (apply Forall_app; split); try exact Hf;
    (apply Forall_cons; [|apply Forall_nil]);
    auto using initialize_request_shape, tools_call_request_shape.
Qed.

(** X2.  Everything a process ever sends goes to [MCP_URL] as JSON, under
    the protocol version and the bearer token, and is either an
    [initialize] request (10 s timeout, no session header) or a
    [tools/call] request (30 s timeout, with a session header) for one
    of the four tools [dir2mcp.search], [dir2mcp.open_file],
    [dir2mcp.list_files] and [dir2mcp.stats]. *)
Theorem outbound_requests_shape (requests : list inbound) :
  Forall
    (fun r =>
       url r = MCP_URL
       /\ header_value "Content-Type" (headers r) = Some "application/json"
       /\ header_value "MCP-Protocol-Version" (headers r) = Some PROTOCOL_VERSION
       /\ header_value "Authorization" (headers r) = Some ("Bearer " ++ MCP_TOKEN)
       /\ json_field "jsonrpc" (json_body r) = JStr "2.0"
       /\ ((is_initialize r = true /\ timeout r = 10 /\ request_session r = None)
           \/ (is_tools_call r = true /\ timeout r = 30
               /\ exists sid tool,
                    request_session r = Some sid
                    /\ In tool bridge_tools /\ request_tool r = JStr tool)))
    (sent (serve_all requests initial_state)).
Proof.
  destruct (serve_all_steps
              (fun _ st st' => Forall bridge_request (sent st) ->
                               Forall bridge_request (sent st')))
    with (requests := requests) (st := initial_state) as (n & H);
    [auto|auto|auto| |apply H; constructor].
  intros tool arguments st r st' Ht Hc.
  apply (call_tool_bridge_requests _ _ _ _ _ Ht Hc).
Qed.

(* --------------------------------------------------------------- *)
(** *** An established session *)

Lemma keeps_session_call sid tool arguments st r st' :
  _call_tool tool arguments st = (r, st') -> keeps_session sid 1 st st'.
Proof.
  intros H Hc. apply call_tool_shapes in H.
  destruct H as [(sid' & Hc' & ->) | (Hnone & _)]; [|congruence].
  assert (sid' = sid) as -> by congruence.
  split; [exact Hc|].
  exists [tools_call_request sid (_request_id st + 1) tool arguments].
  repeat split; simpl; auto.
Qed.

Lemma keeps_session_trans sid n m a b c :
  keeps_session sid n a b -> keeps_session sid m b c -> keeps_session sid (n + m) a c.
Proof.
  intros Hab Hbc Ha. destruct (Hab Ha) as (Hb & l1 & E1 & L1 & F1).
  destruct (Hbc Hb) as (Hc & l2 & E2 & L2 & F2).
  split; [exact Hc|]. exists (l1 ++ l2)%list.
  rewrite E2, E1, <- app_assoc, length_app.
  repeat split; [lia|]. apply Forall_app. now split.
Qed.

Lemma keeps_session_refl sid st : keeps_session sid 0 st st.
Proof.
  intros H. split; [exact H|]. exists []. rewrite app_nil_r. repeat split; auto.
Qed.

Lemma keeps_session_mono sid n m a b :
  (n <= m)%nat -> keeps_session sid n a b -> keeps_session sid m a b.
Proof.
  intros Hnm Hab Ha. destruct (Hab Ha) as (Hb & l & E & L & F).
  split; [exact Hb|]. exists l. repeat split; auto. lia.
Qed.

(** X3.  Once a non-empty session identifier is cached, no view ever
    replaces it or shakes hands again, whatever the upstream answers
    (an HTTP 401 or 404 for that session included): everything sent
    from then on is a [tools/call] request presenting that identifier. *)
Theorem established_session_is_kept
  (requests : list inbound) (st : bridge_state) (sid : string) :
  cached_session st = Some sid ->
  let st' := serve_all requests st in
  cached_session st' = Some sid
  /\ exists calls,
       sent st' = (sent st ++ calls)%list
       /\ Forall (fun r => is_initialize r = false
                           /\ is_tools_call r = true
                           /\ request_session r = Some sid) calls.
Proof.
  intros Hc st'.
  destruct (serve_all_steps (keeps_session sid)) with (requests := requests) (st := st)
    as (n & H).
  - apply keeps_session_refl.
  - apply keeps_session_trans.
  - apply keeps_session_mono.
  - intros tool arguments s r s' _ Hcall. apply (keeps_session_call _ _ _ _ _ _ Hcall).
  - destruct (H Hc) as (Hc' & calls & E & _ & F). split; [exact Hc'|].
    exists calls. split; [exact E|].
    eapply Forall_impl; [|exact F]. intros r [Ht Hs]. repeat split; auto.
    unfold is_tools_call in Ht. unfold is_initialize.
    destruct (request_method r); try discriminate.
    simpl in *. apply String.eqb_eq in Ht. now subst.
Qed.

(* --------------------------------------------------------------- *)
(** *** Where session identifiers come from *)

Lemma grants_from_app l : forall before l',
  grants_from before (l ++ l')
  = (grants_from before l ++ grants_from (before ++ l) l')%list.
Proof.
  induction l as [|r l IH]; intros before l'; simpl.
  - now rewrite app_nil_r.
  - rewrite IH, <- !app_assoc. reflexivity.
Qed.

Lemma grants_snoc l r :
  grants (l ++ [r]) =
  (grants l ++ (if is_initialize r then
                  match handshake_result (upstream (l ++ [r])) with
                  | Return sid => [sid]
                  | Raise _ => []
                  end
                else []))%list.
Proof. unfold grants. rewrite grants_from_app. simpl. now rewrite app_nil_r. Qed.

Lemma In_grants_app l l' sid : In sid (grants l) -> In sid (grants (l ++ l')).
Proof.
  intros H. unfold grants in *. rewrite grants_from_app. apply in_or_app. now left.
Qed.

(** What [grants] lists. *)
Lemma grants_spec log sid :
  In sid (grants log) ->
  exists l i l', log = (l ++ i :: l')%list
                 /\ is_initialize i = true
                 /\ handshake_result (upstream (l ++ [i])) = Return sid.
Proof.
  induction log as [|r log IH] using rev_ind; [intros []|].
  rewrite grants_snoc. intros H. apply in_app_or in H. destruct H as [H|H].
  - destruct (IH H) as (l & i & l' & -> & Hi & Hh).
    exists l, i, (l' ++ [r])%list. rewrite <- app_assoc. auto.
  - destruct (is_initialize r) eqn:Hi; [|destruct H].
    destruct (handshake_result (upstream (log ++ [r]))) as [s|] eqn:Hh; [|destruct H].
    destruct H as [<-|[]]. exists log, r, []. auto.
Qed.

Lemma snoc_split {A} (l before rest : list A) c r :
  (l ++ [c] = before ++ r :: rest)%list ->
  (exists rest', l = (before ++ r :: rest')%list /\ rest = (rest' ++ [c])%list)
  \/ (before = l /\ r = c /\ rest = []).
Proof.
  destruct rest as [|x rest] using rev_ind; intros H.
  - right. apply app_inj_tail in H. destruct H as [-> ->]. auto.
  - left. exists rest. clear IHrest.
    change (before ++ r :: rest ++ [x])%list with (before ++ (r :: rest) ++ [x])%list in H.
    rewrite app_assoc in H. apply app_inj_tail in H. destruct H as [-> ->]. auto.
Qed.

Lemma sessions_granted_snoc st st' c :
  sessions_granted st ->
  sent st' = (sent st ++ [c])%list ->
  _session_id st' = _session_id st ->
  (forall sid, request_session c = Some sid -> In sid (grants (sent st))) ->
  sessions_granted st'.
Proof.
  intros [H1 H2] Hs Hid Hc. split.
  - intros sid Hsid. rewrite Hs. apply In_grants_app. apply H1. congruence.
  - intros before r rest sid Hsplit Hr. rewrite Hs in Hsplit.
    apply snoc_split in Hsplit.
    destruct Hsplit as [(rest' & Hl & _) | (-> & -> & _)].
    + apply (H2 _ _ _ _ Hl Hr).
    + apply (Hc _ Hr).
Qed.

Lemma call_tool_sessions_granted tool arguments st r st' :
  _call_tool tool arguments st = (r, st') ->
  sessions_granted st -> sessions_granted st'.
Proof.
  intros H Hg. apply call_tool_shapes in H.
  destruct H as [(sid & Hc & ->) | (_ & [(e & _ & -> & _) | (sid & Hh & ->)])].
  - eapply sessions_granted_snoc with (st := st);
      [exact Hg|reflexivity|reflexivity|].
    intros s [= <-]. apply Hg. apply cached_some in Hc. apply Hc.
  - eapply sessions_granted_snoc with (st := st);
      [exact Hg|reflexivity|reflexivity|]. intros s [=].
  - assert (Hin : In sid (grants (sent (after_handshake_sent st)))).
    { simpl. rewrite grants_snoc. apply in_or_app. right.
      simpl in Hh. change (is_initialize (initialize_request (_request_id st + 1)))
        with true. cbv iota. rewrite Hh. now left. }
    eapply sessions_granted_snoc with (st := with_session sid (after_handshake_sent st));
      [|reflexivity|reflexivity|intros s [= <-]; exact Hin].
    destruct Hg as [H1 H2]. split.
    + intros s [= <-]. exact Hin.
    + intros before r0 rest s Hsplit Hr. simpl in Hsplit. apply snoc_split in Hsplit.
      destruct Hsplit as [(rest' & Hl & _) | (-> & -> & _)];
        [apply (H2 _ _ _ _ Hl Hr)|discriminate].
Qed.

(** X4.  The bridge never presents a session identifier of its own
    making: whenever a request on the wire carries a session header, an
    earlier [initialize] request on the same wire was answered, with a
    status that is not 4xx/5xx, by a response whose [Mcp-Session-Id] header
    held exactly that identifier (the empty string when the response had
    no such header); the same holds of the identifier in the global. *)
Theorem session_ids_come_from_upstream (requests : list inbound) :
  let st := serve_all requests initial_state in
  (forall before r rest sid,
      sent st = (before ++ r :: rest)%list ->
      request_session r = Some sid ->
      exists l i l',
        before = (l ++ i :: l')%list
        /\ is_initialize i = true
        /\ handshake_result (upstream (l ++ [i])) = Return sid)
  /\ (forall sid,
        _session_id st = Some sid ->
        exists l i l',
          sent st = (l ++ i :: l')%list
          /\ is_initialize i = true
          /\ handshake_result (upstream (l ++ [i])) = Return sid).
Proof.
  intros st.
  assert (Hg : sessions_granted st).
  { destruct (serve_all_steps
                (fun _ st st' => sessions_granted st -> sessions_granted st'))
      with (requests := requests) (st := initial_state) as (n & H);
      [auto|auto|auto| |apply H; split; [discriminate|]].
    - intros tool arguments s r s' _ Hc. apply (call_tool_sessions_granted _ _ _ _ _ Hc).
    - intros [|x before] r rest sid Hsplit; discriminate. }
  destruct Hg as [H1 H2]. split.
  - intros before r rest sid Hsplit Hr. apply grants_spec. apply (H2 _ _ _ _ Hsplit Hr).
  - intros sid Hsid. apply grants_spec. apply (H1 _ Hsid).
Qed.

(* --------------------------------------------------------------- *)
(** *** How much one inbound request sends *)

Lemma call_tool_sent tool arguments st r st' :
  _call_tool tool arguments st = (r, st') ->
  exists new, sent st' = (sent st ++ new)%list
    /\ (1 <= length new <= 2)%nat
    /\ (forall sid, cached_session st = Some sid -> length new = 1%nat).
Proof.
  intros H. apply call_tool_shapes in H.
  destruct H as [(sid & Hc & ->) | (Hc & [(e & _ & -> & _) | (sid & _ & ->)])].
  - eexists. split; [reflexivity|]. simpl. split; [lia|reflexivity].
  - eexists. split; [reflexivity|]. simpl. split; [lia|reflexivity].
  - eexists. simpl. rewrite <- app_assoc. split; [reflexivity|]. simpl.
    split; [lia|congruence].
Qed.

Lemma sends_at_most_call tool arguments st r st' :
  _call_tool tool arguments st = (r, st') -> sends_at_most 1 st st'.
Proof.
  intros H. destruct (call_tool_sent _ _ _ _ _ H) as (new & E & L & _).
  exists new. split; [exact E|lia].
Qed.

Lemma sends_at_most_trans n m a b c :
  sends_at_most n a b -> sends_at_most m b c -> sends_at_most (n + m) a c.
Proof.
  intros (l1 & E1 & L1) (l2 & E2 & L2). exists (l1 ++ l2)%list.
  rewrite E2, E1, <- app_assoc, length_app. split; [reflexivity|lia].
Qed.

Lemma passthrough_sent tool st :
  exists new, sent (snd (passthrough tool st)) = (sent st ++ new)%list
    /\ (1 <= length new <= 2)%nat
    /\ (forall sid, cached_session st = Some sid -> length new = 1%nat).
Proof.
  destruct (passthrough tool st) as [r st'] eqn:H. unfold passthrough in H.
  apply bind_inv in H. destruct H as [(result & st1 & Hc & H) | (e & Hc & _)].
  - assert (st' = st1) as -> by (destruct result; now injection H).
    apply (call_tool_sent _ _ _ _ _ Hc).
  - apply (call_tool_sent _ _ _ _ _ Hc).
Qed.

(** X5.  One inbound request makes the bridge send at most eight requests
    upstream (a handshake and a tool call, four times over), and at most
    four, all tool calls, when a session is cached.  /health sends
    nothing; /list_files and /stats send one or two requests, exactly one
    when a session is cached. *)
Theorem outbound_calls_bounded (i : inbound) (st : bridge_state) :
  exists new,
    sent (snd (serve i st)) = (sent st ++ new)%list
    /\ (length new <= 8)%nat
    /\ (i = GetHealth -> new = [])
    /\ (i = ListFiles \/ i = Stats -> (1 <= length new <= 2)%nat)
    /\ (forall sid,
          cached_session st = Some sid ->
          (length new <= 4)%nat
          /\ Forall (fun r => is_tools_call r = true) new
          /\ (i = ListFiles \/ i = Stats -> length new = 1%nat)).
Proof.
  destruct (serve i st) as [r st'] eqn:H. cbn [snd].
  assert (Hnew : sends_at_most 4 st st').
  { apply (serve_steps sends_at_most) with (i := i) (r := r); [| | | |exact H].
    - intros s. exists []. now rewrite app_nil_r.
    - apply sends_at_most_trans.
    - intros n m a b Hnm (l & E & L). exists l. split; [exact E|lia].
    - intros tool arguments s r0 s' _ Hc. apply (sends_at_most_call _ _ _ _ _ Hc). }
  destruct Hnew as (new & E & L). exists new.
  assert (Hsame : forall l, sent st' = (sent st ++ l)%list -> l = new).
  { intros l El. rewrite E in El. now apply app_inv_head in El. }
  split; [exact E|]. split; [lia|]. split; [|split].
  - intros ->. injection H as _ <-. symmetry. apply Hsame. now rewrite app_nil_r.
  - intros Hi.
    assert (Hp : exists tool, passthrough tool st = (r, st'))
      by (destruct Hi as [-> | ->]; eexists; exact H).
    destruct Hp as (tool & Hp). destruct (passthrough_sent tool st) as (l & El & Ll & _).
    rewrite Hp in El. now rewrite <- (Hsame l El).
  - intros sid Hc.
    assert (Hk : keeps_session sid 4 st st').
    { apply (serve_steps (keeps_session sid)) with (i := i) (r := r); [| | | |exact H].
      - apply keeps_session_refl.
      - apply keeps_session_trans.
      - apply keeps_session_mono.
      - intros tool arguments s r0 s' _ Hcall.
        apply (keeps_session_call _ _ _ _ _ _ Hcall). }
    destruct (Hk Hc) as (_ & calls & Ec & Lc & Fc). rewrite <- (Hsame calls Ec).
    split; [exact Lc|]. split.
    + eapply Forall_impl; [|exact Fc]. now intros x [Hx _].
    + intros Hi.
      assert (Hp : exists tool, passthrough tool st = (r, st'))
        by (destruct Hi as [-> | ->]; eexists; exact H).
      destruct Hp as (tool & Hp).
      destruct (passthrough_sent tool st) as (l & El & _ & Ll).
      rewrite Hp in El. rewrite (Hsame calls Ec), <- (Hsame l El). apply (Ll sid Hc).
Qed.

(* --------------------------------------------------------------- *)
(** *** The first tool call of a view *)

(** X6.  A POST /ask whose body is a JSON object without a non-empty
    [question] (absent, or present and falsy: the empty string, null, 0,
    false, an empty list or object), or is itself a falsy value, is
    answered HTTP 400 with [{"error": "question is required"}]; nothing
    is sent upstream and the globals are not touched. *)
Theorem ask_missing_question_400 (request_json : json) (st : bridge_state) :
  has_nonempty "question" request_json = false ->
  is_object request_json = true \/ truthy request_json = false ->
  ask request_json st = (Return (missing_field_response "question"), st).
Proof.
  intros Hq Hshape. unfold ask.
  rewrite (bind_lift_return _ _ _ _ (body_get_field _ "question" (JStr "") Hshape)).
  assert (Hfalsy : truthy (match request_json with
                           | JObj fields =>
                               match dict_lookup "question" fields with
                               | Some v => v
                               | None => JStr ""
                               end
                           | _ => JStr ""
                           end) = false).
  { unfold has_nonempty in Hq. destruct request_json; try reflexivity.
    destruct (dict_lookup "question" fields); [exact Hq|reflexivity]. }
  rewrite Hfalsy. reflexivity.
Qed.

Lemma has_nonempty_object key request_json :
  has_nonempty key request_json = true ->
  exists fields v, request_json = JObj fields
                   /\ dict_lookup key fields = Some v /\ truthy v = true.
Proof.
  unfold has_nonempty. destruct request_json; try discriminate.
  destruct (dict_lookup key fields) as [v|] eqn:Hv; [|discriminate].
  intros Ht. eauto.
Qed.

(** What a view that gets past its validation runs: its first tool call,
    then the rest of the view on what the call returned. *)
Lemma serve_first_call i tool arguments st :
  first_call i = Some (tool, arguments) ->
  exists rest,
    serve i st = bind (_call_tool tool arguments) rest st
    /\ forall payload status st1,
         rest (ToolTuple payload status) st1
         = (Return (jsonify_status payload status), st1).
Proof.
  destruct i as [|request_json|request_json| |]; simpl; try discriminate.
  - destruct (has_nonempty "query" request_json) eqn:Hq; [|discriminate].
    intros [= <- <-]. apply has_nonempty_object in Hq.
    destruct Hq as (fields & q & -> & Hq & Ht).
    exists search_respond. split; [|reflexivity].
    rewrite (search_front fields q (field_or "k" (JInt 3) (JObj fields)) st Hq Ht
               (py_get_object _ _ _)).
    unfold json_field. simpl. now rewrite Hq.
  - destruct (has_nonempty "question" request_json) eqn:Hq; [|discriminate].
    intros [= <- <-]. apply has_nonempty_object in Hq.
    destruct Hq as (fields & q & -> & Hq & Ht).
    exists (ask_respond q). split; [|reflexivity].
    rewrite (ask_front fields q st Hq Ht). unfold json_field. simpl. now rewrite Hq.
  - intros [= <- <-]. eexists. split; [reflexivity|reflexivity].
  - intros [= <- <-]. eexists. split; [reflexivity|reflexivity].
Qed.

Lemma call_tool_answered tool arguments st sid st1 r :
  _ensure_session st = (Return sid, st1) ->
  upstream (sent (after_call_sent sid tool arguments st1)) = Responded r ->
  ~ 400 <= status_code r < 600 ->
  _call_tool tool arguments st
  = (data <~ response_json r ;; decode_tool_response data,
     after_call_sent sid tool arguments st1).
Proof.
  intros Hs Hu Hst. rewrite (call_tool_run _ _ _ _ _ Hs), Hu. unfold tool_outcome.
  now rewrite (raise_for_status_ok r Hst).
Qed.

(** X7.  Every view relays a JSON-RPC error: when the first tool call of
    a request (the search of /search and of /ask, the one call of
    /list_files and of /stats) is answered, under a status that is not
    4xx/5xx, by a JSON object with an [error] field, the view answers
    HTTP 500 with [{"error": payload}], the payload untouched, and that
    tool call is the last thing it sent. *)
Theorem first_call_error_is_relayed
  (i : inbound) (tool : string) (arguments : json) (st st1 : bridge_state)
  (sid : string) (r : http_response) (data : list (string * json)) (payload : json) :
  first_call i = Some (tool, arguments) ->
  _ensure_session st = (Return sid, st1) ->
  upstream (sent (after_call_sent sid tool arguments st1)) = Responded r ->
  ~ 400 <= status_code r < 600 ->
  body r = Some (JObj data) ->
  dict_lookup "error" data = Some payload ->
  serve i st =
  (Return {| response_payload := JObj [("error", payload)]; response_status := 500 |},
   after_call_sent sid tool arguments st1).
Proof.
  intros Hf Hs Hu Hst Hb He.
  destruct (serve_first_call i tool arguments st Hf) as (rest & -> & Hrest).
  pose proof (call_tool_answered tool arguments st sid st1 r Hs Hu Hst) as Hc.
  unfold response_json in Hc. rewrite Hb in Hc. cbn [obind] in Hc.
  rewrite (decode_error_field data payload He) in Hc.
  now rewrite (bind_return _ _ _ _ _ Hc), Hrest.
Qed.

(** X8.  A first tool call that fails is not answered by the view: the
    view raises what the call raised, once the request has gone out and
    with the session left as it was.  The call fails when the transport
    does, when the status is 4xx or 5xx (whatever the body: a JSON-RPC
    error under such a status is not relayed), when the body is not JSON,
    and when it is JSON but not an object. *)
Theorem first_call_failure_is_raised
  (i : inbound) (tool : string) (arguments : json) (st st1 : bridge_state)
  (sid : string) :
  first_call i = Some (tool, arguments) ->
  _ensure_session st = (Return sid, st1) ->
  let st2 := after_call_sent sid tool arguments st1 in
  _session_id st2 = _session_id st1
  /\ (upstream (sent st2) = TransportFailed ->
      serve i st = (Raise RequestException, st2))
  /\ (forall r,
        upstream (sent st2) = Responded r -> 400 <= status_code r < 600 ->
        serve i st = (Raise (HTTPError (status_code r)), st2))
  /\ (forall r,
        upstream (sent st2) = Responded r -> ~ 400 <= status_code r < 600 ->
        body r = None ->
        serve i st = (Raise JSONDecodeError, st2))
  /\ (forall r data,
        upstream (sent st2) = Responded r -> ~ 400 <= status_code r < 600 ->
        body r = Some data -> is_object data = false ->
        serve i st = (Raise PyTypeError, st2)).
Proof.
  intros Hf Hs st2.
  destruct (serve_first_call i tool arguments st Hf) as (rest & -> & _).
  pose proof (call_tool_run tool arguments st sid st1 Hs) as Hrun.
  fold st2 in Hrun. split; [reflexivity|]. repeat split.
  - intros Hu. rewrite Hu in Hrun. now rewrite (bind_raise _ _ _ _ _ Hrun).
  - intros r Hu Hst. rewrite Hu in Hrun. unfold tool_outcome in Hrun.
    rewrite (raise_for_status_bad r Hst) in Hrun.
    now rewrite (bind_raise _ _ _ _ _ Hrun).
  - intros r Hu Hst Hb. rewrite Hu in Hrun. unfold tool_outcome, response_json in Hrun.
    rewrite (raise_for_status_ok r Hst), Hb in Hrun.
    now rewrite (bind_raise _ _ _ _ _ Hrun).
  - intros r data Hu Hst Hb Hobj. rewrite Hu in Hrun.
    unfold tool_outcome, response_json in Hrun.
    rewrite (raise_for_status_ok r Hst), Hb in Hrun. cbn [obind] in Hrun.
    rewrite (decode_non_object data Hobj) in Hrun.
    now rewrite (bind_raise _ _ _ _ _ Hrun).
Qed.

(** X9.  /list_files and /stats hand the tool's answer through: when
    their one tool call (always with the empty argument object) is
    answered by a result, the view answers HTTP 200 with
    [{"result": text, "structured": payload}], [text] being the
    newline-join of the textual content entries and [payload] the
    result's [structuredContent], null when there is none; an answer with
    neither [error] nor [result] gives the empty text and null. *)
Theorem list_files_and_stats_pass_result
  (i : inbound) (tool : string) (st st1 : bridge_state) (sid : string)
  (r : http_response) (data : list (string * json)) :
  (i = ListFiles /\ tool = "dir2mcp.list_files")
  \/ (i = Stats /\ tool = "dir2mcp.stats") ->
  _ensure_session st = (Return sid, st1) ->
  upstream (sent (after_call_sent sid tool (JObj []) st1)) = Responded r ->
  ~ 400 <= status_code r < 600 ->
  body r = Some (JObj data) ->
  dict_lookup "error" data = None ->
  (forall result content,
      dict_lookup "result" data = Some (JObj result) ->
      py_get (JObj result) "content" (JArr []) = Return (JArr content) ->
      forallb readable_entry content = true ->
      serve i st =
      (Return {| response_payload :=
                   JObj [("result", JStr (joined_text content));
                         ("structured",
                          json_field "structuredContent" (JObj result))];
                 response_status := 200 |},
       after_call_sent sid tool (JObj []) st1))
  /\ (dict_lookup "result" data = None ->
      serve i st =
      (Return {| response_payload :=
                   JObj [("result", JStr ""); ("structured", JNull)];
                 response_status := 200 |},
       after_call_sent sid tool (JObj []) st1)).
Proof.
  intros Hi Hs Hu Hst Hb He.
  pose proof (call_tool_answered tool (JObj []) st sid st1 r Hs Hu Hst) as Hc.
  unfold response_json in Hc. rewrite Hb in Hc. cbn [obind] in Hc.
  assert (Hserve : serve i st = passthrough tool st)
    by (destruct Hi as [[-> ->] | [-> ->]]; reflexivity).
  rewrite Hserve. unfold passthrough. split.
  - intros result content Hr Hcontent Hread.
    rewrite (decode_result_field data result content He Hr Hcontent Hread) in Hc.
    now rewrite (bind_return _ _ _ _ _ Hc).
  - intros Hr. rewrite (decode_no_field data He Hr) in Hc.
    now rewrite (bind_return _ _ _ _ _ Hc).
Qed.

(* --------------------------------------------------------------- *)
(** *** Hits the enrichment cannot use *)

(** X10.  A search that finds nothing is answered HTTP 200 and sends no
    [dir2mcp.open_file] call: /search returns the empty string as its
    result, /ask the question and the heading with nothing under it. *)
Theorem no_hits_empty_result
  (fields : list (string * json)) (st st1 : bridge_state) :
  (forall query k,
      dict_lookup "query" fields = Some query -> truthy query = true ->
      py_get (JObj fields) "k" (JInt 3) = Return k ->
      search_returned (search_arguments query k) st [] st1 ->
      search (JObj fields) st = (Return (result_response ""), st1))
  /\ (forall question,
        dict_lookup "question" fields = Some question -> truthy question = true ->
        search_returned (search_arguments question (JInt 3)) st [] st1 ->
        ask (JObj fields) st =
        (Return (result_response
                   ("Question: " ++ format_value question ++ nl ++ nl
                    ++ "Relevant document content:" ++ nl ++ nl)), st1)).
Proof.
  split.
  - intros query k Hq Ht Hk (text & sc & Hcall & Hhits).
    now rewrite (search_front _ _ _ _ Hq Ht Hk), (bind_return _ _ _ _ _ Hcall),
      (search_respond_run text sc [] st1 Hhits).
  - intros question Hq Ht (text & sc & Hcall & Hhits).
    now rewrite (ask_front _ _ _ Hq Ht), (bind_return _ _ _ _ _ Hcall),
      (ask_respond_run question text sc [] st1 Hhits).
Qed.

Lemma first_hits_needs_object text structured :
  is_object structured = false ->
  first_hits (JObj [("result", JStr text); ("structured", structured)])
  = Raise PyTypeError.
Proof. destruct structured; try discriminate; reflexivity. Qed.

(** X11.  /search and /ask need a structured payload: when the search
    call is answered by a result whose [structuredContent] is missing, or
    is anything but an object, the view raises right after that call and
    fetches nothing.  (The [{}] default of [result.get("structured", {})]
    never applies, the key being always set by [_call_tool].) *)
Theorem search_needs_structured_content
  (i : inbound) (arguments : json) (st st1 : bridge_state) (sid : string)
  (r : http_response) (data result : list (string * json)) (content : list json) :
  first_call i = Some ("dir2mcp.search", arguments) ->
  _ensure_session st = (Return sid, st1) ->
  upstream (sent (after_call_sent sid "dir2mcp.search" arguments st1)) = Responded r ->
  ~ 400 <= status_code r < 600 ->
  body r = Some (JObj data) ->
  dict_lookup "error" data = None ->
  dict_lookup "result" data = Some (JObj result) ->
  py_get (JObj result) "content" (JArr []) = Return (JArr content) ->
  forallb readable_entry content = true ->
  is_object (json_field "structuredContent" (JObj result)) = false ->
  serve i st = (Raise PyTypeError, after_call_sent sid "dir2mcp.search" arguments st1).
Proof.
  intros Hf Hs Hu Hst Hb He Hr Hcontent Hread Hsc.
  pose proof (call_tool_answered _ arguments st sid st1 r Hs Hu Hst) as Hc.
  unfold response_json in Hc. rewrite Hb in Hc. cbn [obind] in Hc.
  rewrite (decode_result_field data result content He Hr Hcontent Hread) in Hc.
  destruct i as [|request_json|request_json| |]; simpl in Hf; try discriminate.
  - destruct (has_nonempty "query" request_json) eqn:Hq; [|discriminate].
    injection Hf as <-. apply has_nonempty_object in Hq.
    destruct Hq as (fields & q & -> & Hq & Ht). simpl serve.
    rewrite (search_front fields q (field_or "k" (JInt 3) (JObj fields)) st Hq Ht
               (py_get_object _ _ _)).
    unfold json_field in Hc. simpl field_or in Hc at 1. rewrite Hq in Hc.
    unfold search_arguments. rewrite (bind_return _ _ _ _ _ Hc).
    unfold search_respond.
    now rewrite (bind_lift_raise _ _ _ _ (first_hits_needs_object _ _ Hsc)).
  - destruct (has_nonempty "question" request_json) eqn:Hq; [|discriminate].
    injection Hf as <-. apply has_nonempty_object in Hq.
    destruct Hq as (fields & q & -> & Hq & Ht). simpl serve.
    rewrite (ask_front fields q st Hq Ht).
    unfold json_field in Hc. simpl field_or in Hc at 1. rewrite Hq in Hc.
    unfold search_arguments. rewrite (bind_return _ _ _ _ _ Hc).
    unfold ask_respond.
    now rewrite (bind_lift_raise _ _ _ _ (first_hits_needs_object _ _ Hsc)).
Qed.

Lemma format_percent_raises v e : format_percent v = Raise e -> e = PyTypeError.
Proof.
  destruct v; simpl; try discriminate; try (now intros [= <-]).
  unfold float_of_int. destruct (binary_normalize prec emax z 0 false);
    simpl; try discriminate. now intros [= <-].
Qed.

Lemma search_block_undefined e :
  percent_defined (se_score e) = false -> search_block e = Raise PyTypeError.
Proof.
  unfold percent_defined, search_block.
  destruct (format_percent (se_score e)) as [s|x] eqn:H; [discriminate|].
  now rewrite (format_percent_raises _ _ H).
Qed.

Lemma search_block_raises e x : search_block e = Raise x -> x = PyTypeError.
Proof.
  unfold search_block. destruct (format_percent (se_score e)) as [s|y] eqn:H;
    [discriminate|]. intros [= <-]. apply (format_percent_raises _ _ H).
Qed.

Lemma collect_search_blocks_undefined entries :
  forallb (fun e => percent_defined (se_score e)) entries = false ->
  collect search_block entries = Raise PyTypeError.
Proof.
  induction entries as [|e entries IH]; simpl; [discriminate|].
  intros H. destruct (search_block e) as [s|x] eqn:He.
  - cbn [obind]. rewrite IH; [reflexivity|].
    destruct (percent_defined (se_score e)) eqn:Hd; [exact H|].
    rewrite (search_block_undefined e Hd) in He. discriminate.
  - now rewrite (search_block_raises e x He).
Qed.

Lemma search_entries_scores hits : forall fetched,
  length fetched = length hits ->
  forallb (fun e => percent_defined (se_score e)) (search_entries hits fetched)
  = forallb (fun h => percent_defined (field_or "Score" (JInt 0) h)) hits.
Proof.
  unfold search_entries.
  induction hits as [|h hits IH]; intros [|f fetched] Hlen; try discriminate;
    [reflexivity|]. simpl. f_equal. apply IH. now injection Hlen.
Qed.

(** X12.  /search formats the scores only after the loop: when one of
    the hits it processed has a [Score] that [.0%] cannot print (a string,
    null, a list, an object), every [dir2mcp.open_file] call is made all
    the same and the view then raises instead of answering. *)
Theorem unprintable_score_fails_after_fetching
  (fields : list (string * json)) (query k : json) (st st1 st2 : bridge_state)
  (all_hits : list json) (fetched : list (json * tool_return)) :
  dict_lookup "query" fields = Some query -> truthy query = true ->
  py_get (JObj fields) "k" (JInt 3) = Return k ->
  search_returned (search_arguments query k) st all_hits st1 ->
  for_each fetch_hit (firstn 3 all_hits) st1 = (Return fetched, st2) ->
  forallb (fun h => percent_defined (field_or "Score" (JInt 0) h))
          (firstn 3 all_hits) = false ->
  search (JObj fields) st = (Raise PyTypeError, st2)
  /\ tool_calls (sent st2) =
     (tool_calls (sent st)
      ++ (JStr "dir2mcp.search", search_arguments query k)
         :: map open_file_call (firstn 3 all_hits))%list.
Proof.
  intros Hq Ht Hk (text & sc & Hcall & Hhits) Hloop Hscores. split.
  - rewrite (search_front _ _ _ _ Hq Ht Hk), (bind_return _ _ _ _ _ Hcall),
      (search_respond_run text sc all_hits st1 Hhits), Hloop.
    rewrite collect_search_blocks_undefined; [reflexivity|].
    rewrite search_entries_scores; [exact Hscores|].
    apply (fetch_loop_length _ _ _ _ Hloop).
  - destruct (fetch_loop_tool_calls _ _ _ _ Hloop) as (n & _ & Hlog & Hall).
    destruct (Hall fetched eq_refl) as [-> _].
    rewrite Hlog, (call_tool_returns_tool_calls _ _ _ _ _ Hcall), <- app_assoc.
    now rewrite firstn_all.
Qed.

(* --------------------------------------------------------------- *)
(** *** Results the codec cannot read *)

Lemma text_entry_object fields :
  text_entry (JObj fields)
  = Return (if is_textual (JObj fields)
            then [field_or "text" (JStr "") (JObj fields)] else []).
Proof.
  unfold text_entry, is_textual, json_field. rewrite !py_get_object. cbn [obind].
  now destruct (py_eq_str (field_or "type" JNull (JObj fields)) "text").
Qed.

Lemma text_entry_raises c e : text_entry c = Raise e -> e = PyTypeError.
Proof.
  destruct c; try (now intros [= <-]). rewrite text_entry_object. discriminate.
Qed.

Lemma collect_text_entry_raises cs e :
  collect text_entry cs = Raise e -> e = PyTypeError.
Proof.
  induction cs as [|c cs IH]; simpl; [discriminate|].
  destruct (text_entry c) as [p|x] eqn:Hc.
  - cbn [obind]. destruct (collect text_entry cs) as [ps|y]; [discriminate|].
    intros [= <-]. now apply IH.
  - intros [= <-]. apply (text_entry_raises c x Hc).
Qed.

Lemma all_strs_raises parts e : all_strs parts = Raise e -> e = PyTypeError.
Proof.
  induction parts as [|p parts IH]; simpl; [discriminate|].
  destruct p; try (now intros [= <-]).
  destruct (all_strs parts) as [ss|x]; [discriminate|].
  intros [= <-]. now apply IH.
Qed.

Lemma all_strs_app_raise l1 l2 :
  all_strs l2 = Raise PyTypeError -> all_strs (l1 ++ l2) = Raise PyTypeError.
Proof.
  intros H. induction l1 as [|p l1 IH]; simpl; [exact H|].
  destruct p; try reflexivity. now rewrite IH.
Qed.

(** An entry the code cannot read spoils the whole join. *)
Lemma unreadable_entries_raise cs :
  forallb readable_entry cs = false ->
  (parts <~ collect text_entry cs ;; py_join nl (concat parts)) = Raise PyTypeError.
Proof.
  induction cs as [|c cs IH]; simpl; [discriminate|].
  intros H. destruct c as [| | | | | |fields]; try reflexivity.
  rewrite text_entry_object. cbn [obind].
  destruct (collect text_entry cs) as [ps|x] eqn:Hcs; cbn [obind].
  - unfold py_join. simpl concat.
    destruct (readable_entry (JObj fields)) eqn:Hr.
    + simpl in H. specialize (IH H). unfold py_join in IH. cbn [obind] in IH.
      destruct (all_strs (concat ps)) as [ss|y] eqn:Hss; [discriminate|].
      injection IH as ->. now rewrite (all_strs_app_raise _ _ Hss).
    + unfold readable_entry in Hr.
      destruct (is_textual (JObj fields)); [|discriminate].
      unfold field_or.
      destruct (dict_lookup "text" fields) as [t|]; [|discriminate].
      destruct t; try discriminate; reflexivity.
  - now rewrite (collect_text_entry_raises cs x Hcs).
Qed.

Lemma decode_without_error fields v :
  dict_lookup "error" fields = None ->
  dict_lookup "result" fields = Some v ->
  decode_tool_response (JObj fields) =
  (content <~ py_get v "content" (JArr []) ;;
   parts <~ text_entries content ;;
   text <~ py_join nl parts ;;
   structured <~ py_get v "structuredContent" JNull ;;
   Return (tool_dict text structured)).
Proof.
  intros He Hr. unfold decode_tool_response. cbn [py_in]. rewrite He. cbn [obind].
  cbn [py_get]. now rewrite Hr.
Qed.

Lemma decode_result_not_object fields v :
  dict_lookup "error" fields = None ->
  dict_lookup "result" fields = Some v -> is_object v = false ->
  decode_tool_response (JObj fields) = Raise PyTypeError.
Proof.
  intros He Hr Hobj. rewrite (decode_without_error fields v He Hr).
  destruct v; try discriminate; reflexivity.
Qed.

Lemma decode_content_not_iterable fields result v e :
  dict_lookup "error" fields = None ->
  dict_lookup "result" fields = Some (JObj result) ->
  py_get (JObj result) "content" (JArr []) = Return v ->
  py_iter v = Raise e ->
  decode_tool_response (JObj fields) = Raise PyTypeError.
Proof.
  intros He Hr Hc Hi. rewrite (decode_without_error fields _ He Hr), Hc. cbn [obind].
  unfold text_entries. rewrite Hi. cbn [obind].
  destruct v; try discriminate; now injection Hi as <-.
Qed.

Lemma decode_entries_unreadable fields result v entries :
  dict_lookup "error" fields = None ->
  dict_lookup "result" fields = Some (JObj result) ->
  py_get (JObj result) "content" (JArr []) = Return v ->
  py_iter v = Return entries ->
  forallb readable_entry entries = false ->
  decode_tool_response (JObj fields) = Raise PyTypeError.
Proof.
  intros He Hr Hc Hi Hread. rewrite (decode_without_error fields _ He Hr), Hc.
  cbn [obind]. unfold text_entries. rewrite Hi. cbn [obind].
  pose proof (unreadable_entries_raise entries Hread) as Hraise.
  destruct (collect text_entry entries) as [ps|x]; cbn [obind] in *.
  - now rewrite Hraise.
  - now injection Hraise as ->.
Qed.

Lemma decode_entries_readable fields result v entries :
  dict_lookup "error" fields = None ->
  dict_lookup "result" fields = Some (JObj result) ->
  py_get (JObj result) "content" (JArr []) = Return v ->
  py_iter v = Return entries ->
  forallb readable_entry entries = true ->
  decode_tool_response (JObj fields)
  = Return (tool_dict (joined_text entries)
                      (json_field "structuredContent" (JObj result))).
Proof.
  intros He Hr Hc Hi Hread. rewrite (decode_without_error fields _ He Hr), Hc.
  cbn [obind]. unfold text_entries. rewrite Hi. cbn [obind].
  pose proof (text_entries_readable entries Hread) as Hte.
  unfold text_entries in Hte. cbn [py_iter obind] in Hte.
  destruct (collect text_entry entries) as [ps|x]; [|discriminate].
  cbn [obind] in *. injection Hte as ->.
  unfold py_join. rewrite all_strs_map. cbn [obind].
  now rewrite py_get_object.
Qed.

(** C9 (amended).  On a response body that is a JSON object the codec
    yields an error outcome exactly when the body has an [error] field,
    whether or not a [result] is present too.  With no [error]: a body
    with no [result] either decodes as an empty result (empty text, no
    structured payload), not as a decode error; a body with a [result]
    decodes as a result outcome exactly when the [result] is an object
    whose [content] (the empty list when absent) can be iterated and
    holds only entries the code can read (objects whose [text], when the
    entry is flagged as textual and has one, is a string), and decoding
    raises otherwise: on a null or otherwise non-object [result], on a
    [content] that cannot be iterated, on an entry that cannot be read.
    On success the text is the newline-join, in the order returned, of
    exactly the content entries flagged as textual, and the structured
    payload is the result's [structuredContent], unmodified ([None] when
    absent).  A body that is not an object is never a success: decoding
    raises. *)
Theorem decode_tool_response_cases :
  (forall data,
      is_object data = false -> decode_tool_response data = Raise PyTypeError)
  /\ (forall fields payload,
      dict_lookup "error" fields = Some payload ->
      decode_tool_response (JObj fields) =
      Return (ToolTuple (JObj [("error", payload)]) 500))
  /\ (forall fields,
      dict_lookup "error" fields = None ->
      dict_lookup "result" fields = None ->
      decode_tool_response (JObj fields) =
      Return (ToolDict (JObj [("result", JStr ""); ("structured", JNull)])))
  /\ (forall fields result content,
      dict_lookup "error" fields = None ->
      dict_lookup "result" fields = Some (JObj result) ->
      py_get (JObj result) "content" (JArr []) = Return (JArr content) ->
      forallb readable_entry content = true ->
      decode_tool_response (JObj fields) =
      Return (ToolDict
                (JObj [("result", JStr (joined_text content));
                       ("structured",
                        json_field "structuredContent" (JObj result))])))
  /\ (forall fields result v entries,
      dict_lookup "error" fields = None ->
      dict_lookup "result" fields = Some (JObj result) ->
      py_get (JObj result) "content" (JArr []) = Return v ->
      py_iter v = Return entries ->
      forallb readable_entry entries = true ->
      decode_tool_response (JObj fields) =
      Return (ToolDict
                (JObj [("result", JStr (joined_text entries));
                       ("structured",
                        json_field "structuredContent" (JObj result))])))
  /\ (forall fields v,
      dict_lookup "error" fields = None ->
      dict_lookup "result" fields = Some v -> is_object v = false ->
      decode_tool_response (JObj fields) = Raise PyTypeError)
  /\ (forall fields result v e,
      dict_lookup "error" fields = None ->
      dict_lookup "result" fields = Some (JObj result) ->
      py_get (JObj result) "content" (JArr []) = Return v ->
      py_iter v = Raise e ->
      decode_tool_response (JObj fields) = Raise PyTypeError)
  /\ (forall fields result v entries,
      dict_lookup "error" fields = None ->
      dict_lookup "result" fields = Some (JObj result) ->
      py_get (JObj result) "content" (JArr []) = Return v ->
      py_iter v = Return entries ->
      forallb readable_entry entries = false ->
      decode_tool_response (JObj fields) = Raise PyTypeError)
  /\ (forall fields r,
      decode_tool_response (JObj fields) = Return r ->
      match dict_lookup "error" fields with
      | Some payload => r = ToolTuple (JObj [("error", payload)]) 500
      | None =>
          match dict_lookup "result" fields with
          | None => r = tool_dict "" JNull
          | Some v =>
              exists result entries,
                v = JObj result
                /\ (content <~ py_get v "content" (JArr []) ;; py_iter content)
                   = Return entries
                /\ forallb readable_entry entries = true
                /\ r = tool_dict (joined_text entries)
                                 (json_field "structuredContent" v)
          end
      end).
Proof.
  split; [exact decode_non_object|].
  split; [exact decode_error_field|].
  split; [exact decode_no_field|].
  split; [exact decode_result_field|].
  split; [exact decode_entries_readable|].
  split; [exact decode_result_not_object|].
  split; [exact decode_content_not_iterable|].
  split; [exact decode_entries_unreadable|].
  intros fields r H.
  destruct (dict_lookup "error" fields) as [payload|] eqn:He.
  - rewrite (decode_error_field fields payload He) in H. now injection H as <-.
  - destruct (dict_lookup "result" fields) as [v|] eqn:Hr.
    + destruct (is_object v) eqn:Hobj;
        [|rewrite (decode_result_not_object fields v He Hr Hobj) in H; discriminate].
      destruct v as [| | | | | |result]; try discriminate.
      destruct (py_get (JObj result) "content" (JArr [])) as [content|x] eqn:Hc;
        [|rewrite py_get_object in Hc; discriminate].
      destruct (py_iter content) as [entries|x] eqn:Hi;
        [|rewrite (decode_content_not_iterable fields result content x He Hr Hc Hi) in H;
          discriminate].
      destruct (forallb readable_entry entries) eqn:Hread;
        [|rewrite (decode_entries_unreadable fields result content entries
                     He Hr Hc Hi Hread) in H; discriminate].
      rewrite (decode_entries_readable fields result content entries He Hr Hc Hi Hread)
        in H. injection H as <-.
      exists result, entries. cbn [obind]. now rewrite Hi.
    + rewrite (decode_no_field fields He Hr) in H. now injection H as <-.
Qed.

(** X13.  A tool result the codec cannot read makes [_call_tool] raise,
    never return: a [result] that is not an object (null included), a
    [content] that cannot be iterated, and a [content] with an entry that
    is not an object or whose [type] is "text" while its [text] is not a
    string.  Entries of any other type are skipped whatever they hold. *)
Theorem malformed_result_is_not_decoded (fields : list (string * json)) :
  dict_lookup "error" fields = None ->
  (forall v,
      dict_lookup "result" fields = Some v -> is_object v = false ->
      decode_tool_response (JObj fields) = Raise PyTypeError)
  /\ (forall result v e,
        dict_lookup "result" fields = Some (JObj result) ->
        py_get (JObj result) "content" (JArr []) = Return v ->
        py_iter v = Raise e ->
        decode_tool_response (JObj fields) = Raise PyTypeError)
  /\ (forall result v entries,
        dict_lookup "result" fields = Some (JObj result) ->
        py_get (JObj result) "content" (JArr []) = Return v ->
        py_iter v = Return entries ->
        forallb readable_entry entries = false ->
        decode_tool_response (JObj fields) = Raise PyTypeError)
  /\ (forall result v entries,
        dict_lookup "result" fields = Some (JObj result) ->
        py_get (JObj result) "content" (JArr []) = Return v ->
        py_iter v = Return entries ->
        forallb readable_entry entries = true ->
        decode_tool_response (JObj fields)
        = Return (tool_dict (joined_text entries)
                            (json_field "structuredContent" (JObj result)))).
Proof.
  intros He.
  assert (Hstart : forall v,
             dict_lookup "result" fields = Some v ->
             decode_tool_response (JObj fields) =
             (content <~ py_get v "content" (JArr []) ;;
              parts <~ text_entries content ;;
              text <~ py_join nl parts ;;
              structured <~ py_get v "structuredContent" JNull ;;
              Return (tool_dict text structured))).
  { intros v Hr. unfold decode_tool_response. cbn [py_in]. rewrite He. cbn [obind].
    cbn [py_get]. now rewrite Hr. }
  repeat split.
  - intros v Hr Hobj. rewrite (Hstart v Hr).
    destruct v; try discriminate; reflexivity.
  - intros result v e Hr Hc Hi. rewrite (Hstart _ Hr), Hc. cbn [obind].
    unfold text_entries. rewrite Hi. cbn [obind].
    destruct v; try discriminate; now injection Hi as <-.
  - intros result v entries Hr Hc Hi Hread. rewrite (Hstart _ Hr), Hc. cbn [obind].
    unfold text_entries. rewrite Hi. cbn [obind].
    pose proof (unreadable_entries_raise entries Hread) as Hraise.
    destruct (collect text_entry entries) as [ps|x]; cbn [obind] in *.
    + now rewrite Hraise.
    + now injection Hraise as ->.
  - intros result v entries Hr Hc Hi Hread. rewrite (Hstart _ Hr), Hc. cbn [obind].
    unfold text_entries. rewrite Hi. cbn [obind].
    pose proof (text_entries_readable entries Hread) as Hte.
    unfold text_entries in Hte. cbn [py_iter obind] in Hte.
    destruct (collect text_entry entries) as [ps|x]; [|discriminate].
    cbn [obind] in *. injection Hte as ->.
    unfold py_join. rewrite all_strs_map. cbn [obind].
    now rewrite py_get_object.
Qed.

(* --------------------------------------------------------------- *)
(** *** A handshake answered without a session identifier *)

(** X14.  When the handshake is answered, under a status that is not
    4xx/5xx, with no [Mcp-Session-Id] header (or an empty one), the tool
    call goes out all the same, presenting the empty string as its
    session; nothing is cached, so the next tool call starts with a
    handshake again. *)
Theorem headerless_handshake_goes_on
  (tool : string) (arguments : json) (st : bridge_state) (r : http_response) :
  cached_session st = None ->
  upstream (sent (after_handshake_sent st)) = Responded r ->
  ~ 400 <= status_code r < 600 ->
  headers_get "Mcp-Session-Id" "" (response_headers r) = "" ->
  let st2 := after_call_sent "" tool arguments
               (with_session "" (after_handshake_sent st)) in
  _call_tool tool arguments st = (tool_outcome (upstream (sent st2)), st2)
  /\ sent st2 =
     (sent st ++ [initialize_request (_request_id st + 1);
                  tools_call_request "" (_request_id st + 2) tool arguments])%list
  /\ cached_session st2 = None
  /\ forall tool' arguments',
       exists rest,
         sent (snd (_call_tool tool' arguments' st2)) =
         (sent st2 ++ initialize_request (_request_id st + 3) :: rest)%list.
Proof.
  intros Hc Hu Hst Hh st2.
  assert (Hs : _ensure_session st = (Return "", with_session "" (after_handshake_sent st))).
  { rewrite (ensure_session_responded st r Hc Hu); [now rewrite Hh|].
    apply andb_false_iff.
    destruct (Z.leb_spec 400 (status_code r)); [right|now left].
    apply Z.ltb_ge. lia. }
  split; [apply (call_tool_run _ _ _ _ _ Hs)|].
  split.
  { simpl. rewrite <- app_assoc. simpl.
    now replace (_request_id st + 1 + 1) with (_request_id st + 2) by lia. }
  split; [reflexivity|].
  intros tool' arguments'.
  destruct (_call_tool tool' arguments' st2) as [r' st3] eqn:Hcall. cbn [snd].
  apply call_tool_shapes in Hcall.
  replace (_request_id st + 3) with (_request_id st2 + 1) by (simpl; lia).
  destruct Hcall as [(sid & Hsid & _) | (_ & [(e & _ & -> & _) | (sid & _ & ->)])].
  - discriminate.
  - exists []. reflexivity.
  - eexists. simpl. rewrite <- !app_assoc. reflexivity.
Qed.

(* --------------------------------------------------------------- *)
(** *** Hits the loop cannot read *)

Lemma for_each_app {A B} (f : A -> M B) l1 : forall l2 st,
  for_each f (l1 ++ l2) st =
  match for_each f l1 st with
  | (Return bs1, st1) =>
      match for_each f l2 st1 with
      | (Return bs2, st2) => (Return (bs1 ++ bs2)%list, st2)
      | (Raise e, st2) => (Raise e, st2)
      end
  | (Raise e, st1) => (Raise e, st1)
  end.
Proof.
  induction l1 as [|a l1 IH]; intros l2 st.
  - cbn [app for_each]. unfold ret.
    destruct (for_each f l2 st) as [[bs|e] st2]; reflexivity.
  - simpl app. rewrite !for_each_cons.
    destruct (f a st) as [[b|e] st1]; [|reflexivity].
    rewrite IH. destruct (for_each f l1 st1) as [[bs1|e] st2]; [|reflexivity].
    destruct (for_each f l2 st2) as [[bs2|e] st3]; reflexivity.
Qed.

Lemma open_file_args_undefined h :
  is_object h = false \/ is_object (field_or "Span" (JObj []) h) = false ->
  open_file_args h = Raise PyTypeError.
Proof.
  intros H. unfold open_file_args. destruct h; try reflexivity.
  destruct H as [H|H]; [discriminate|].
  rewrite !py_get_object. cbn [obind].
  destruct (field_or "Span" (JObj []) (JObj fields)); try reflexivity; discriminate.
Qed.

Lemma fetch_loop_unreadable good h rest st fetched st' :
  for_each fetch_hit good st = (Return fetched, st') ->
  is_object h = false \/ is_object (field_or "Span" (JObj []) h) = false ->
  for_each fetch_hit (good ++ h :: rest) st = (Raise PyTypeError, st').
Proof.
  intros Hgood Hh. rewrite for_each_app, Hgood, for_each_cons.
  unfold fetch_hit at 1.
  now rewrite (bind_lift_raise _ _ _ _ (open_file_args_undefined h Hh)).
Qed.

(** X19.  A hit the loop cannot read aborts the view.  When one of the
    first three hits is not an object, or has a [Span] that is not an
    object (a null [Span] included: the [{}] default stands in for a
    missing key only), /search and /ask raise at that hit: the hits
    before it have been fetched, it and the hits after it are not, and no
    answer is assembled. *)
Theorem unreadable_hit_aborts_the_view
  (fields : list (string * json)) (st st1 st2 : bridge_state)
  (all_hits good rest : list json) (h : json)
  (fetched : list (json * tool_return)) :
  firstn 3 all_hits = (good ++ h :: rest)%list ->
  for_each fetch_hit good st1 = (Return fetched, st2) ->
  is_object h = false \/ is_object (field_or "Span" (JObj []) h) = false ->
  (forall query k,
      dict_lookup "query" fields = Some query -> truthy query = true ->
      py_get (JObj fields) "k" (JInt 3) = Return k ->
      search_returned (search_arguments query k) st all_hits st1 ->
      search (JObj fields) st = (Raise PyTypeError, st2))
  /\ (forall question,
        dict_lookup "question" fields = Some question -> truthy question = true ->
        search_returned (search_arguments question (JInt 3)) st all_hits st1 ->
        ask (JObj fields) st = (Raise PyTypeError, st2))
  /\ tool_calls (sent st2)
     = (tool_calls (sent st1) ++ map open_file_call good)%list.
Proof.
  intros Hsplit Hgood Hh.
  pose proof (fetch_loop_unreadable good h rest st1 fetched st2 Hgood Hh) as Hloop.
  rewrite <- Hsplit in Hloop. split; [|split].
  - intros query k Hq Ht Hk (text & sc & Hcall & Hhits).
    now rewrite (search_front _ _ _ _ Hq Ht Hk), (bind_return _ _ _ _ _ Hcall),
      (search_respond_run text sc all_hits st1 Hhits), Hloop.
  - intros question Hq Ht (text & sc & Hcall & Hhits).
    now rewrite (ask_front _ _ _ Hq Ht), (bind_return _ _ _ _ _ Hcall),
      (ask_respond_run question text sc all_hits st1 Hhits), Hloop.
  - destruct (fetch_loop_tool_calls _ _ _ _ Hgood) as (n & _ & Hlog & Hall).
    destruct (Hall fetched eq_refl) as [-> _]. now rewrite firstn_all in Hlog.
Qed.

End Bridge.

(* ================================================================= *)
(** ** Interleavings of request threads *)

Lemma issued_app h1 h2 : issued (h1 ++ h2) = (issued h1 ++ issued h2)%list.
Proof.
  induction h1 as [|e h1 IH]; simpl; [reflexivity|].
  destruct e; simpl; now rewrite IH.
Qed.

Lemma observed_app h1 h2 : observed (h1 ++ h2) = (observed h1 ++ observed h2)%list.
Proof.
  induction h1 as [|e h1 IH]; simpl; [reflexivity|].
  destruct e; simpl; now rewrite IH.
Qed.

Lemma count_app p h1 h2 : count p (h1 ++ h2) = (count p h1 + count p h2)%nat.
Proof. unfold count. now rewrite filter_app, length_app. Qed.

Lemma initial_world_consistent : consistent initial_world.
Proof.
  constructor; simpl; try (intros; discriminate); try constructor;
    try (intros; contradiction); try reflexivity; intros; discriminate.
Qed.

Lemma in_flight_at_point t p w :
  awaiting_handshake p = awaiting_handshake (threads w t) ->
  in_flight (at_point t p w) = in_flight w.
Proof.
  intros H. unfold in_flight. simpl. destruct (w_session_lock w) as [u|]; [|reflexivity].
  unfold update. destruct (Nat.eqb_spec u t) as [->|_]; [now rewrite H|reflexivity].
Qed.

Lemma sorted_snoc l n :
  StronglySorted Z.lt l -> Forall (fun m => m < n) l ->
  StronglySorted Z.lt (l ++ [n]).
Proof.
  induction 1 as [|a l Hs IH Ha]; intros Hn; simpl.
  - repeat constructor.
  - inversion Hn as [|? ? Han Hln]; subst. constructor; [now apply IH|].
    apply Forall_app. split; [exact Ha|]. now repeat constructor.
Qed.

Arguments update : simpl never.

(** The steps the cases of the preservation proof share.  A step of
    thread [t] leaves every other thread where it was, so a clause about
    all threads splits into the moving thread and the others. *)
Ltac by_thread u t :=
  unfold update in *;
  let E := fresh "E" in
  destruct (Nat.eqb_spec u t) as [E|E]; [try rewrite E in *; clear E|].

(** Open the invariant, and read its per-thread clauses at [t]. *)
Ltac prep C t Hpc :=
  destruct C as [SL IL IB SF RF IS HU OC HC EC];
  pose proof (SL t) as SLt; pose proof (IL t) as ILt; pose proof (HU t) as HUt;
  rewrite Hpc in SLt, ILt, HUt; simpl in SLt, ILt, HUt.

(** A lock clause: holder and program point agree, for every thread. *)
Ltac lock_goal old t :=
  intros ?u;
  match goal with
  | u : nat |- _ <-> _ =>
      specialize (old u); by_thread u t; simpl in *; intuition congruence
  end.

(** A clause about the thread at some program point. *)
Ltac thread_goal old t :=
  intros ?u; intros;
  match goal with
  | u : nat, H : context [update _ _ _ ?v] |- _ =>
      constr_eq u v; by_thread u t; simpl in *;
      try discriminate; try congruence; try (eapply old; eauto; fail);
      try (specialize (old u); intuition congruence); eauto
  end.

Ltac hist :=
  simpl; rewrite ?issued_app, ?observed_app, ?count_app; simpl;
  rewrite ?app_nil_r, ?Nat.add_0_r.

(** The step changes neither the history of handshakes nor whether the
    guard's holder is waiting for an answer. *)
Ltac same_flight :=
  match goal with
  | HC : count is_handshake_sent _ = _, Hpc : threads _ _ = _ |- _ =>
      rewrite in_flight_at_point by (simpl; rewrite Hpc; reflexivity); exact HC
  end.

Ltac fields t SL IL SF RF HU :=
  constructor; hist; auto;
  try solve [lock_goal SL t | lock_goal IL t | thread_goal SF t
            | thread_goal RF t | thread_goal HU t | same_flight].

Lemma thread_step_consistent t o w :
  consistent w -> consistent (thread_step t o w).
Proof.
  intros C. unfold thread_step.
  destruct (threads w t) as [ | |k p|id|id|sid|sid id|sid id| ] eqn:Hpc.
  - (* AcquireSession *)
    destruct (w_session_lock w) as [holder|] eqn:Hl; [exact C|].
    prep C t Hpc. fields t SL IL SF RF HU.
    unfold in_flight in *. simpl in *. unfold update. rewrite Nat.eqb_refl. simpl.
    rewrite Hl in HC. exact HC.
  - (* CheckSession *)
    destruct (cached (w_session_id w)) as [sid|] eqn:Hc; prep C t Hpc;
      assert (Hl : w_session_lock w = Some t) by tauto.
    + fields t SL IL SF RF HU.
      * intros sid0 Hin Hne. apply in_app_or in Hin. destruct Hin as [Hin|[<-|[]]].
        -- now apply OC.
        -- now apply cached_some in Hc.
      * unfold in_flight in HC. rewrite Hl, Hpc in HC. simpl in HC. lia.
    + fields t SL IL SF RF HU.
  - (* NextId *)
    destruct p as [ | |tmp| ].
    + (* IdAcquire *)
      destruct (w_id_lock w) as [holder|] eqn:Hl; [exact C|].
      prep C t Hpc. fields t SL IL SF RF HU.
    + (* IdLoad *)
      prep C t Hpc. fields t SL IL SF RF HU.
    + (* IdStore *)
      prep C t Hpc.
      assert (Hl : w_id_lock w = Some t) by tauto.
      assert (Htmp : tmp = w_request_id w) by (eapply SF; eauto).
      fields t SL IL SF RF HU.
      * eapply Forall_impl; [|exact IB]. simpl. intros; lia.
      * intros u k0 tmp0 H. by_thread u t; [discriminate|].
        assert (Hu : holds_id_lock (threads w u) = true) by (rewrite H; reflexivity).
        apply IL in Hu. congruence.
      * intros u k0 H. by_thread u t.
        -- eapply Forall_impl; [|exact IB]. simpl. intros; lia.
        -- assert (Hu : holds_id_lock (threads w u) = true) by (rewrite H; reflexivity).
           apply IL in Hu. congruence.
    + (* IdReturn *)
      prep C t Hpc.
      assert (Hl : w_id_lock w = Some t) by tauto.
      assert (Hlt : Forall (fun n => n < w_request_id w) (issued (history w)))
        by (eapply RF; eauto).
      destruct k as [|sid]; simpl after_id; fields t SL IL SF RF HU.
      all: try (apply Forall_app; split; [exact IB|repeat constructor; lia]).
      all: try (apply sorted_snoc; assumption).
      all: try (intros u k0 H; by_thread u t; [discriminate|];
                assert (Hu : holds_id_lock (threads w u) = true)
                  by (rewrite H; reflexivity);
                apply IL in Hu; congruence).
  - (* SendHandshake *)
    prep C t Hpc. assert (Hl : w_session_lock w = Some t) by tauto.
    fields t SL IL SF RF HU.
    unfold in_flight in *. simpl. rewrite Hl in *. unfold update.
    rewrite Nat.eqb_refl. rewrite Hpc in HC. simpl in *. unfold count at 2. simpl. lia.
  - (* AwaitHandshake *)
    destruct (handshake_result o) as [sid|e] eqn:Hres; prep C t Hpc;
      assert (Hl : w_session_lock w = Some t) by tauto;
      assert (Hunset : cached (w_session_id w) = None) by tauto;
      assert (Hfl : in_flight w = 1%nat)
        by (unfold in_flight; now rewrite Hl, Hpc).
    + fields t SL IL SF RF HU.
      * intros u H. by_thread u t; [discriminate|].
        assert (Hu : holds_session_lock (threads w u) = true)
          by (destruct (threads w u) as [ | |[|] ?| | | | | | ]; auto; discriminate).
        apply SL in Hu. congruence.
      * intros sid0 Hin Hne. apply in_app_or in Hin. destruct Hin as [Hin|[<-|[]]];
          [|reflexivity].
        specialize (OC sid0 Hin Hne). rewrite OC in Hunset. simpl in Hunset.
        destruct (String.eqb_spec sid0 ""); [contradiction|discriminate].
      * unfold count at 3 5. simpl. rewrite Hfl in HC.
        destruct (sid =? "")%string; simpl; lia.
      * rewrite Hunset in EC. unfold count at 2. simpl.
        destruct (sid =? "")%string; simpl; lia.
    + fields t SL IL SF RF HU.
      unfold count at 3. simpl. lia.
  - (* HaveSession *)
    prep C t Hpc. fields t SL IL SF RF HU.
  - (* SendTool *)
    prep C t Hpc. fields t SL IL SF RF HU.
  - (* AwaitTool *)
    prep C t Hpc. fields t SL IL SF RF HU.
  - (* Finished *)
    prep C t Hpc. fields t SL IL SF RF HU.
Qed.

Lemma run_schedule_consistent schedule : forall w,
  consistent w -> consistent (run_schedule schedule w).
Proof.
  induction schedule as [|[t o] rest IH]; intros w C; simpl; [exact C|].
  apply IH, thread_step_consistent, C.
Qed.

Lemma sorted_lt_nodup l : StronglySorted Z.lt l -> NoDup l.
Proof.
  induction 1 as [|a l Hs IH Ha]; constructor; [|exact IH].
  intros Hin. rewrite Forall_forall in Ha. specialize (Ha a Hin). lia.
Qed.

Lemma sorted_before l1 n l2 :
  StronglySorted Z.lt (l1 ++ n :: l2) -> Forall (fun m => m < n) l1.
Proof.
  induction l1 as [|a l1 IH]; simpl; intros H; [constructor|].
  inversion H as [|? ? Hs Ha]; subst. constructor; [|now apply IH].
  rewrite Forall_forall in Ha. apply Ha, in_or_app. right. now left.
Qed.

Lemma sorted_offsets c n :
  StronglySorted Z.lt (map (fun i => c + Z.of_nat i) (seq 1 n)).
Proof.
  generalize 1%nat as start. induction n as [|n IH]; intros start; simpl.
  - constructor.
  - constructor; [apply IH|]. apply Forall_forall. intros x Hx.
    apply in_map_iff in Hx. destruct Hx as (i & <- & Hi).
    apply in_seq in Hi. lia.
Qed.

(** C6.  One after the other, [n] calls of [_next_id] return [n] values,
    each above the counter they started from and strictly above every
    value returned before it.  Under any interleaving of any number of
    request threads, with the read, the write and the return of
    [_next_id] as separate steps, the ids in the order they were issued
    (read under [_id_lock]) are strictly increasing: each is strictly
    greater than every id issued before it, so no two calls get the same
    id. *)
Theorem request_ids_strictly_increasing :
  (forall n st,
      exists ids,
        fst (draw_ids n st) = Return ids
        /\ length ids = n
        /\ Forall (fun id => _request_id st < id) ids
        /\ StronglySorted Z.lt ids
        /\ NoDup ids)
  /\ (forall schedule,
      let h := history (run_schedule schedule initial_world) in
      StronglySorted Z.lt (issued h)
      /\ NoDup (issued h)
      /\ (forall h1 t n h2,
            h = (h1 ++ EvIssued t n :: h2)%list ->
            Forall (fun m => m < n) (issued h1))).
Proof.
  split.
  - intros n st. eexists. rewrite draw_ids_run. cbn [fst].
    split; [reflexivity|]. split; [now rewrite length_map, length_seq|].
    split; [|split; [apply sorted_offsets|apply sorted_lt_nodup, sorted_offsets]].
    apply Forall_forall. intros x Hx. apply in_map_iff in Hx.
    destruct Hx as (i & <- & Hi). apply in_seq in Hi. lia.
  - intros schedule h.
    pose proof (run_schedule_consistent schedule _ initial_world_consistent) as C.
    pose proof (issued_sorted _ C) as Hs. fold h in Hs.
    split; [exact Hs|]. split; [apply sorted_lt_nodup, Hs|].
    intros h1 t n h2 Hh. rewrite Hh, issued_app in Hs. simpl in Hs.
    apply (sorted_before _ _ _ Hs).
Qed.

Lemma in_flight_le_1 w : (in_flight w <= 1)%nat.
Proof.
  unfold in_flight. destruct (w_session_lock w) as [t|]; [|lia].
  destruct (awaiting_handshake (threads w t)); lia.
Qed.

Lemma established_in_flight w sid :
  consistent w -> w_session_id w = Some sid -> sid <> "" ->
  count is_handshake_established (history w) = 1%nat /\ in_flight w = 0%nat.
Proof.
  intros C Hs Hne.
  assert (Hc : cached (w_session_id w) = Some sid).
  { rewrite Hs. simpl. destruct (String.eqb_spec sid ""); [contradiction|reflexivity]. }
  split.
  - rewrite (established_cached _ C), Hc. reflexivity.
  - unfold in_flight. destruct (w_session_lock w) as [t|]; [|reflexivity].
    destruct (threads w t) eqn:Hpc; try reflexivity.
    pose proof (handshake_unset _ C t) as Hu. rewrite Hpc in Hu.
    specialize (Hu eq_refl). congruence.
Qed.

Lemma thread_step_no_loss t o w :
  establishes o = true ->
  count is_handshake_lost (history (thread_step t o w))
  = count is_handshake_lost (history w).
Proof.
  intros Ho. unfold establishes in Ho. unfold thread_step.
  destruct (threads w t) as [ | |k [ | |tmp| ]|id|id|sid|sid id|sid id| ];
    try reflexivity.
  - now destruct (w_session_lock w).
  - destruct (cached (w_session_id w)); [|reflexivity].
    simpl. rewrite count_app. unfold count at 2. simpl. lia.
  - now destruct (w_id_lock w).
  - simpl. rewrite count_app. unfold count at 2. simpl. lia.
  - simpl. rewrite count_app. unfold count at 2. simpl. lia.
  - destruct (handshake_result o) as [sid|e]; [|discriminate].
    simpl. rewrite count_app. unfold count at 2. simpl.
    apply negb_true_iff in Ho. rewrite Ho. simpl. lia.
  - simpl. rewrite count_app. unfold count at 2. simpl. lia.
Qed.

Lemma run_schedule_no_loss schedule : forall w,
  forallb (fun step => establishes (snd step)) schedule = true ->
  count is_handshake_lost (history (run_schedule schedule w))
  = count is_handshake_lost (history w).
Proof.
  induction schedule as [|[t o] rest IH]; intros w H; simpl in *; [reflexivity|].
  apply andb_prop in H. destruct H as [Ho Hrest].
  rewrite (IH _ Hrest). apply thread_step_no_loss, Ho.
Qed.

Lemma established_excludes_in_flight w :
  consistent w ->
  (count is_handshake_established (history w) + in_flight w <= 1)%nat.
Proof.
  intros C. rewrite (established_cached _ C).
  destruct (cached (w_session_id w)) as [sid|] eqn:Hc.
  - apply cached_some in Hc. destruct Hc as [Hs Hne].
    destruct (established_in_flight w sid C Hs Hne) as [_ ->]. lia.
  - pose proof (in_flight_le_1 w). lia.
Qed.

(** X18.  The thread model and the sequential code agree.  A request
    thread that runs alone from any state of the globals, the upstream
    answering its handshake as it answers the sequential call, leaves
    [_ensure_session] after two steps (session cached) or eight (handshake
    needed) with the globals the sequential [_ensure_session] leaves, at
    the program point of its result (the identifier returned, or the
    exception raised), and with both locks free again. *)
Lemma alone_agrees MCP_URL MCP_TOKEN upstream st :
  let o := upstream (sent (after_handshake_sent MCP_URL MCP_TOKEN st)) in
  let steps := match cached_session st with Some _ => 2%nat | None => 8%nat end in
  let w := run_schedule (alone 0 o steps) (world_of st) in
  let run := _ensure_session MCP_URL MCP_TOKEN upstream st in
  w_session_id w = _session_id (snd run)
  /\ w_request_id w = _request_id (snd run)
  /\ threads w 0%nat = match fst run with
                        | Return sid => HaveSession sid
                        | Raise _ => Finished
                        end
  /\ w_session_lock w = None
  /\ w_id_lock w = None.
Proof.
  intros o steps w run. subst steps w run.
  assert (Hcheck : forall w0, threads w0 0%nat = CheckSession ->
            thread_step 0 o w0 =
            match cached (w_session_id w0) with
            | Some sid =>
                at_point 0 (HaveSession sid)
                  (record [EvSession 0 sid] (set_session_lock None w0))
            | None => at_point 0 (NextId ForHandshake IdAcquire) w0
            end)
    by (intros w0 H0; unfold thread_step; now rewrite H0).
  destruct (cached_session st) as [sid|] eqn:Hc; unfold cached_session in Hc.
  - rewrite (ensure_session_cached _ _ _ st sid Hc). clearbody o.
    unfold alone. cbn [repeat run_schedule].
    change (thread_step 0 o (world_of st))
      with (at_point 0 CheckSession (set_session_lock (Some 0%nat) (world_of st))).
    rewrite Hcheck by reflexivity.
    cbn [w_session_id at_point set_session_lock world_of]. rewrite Hc.
    repeat split.
  - pose proof (ensure_session_outcome MCP_URL MCP_TOKEN upstream st Hc) as Hout.
    fold o in Hout.
    assert (Hst : snd (_ensure_session MCP_URL MCP_TOKEN upstream st)
                  = match handshake_result o with
                    | Return sid =>
                        with_session sid (after_handshake_sent MCP_URL MCP_TOKEN st)
                    | Raise _ => after_handshake_sent MCP_URL MCP_TOKEN st
                    end).
    { destruct (_ensure_session MCP_URL MCP_TOKEN upstream st) as [r st'] eqn:H.
      cbn [fst snd] in *. subst r. apply ensure_session_inv in H.
      destruct H as [(sid & Hs & _) | (_ & [(e & -> & ->) | (sid & -> & ->)])];
        [unfold cached_session in *; congruence|reflexivity|reflexivity]. }
    rewrite Hst, Hout. clearbody o. clear Hst Hout.
    unfold alone. cbn [repeat run_schedule].
    change (thread_step 0 o (world_of st))
      with (at_point 0 CheckSession (set_session_lock (Some 0%nat) (world_of st))).
    rewrite (Hcheck (at_point 0 CheckSession
                       (set_session_lock (Some 0%nat) (world_of st)))) by reflexivity.
    cbn [w_session_id at_point set_session_lock world_of]. rewrite Hc.
    cbv -[Z.add handshake_result _session_id _request_id].
    destruct (handshake_result o); repeat split.
Qed.

(** C1.  Under any interleaving of any number of request threads, and
    whatever the upstream answers: at most one thread is inside the
    session guard, so at most one handshake is in flight; every handshake
    sent is in flight, lost (it raised, or it brought back no session
    identifier) or the one that established the session, and there is at
    most one of the last kind, so that an upstream whose answers all
    establish a session sees at most one handshake; once some caller has been handed a
    non-empty session identifier that identifier is the cached one, every
    caller is handed the same, exactly one handshake established it and
    none is in flight.  A handshake that fails releases the guard and
    leaves the session as it was, unset; the next caller to take the guard
    then starts a handshake of its own.  The same for calls made one after
    the other: after a call that raised, the session is unset and the next
    call sends a new initialize request; after a call that returned a
    non-empty identifier, every later call returns it and sends nothing. *)
Theorem single_session_handshake :
  (forall schedule,
      let w := run_schedule schedule initial_world in
      (forall t u,
          holds_session_lock (threads w t) = true ->
          holds_session_lock (threads w u) = true -> t = u)
      /\ (forall t u id id',
            threads w t = AwaitHandshake id ->
            threads w u = AwaitHandshake id' -> t = u)
      /\ (in_flight w = 1%nat <-> exists t id, threads w t = AwaitHandshake id)
      /\ (in_flight w <= 1)%nat
      /\ count is_handshake_sent (history w)
         = (count is_handshake_lost (history w)
            + count is_handshake_established (history w) + in_flight w)%nat
      /\ (count is_handshake_established (history w) <= 1)%nat
      /\ (forall sid,
            In sid (observed (history w)) -> sid <> "" ->
            w_session_id w = Some sid
            /\ count is_handshake_established (history w) = 1%nat
            /\ in_flight w = 0%nat)
      /\ (forallb (fun step => establishes (snd step)) schedule = true ->
          count is_handshake_lost (history w) = 0%nat
          /\ (count is_handshake_sent (history w) <= 1)%nat)
      /\ (forall t id o e,
            threads w t = AwaitHandshake id ->
            handshake_result o = Raise e ->
            w_session_id (thread_step t o w) = w_session_id w
            /\ cached (w_session_id (thread_step t o w)) = None
            /\ w_session_lock (thread_step t o w) = None
            /\ threads (thread_step t o w) t = Finished)
      /\ (forall t o,
            threads w t = CheckSession ->
            cached (w_session_id w) = None ->
            threads (thread_step t o w) t = NextId ForHandshake IdAcquire))
  /\ (forall MCP_URL MCP_TOKEN upstream st e st',
        _ensure_session MCP_URL MCP_TOKEN upstream st = (Raise e, st') ->
        cached_session st' = None
        /\ sent (snd (_ensure_session MCP_URL MCP_TOKEN upstream st')) =
           (sent st' ++ [initialize_request MCP_URL MCP_TOKEN (_request_id st' + 1)])%list)
  /\ (forall MCP_URL MCP_TOKEN upstream st sid st',
        _ensure_session MCP_URL MCP_TOKEN upstream st = (Return sid, st') ->
        sid <> "" ->
        _ensure_session MCP_URL MCP_TOKEN upstream st' = (Return sid, st')).
Proof.
  split; [|split; [|exact ensure_session_sticky]].
  - intros schedule w.
    pose proof (run_schedule_consistent schedule _ initial_world_consistent) as C.
    fold w in C.
    assert (Hmutex : forall t u,
               holds_session_lock (threads w t) = true ->
               holds_session_lock (threads w u) = true -> t = u).
    { intros t u Ht Hu. apply (session_lock_held _ C) in Ht, Hu. congruence. }
    split; [|split; [|split; [|split; [|split; [|split; [|split; [|split; [|split]]]]]]]].
    + exact Hmutex.
    + intros t u id id' Ht Hu. apply Hmutex; [rewrite Ht|rewrite Hu]; reflexivity.
    + unfold in_flight. split.
      * destruct (w_session_lock w) as [t|]; [|discriminate].
        destruct (threads w t) eqn:Hpc; try discriminate. eauto.
      * intros (t & id & Hpc).
        assert (Hl : w_session_lock w = Some t)
          by (apply (session_lock_held _ C); now rewrite Hpc).
        now rewrite Hl, Hpc.
    + apply in_flight_le_1.
    + apply (handshakes_counted _ C).
    + rewrite (established_cached _ C). destruct (cached (w_session_id w)); lia.
    + intros sid Hin Hne. pose proof (observed_cached _ C sid Hin Hne) as Hs.
      split; [exact Hs|]. apply (established_in_flight w sid C Hs Hne).
    + intros Hok.
      assert (Hlost : count is_handshake_lost (history w) = 0%nat)
        by (unfold w; now rewrite (run_schedule_no_loss schedule initial_world Hok)).
      split; [exact Hlost|].
      rewrite (handshakes_counted _ C), Hlost.
      pose proof (established_excludes_in_flight w C). lia.
    + intros t id o e Hpc Hres. unfold thread_step. rewrite Hpc, Hres. simpl.
      split; [reflexivity|]. split.
      * apply (handshake_unset _ C t). now rewrite Hpc.
      * split; [reflexivity|]. unfold update. now rewrite Nat.eqb_refl.
    + intros t o Hpc Hc. unfold thread_step. rewrite Hpc, Hc. simpl.
      unfold update. now rewrite Nat.eqb_refl.
  - intros MCP_URL MCP_TOKEN upstream st e st' H.
    destruct (ensure_session_raise_unset _ _ _ _ _ _ H) as [_ Hc].
    split; [exact Hc|]. apply ensure_session_retries, Hc.
Qed.

(* --------------------------------------------------------------- *)
(** *** The two locks *)

Lemma update_same t p f : update t p f t = p.
Proof. unfold update. now rewrite Nat.eqb_refl. Qed.

(** A thread that is not waiting at a taken lock moves when scheduled. *)
Lemma not_blocked_moves t o w : blocked t w = false -> thread_step t o w <> w.
Proof.
  intros Hb H.
  assert (Hpc : threads (thread_step t o w) t = threads w t) by now rewrite H.
  clear H. unfold blocked in Hb. unfold thread_step in Hpc.
  destruct (threads w t) as [ | |k [ | |tmp| ]|id|id|sid|sid id|sid id| ].
  - destruct (w_session_lock w); [discriminate|].
    simpl in Hpc. rewrite update_same in Hpc. discriminate.
  - destruct (cached (w_session_id w)); simpl in Hpc;
      rewrite update_same in Hpc; discriminate.
  - destruct (w_id_lock w); [discriminate|].
    simpl in Hpc. rewrite update_same in Hpc. discriminate.
  - simpl in Hpc. rewrite update_same in Hpc. discriminate.
  - simpl in Hpc. rewrite update_same in Hpc. discriminate.
  - simpl in Hpc. rewrite update_same in Hpc. destruct k; discriminate.
  - simpl in Hpc. rewrite update_same in Hpc. discriminate.
  - destruct (handshake_result o); simpl in Hpc;
      rewrite update_same in Hpc; discriminate.
  - simpl in Hpc. rewrite update_same in Hpc. discriminate.
  - simpl in Hpc. rewrite update_same in Hpc. discriminate.
  - simpl in Hpc. rewrite update_same in Hpc. discriminate.
  - simpl in Hpc. rewrite update_same in Hpc. discriminate.
Qed.

Lemma fixed_is_blocked t o w : thread_step t o w = w -> blocked t w = true.
Proof.
  intros H. destruct (blocked t w) eqn:Hb; [reflexivity|].
  now apply (not_blocked_moves t o w) in Hb.
Qed.

Lemma id_lock_holder_moves w v :
  consistent w -> w_id_lock w = Some v -> blocked v w = false.
Proof.
  intros C Hl. apply (id_lock_held _ C) in Hl. unfold blocked.
  destruct (threads w v) as [ | |k [ | |tmp| ]| | | | | | ]; try discriminate;
    reflexivity.
Qed.

(** X15.  The two locks cannot deadlock.  Under any interleaving,
    whenever a request thread is stuck (scheduling it changes nothing: it
    waits at [_session_lock] or at [_id_lock]), some other thread holds
    one of the two locks and is not stuck itself: it moves as soon as it
    is scheduled, whatever the upstream answers. *)
Theorem locks_never_deadlock
  (schedule : list (nat * http_outcome)) (t : nat) (o : http_outcome) :
  let w := run_schedule schedule initial_world in
  thread_step t o w = w ->
  exists u,
    u <> t
    /\ (w_session_lock w = Some u \/ w_id_lock w = Some u)
    /\ forall o', thread_step u o' w <> w.
Proof.
  intros w H.
  pose proof (run_schedule_consistent schedule _ initial_world_consistent) as C.
  fold w in C. apply fixed_is_blocked in H.
  assert (Hid : forall v, w_id_lock w = Some v -> blocked t w = true ->
                  v <> t /\ forall o', thread_step v o' w <> w).
  { intros v Hl Hb. pose proof (id_lock_holder_moves w v C Hl) as Hv.
    split; [congruence|]. intros o'. apply not_blocked_moves, Hv. }
  unfold blocked in H.
  destruct (threads w t) as [ | |k [ | |tmp| ]| | | | | | ] eqn:Hpc; try discriminate.
  - destruct (w_session_lock w) as [u|] eqn:Hl; [|discriminate].
    destruct (blocked u w) eqn:Hu.
    + (* the guard's holder waits for the id lock *)
      pose proof (proj2 (session_lock_held _ C u) Hl) as Hholds.
      unfold blocked in Hu.
      destruct (threads w u) as [ | |k [ | |tmp| ]| | | | | | ] eqn:Hpu;
        try discriminate.
      destruct (w_id_lock w) as [v|] eqn:Hil; [|discriminate].
      exists v. destruct (Hid v eq_refl) as [Hne Hmoves].
      * unfold blocked. now rewrite Hpc, Hl.
      * auto.
    + exists u. split; [|split; [now left|]].
      * intros ->. unfold blocked in Hu. now rewrite Hpc, Hl in Hu.
      * intros o'. apply not_blocked_moves, Hu.
  - destruct (w_id_lock w) as [v|] eqn:Hl; [|discriminate].
    exists v. destruct (Hid v eq_refl) as [Hne Hmoves].
    + unfold blocked. now rewrite Hpc, Hl.
    + auto.
Qed.

(* --------------------------------------------------------------- *)
(** *** Request ids on the wire, under interleaving *)

Lemma sent_ids_app h1 h2 : sent_ids (h1 ++ h2) = (sent_ids h1 ++ sent_ids h2)%list.
Proof.
  induction h1 as [|e h1 IH]; simpl; [reflexivity|].
  destruct e; simpl; now rewrite IH.
Qed.

Lemma initial_world_wire_consistent : wire_consistent initial_world.
Proof.
  constructor; simpl; try (intros; discriminate); try (intros; contradiction).
  constructor.
Qed.

(** A step that neither issues nor sends an id. *)
Lemma wire_quiet t p w w' :
  wire_consistent w ->
  threads w' = update t p (threads w) ->
  pending_id p = None ->
  issued (history w') = issued (history w) ->
  sent_ids (history w') = sent_ids (history w) ->
  wire_consistent w'.
Proof.
  intros [SI SN PI PU PD] Ht Hp Hi Hs.
  constructor; rewrite ?Ht, ?Hi, ?Hs; auto.
  - intros u id H. unfold update in H.
    destruct (Nat.eqb u t); [congruence|eauto].
  - intros u id H. unfold update in H.
    destruct (Nat.eqb u t); [congruence|eauto].
  - intros u v id Hu Hv. unfold update in Hu, Hv.
    destruct (Nat.eqb u t); [congruence|].
    destruct (Nat.eqb v t); [congruence|eauto].
Qed.

(** [_next_id] hands thread [t] the id [n], above every id issued so far. *)
Lemma wire_issue t p n w w' :
  wire_consistent w ->
  threads w' = update t p (threads w) ->
  pending_id (threads w t) = None ->
  pending_id p = Some n ->
  Forall (fun m => m < n) (issued (history w)) ->
  issued (history w') = (issued (history w) ++ [n])%list ->
  sent_ids (history w') = sent_ids (history w) ->
  wire_consistent w'.
Proof.
  intros [SI SN PI PU PD] Ht Hold Hp Hlt Hi Hs.
  assert (Hfresh : ~ In n (issued (history w))).
  { intros Hin. rewrite Forall_forall in Hlt. specialize (Hlt n Hin). lia. }
  constructor; rewrite ?Ht, ?Hi, ?Hs; auto.
  - intros id H. apply in_or_app. left. auto.
  - intros u id H. unfold update in H. apply in_or_app.
    destruct (Nat.eqb u t); [right; left; congruence|left; eauto].
  - intros u id H. unfold update in H.
    destruct (Nat.eqb u t); [|eauto].
    assert (id = n) as -> by congruence. intros Hin. apply Hfresh. auto.
  - intros u v id Hu Hv. unfold update in Hu, Hv.
    destruct (Nat.eqb_spec u t) as [->|Hut]; destruct (Nat.eqb_spec v t) as [->|Hvt];
      [reflexivity| | |eauto].
    + assert (id = n) as -> by congruence. exfalso. apply Hfresh. eauto.
    + assert (id = n) as -> by congruence. exfalso. apply Hfresh. eauto.
Qed.

(** Thread [t] puts the request with the id it holds on the wire. *)
Lemma wire_send t p id w w' :
  wire_consistent w ->
  threads w' = update t p (threads w) ->
  pending_id (threads w t) = Some id ->
  pending_id p = None ->
  issued (history w') = issued (history w) ->
  sent_ids (history w') = (sent_ids (history w) ++ [id])%list ->
  wire_consistent w'.
Proof.
  intros [SI SN PI PU PD] Ht Hold Hp Hi Hs.
  constructor; rewrite ?Ht, ?Hi, ?Hs.
  - intros x H. apply in_app_or in H. destruct H as [H|[<-|[]]]; eauto.
  - apply NoDup_app; [exact SN|repeat constructor; intros []|].
    intros x Hx [<-|[]]. apply (PU t id Hold Hx).
  - intros u x H. unfold update in H. destruct (Nat.eqb u t); [congruence|eauto].
  - intros u x H. unfold update in H.
    destruct (Nat.eqb_spec u t) as [->|Hut]; [congruence|].
    intros Hin. apply in_app_or in Hin. destruct Hin as [Hin|[<-|[]]].
    + apply (PU u x H Hin).
    + apply Hut. apply (PD u t id H Hold).
  - intros u v x Hu Hv. unfold update in Hu, Hv.
    destruct (Nat.eqb u t); [congruence|].
    destruct (Nat.eqb v t); [congruence|eauto].
Qed.

Ltac wire_history :=
  simpl; rewrite ?issued_app, ?sent_ids_app; simpl; rewrite ?app_nil_r; reflexivity.

Lemma thread_step_wire_consistent t o w :
  consistent w -> wire_consistent w -> wire_consistent (thread_step t o w).
Proof.
  intros C W. unfold thread_step.
  destruct (threads w t) as [ | |k [ | |tmp| ]|id|id|sid|sid id|sid id| ] eqn:Hpc.
  - destruct (w_session_lock w); [exact W|].
    eapply wire_quiet; [exact W|reflexivity|reflexivity|wire_history|wire_history].
  - destruct (cached (w_session_id w));
      (eapply wire_quiet; [exact W|reflexivity|reflexivity|wire_history|wire_history]).
  - destruct (w_id_lock w); [exact W|].
    eapply wire_quiet; [exact W|reflexivity|reflexivity|wire_history|wire_history].
  - eapply wire_quiet; [exact W|reflexivity|reflexivity|wire_history|wire_history].
  - eapply wire_quiet; [exact W|reflexivity|reflexivity|wire_history|wire_history].
  - pose proof (return_fresh _ C t k Hpc) as Hlt.
    eapply wire_issue with (t := t) (n := w_request_id w);
      [exact W|reflexivity|now rewrite Hpc|now destruct k|exact Hlt
      |wire_history|wire_history].
  - eapply wire_send with (t := t) (id := id);
      [exact W|reflexivity|now rewrite Hpc|reflexivity|wire_history|wire_history].
  - destruct (handshake_result o);
      (eapply wire_quiet; [exact W|reflexivity|reflexivity|wire_history|wire_history]).
  - eapply wire_quiet; [exact W|reflexivity|reflexivity|wire_history|wire_history].
  - eapply wire_send with (t := t) (id := id);
      [exact W|reflexivity|now rewrite Hpc|reflexivity|wire_history|wire_history].
  - eapply wire_quiet; [exact W|reflexivity|reflexivity|wire_history|wire_history].
  - eapply wire_quiet; [exact W|reflexivity|reflexivity|wire_history|wire_history].
Qed.

Lemma run_schedule_wire_consistent schedule : forall w,
  consistent w -> wire_consistent w -> wire_consistent (run_schedule schedule w).
Proof.
  induction schedule as [|[t o] rest IH]; intros w C W; simpl; [exact W|].
  apply IH; [apply thread_step_consistent, C|apply thread_step_wire_consistent; assumption].
Qed.

(** X16.  Under any interleaving of request threads, no two requests on
    the wire, handshakes and tool calls alike, carry the same JSON-RPC
    id, and every id on the wire is one [_next_id] issued.  The order on
    the wire need not be the order of issue: a thread can send its request
    before another thread that drew its id earlier. *)
Theorem wire_ids_distinct_under_interleaving :
  (forall schedule,
      let h := history (run_schedule schedule initial_world) in
      NoDup (sent_ids h)
      /\ (forall id, In id (sent_ids h) -> In id (issued h)))
  /\ (let h := history (run_schedule overtaking_schedule initial_world) in
      issued h = [1; 2; 3] /\ sent_ids h = [1; 3; 2]).
Proof.
  split.
  - intros schedule h.
    pose proof (run_schedule_wire_consistent schedule initial_world
                  initial_world_consistent initial_world_wire_consistent) as W.
    split; [apply (sent_nodup _ W)|apply (sent_issued _ W)].
  - split; reflexivity.
Qed.

(** X17.  What is held across the network.  Under any interleaving, a
    thread waiting for the answer to its handshake holds [_session_lock]
    (every other caller waits at the guard until the answer or the
    timeout) and not [_id_lock]; a thread that is sending a tool call, or
    waiting for its answer, holds neither lock. *)
Theorem locks_held_across_requests (schedule : list (nat * http_outcome)) (t : nat) :
  let w := run_schedule schedule initial_world in
  (forall id,
      threads w t = AwaitHandshake id ->
      w_session_lock w = Some t /\ w_id_lock w <> Some t
      /\ forall u o, u <> t -> threads w u = AcquireSession -> thread_step u o w = w)
  /\ (forall sid id,
        threads w t = SendTool sid id \/ threads w t = AwaitTool sid id ->
        w_session_lock w <> Some t /\ w_id_lock w <> Some t).
Proof.
  intros w.
  pose proof (run_schedule_consistent schedule _ initial_world_consistent) as C.
  fold w in C. split.
  - intros id Hpc.
    assert (Hl : w_session_lock w = Some t)
      by (apply (session_lock_held _ C); now rewrite Hpc).
    split; [exact Hl|]. split.
    + intros Hid. apply (id_lock_held _ C) in Hid. rewrite Hpc in Hid. discriminate.
    + intros u o _ Hu. unfold thread_step. now rewrite Hu, Hl.
  - intros sid id Hpc. split.
    + intros Hl. apply (session_lock_held _ C) in Hl.
      destruct Hpc as [Hpc|Hpc]; rewrite Hpc in Hl; discriminate.
    + intros Hl. apply (id_lock_held _ C) in Hl.
      destruct Hpc as [Hpc|Hpc]; rewrite Hpc in Hl; discriminate.
Qed.

(* ================================================================= *)
(** ** Concrete runs *)

#[local] Abbreviation run_search up := (search demo_url demo_token up demo_str).
#[local] Abbreviation run_ask up := (ask demo_url demo_token up demo_str).
#[local] Abbreviation call up := (_call_tool demo_url demo_token up).
#[local] Abbreviation fetches up := (for_each (fetch_hit demo_url demo_token up)).

(** The hits all fetched: three blocks, in hit order, scores as
    percentages; the fourth hit is never fetched. *)
Example search_three_blocks :
  fst (run_search (scripted (hits_answer demo_hits) file_text) foo_body initial_state)
  = Return (result_response
      ("=== a.md (relevance: 87%) ===" ++ nl ++ "line one" ++ nl ++ "line two"
       ++ nl ++ nl ++
       "=== b.md (relevance: 50%) ===" ++ nl ++ "line one" ++ nl ++ "line two"
       ++ nl ++ nl ++
       "=== c.pdf (relevance: 0%) ===" ++ nl ++ "line one" ++ nl ++ "line two")).
Proof. vm_compute. reflexivity. Qed.

Example percent_examples :
  format_percent (JFloat 0.87) = Return "87%"
  /\ format_percent (JFloat 0.125) = Return "12%"
  /\ format_percent (JFloat 0.015) = Return "2%"
  /\ format_percent (JFloat 1) = Return "100%"
  /\ format_percent (JInt 0) = Return "0%"
  /\ format_percent (JBool true) = Return "100%"
  /\ format_percent (JStr "0.5") = Raise PyTypeError
  /\ format_percent JNull = Raise PyTypeError.
Proof. repeat split; vm_compute; reflexivity. Qed.

(** A JSON string as request body has no query field, and the route
    raises instead of answering 400. *)
Lemma string_body_is_not_answered_400 :
  has_nonempty "query" (JStr "find the report") = false
  /\ run_search unreachable (JStr "find the report") initial_state
     = (Raise PyTypeError, initial_state).
Proof. split; reflexivity. Qed.

(** The bodies [{}], [{"query": ""}] and null: 400, and the state is the
    initial one. *)
Lemma search_missing_query_400_witness :
  run_search unreachable (JObj []) initial_state
  = (Return (missing_field_response "query"), initial_state)
  /\ run_search unreachable (JObj [("query", JStr ""); ("k", JInt 5)]) initial_state
     = (Return (missing_field_response "query"), initial_state)
  /\ run_search unreachable JNull initial_state
     = (Return (missing_field_response "query"), initial_state).
Proof.
  split; [|split].
  - apply (search_missing_query_400 demo_url demo_token unreachable demo_str
             (JObj []) initial_state eq_refl). right. reflexivity.
  - apply (search_missing_query_400 demo_url demo_token unreachable demo_str
             (JObj [("query", JStr ""); ("k", JInt 5)]) initial_state eq_refl).
    left. reflexivity.
  - apply (search_missing_query_400 demo_url demo_token unreachable demo_str
             JNull initial_state eq_refl). right. reflexivity.
Defined.

(** A non-empty array as request body is not read as the empty body: the
    route raises where the empty body gets the 400 answer. *)
Lemma array_body_is_not_empty_body :
  truthy (JArr [JInt 1]) = true
  /\ is_object (JArr [JInt 1]) = false
  /\ fst (run_search unreachable (JArr [JInt 1]) initial_state) = Raise PyTypeError
  /\ fst (run_ask unreachable (JArr [JInt 1]) initial_state) = Raise PyTypeError
  /\ fst (run_search unreachable (JObj []) initial_state)
     = Return (missing_field_response "query").
Proof. repeat split. Qed.

(** The body [{"query": "foo"}], an /ask body with a [k] of its own, the
    null body and an array body. *)
Lemma default_k_and_body_shapes_witness :
  run_search unreachable (JObj [("query", JStr "foo")]) initial_state
  = bind (call unreachable "dir2mcp.search"
            (JObj [("query", JStr "foo"); ("k", JInt 3)]))
         (search_respond demo_url demo_token unreachable demo_str) initial_state
  /\ run_ask unreachable foo_question initial_state
     = bind (call unreachable "dir2mcp.search"
               (JObj [("query", JStr "foo"); ("k", JInt 3)]))
            (ask_respond demo_url demo_token unreachable demo_str (JStr "foo"))
            initial_state
  /\ run_search unreachable JNull initial_state
     = (Return (missing_field_response "query"), initial_state)
  /\ run_ask unreachable (JArr [JInt 1]) initial_state
     = (Raise PyTypeError, initial_state).
Proof.
  pose proof (default_k_and_body_shapes demo_url demo_token unreachable demo_str)
    as (Hk & Hask & Hfalsy & Hraise).
  split; [|split; [|split]].
  - apply (Hk [("query", JStr "foo")] (JStr "foo") initial_state); reflexivity.
  - apply (Hask [("question", JStr "foo"); ("k", JInt 9)] (JStr "foo") initial_state);
      reflexivity.
  - apply (Hfalsy JNull initial_state). reflexivity.
  - apply (Hraise (JArr [JInt 1]) initial_state); reflexivity.
Defined.

(** A 200 answer without the session header makes [_ensure_session]
    return the empty string; nothing is raised. *)
Lemma missing_session_header_not_raised :
  has_header "Mcp-Session-Id" [("content-type", "application/json")] = false
  /\ _ensure_session demo_url demo_token no_session_header initial_state
     = (Return "",
        {| _session_id := Some "";
           _request_id := 1;
           sent := [initialize_request demo_url demo_token 1] |}).
Proof. split; reflexivity. Qed.

(** A 401, a connection that cannot be opened, and a 200 without the
    session header. *)
Lemma ensure_session_failure_modes_witness :
  (exists st',
      _ensure_session demo_url demo_token unauthorized initial_state
      = (Raise (HTTPError 401), st')
      /\ _session_id st' = None /\ cached_session st' = None)
  /\ (exists st',
      _ensure_session demo_url demo_token unreachable initial_state
      = (Raise RequestException, st')
      /\ _session_id st' = None /\ cached_session st' = None)
  /\ (exists st',
      _ensure_session demo_url demo_token no_session_header initial_state
      = (Return "", st')
      /\ _session_id st' = Some "" /\ cached_session st' = None).
Proof.
  split; [|split].
  - apply (proj1 (proj2 (ensure_session_failure_modes demo_url demo_token unauthorized
                           initial_state eq_refl))
             {| status_code := 401; response_headers := []; body := None |});
      [reflexivity|simpl; lia].
  - apply (proj1 (ensure_session_failure_modes demo_url demo_token unreachable
                    initial_state eq_refl)).
    reflexivity.
  - apply (proj2 (proj2 (ensure_session_failure_modes demo_url demo_token
                           no_session_header initial_state eq_refl))
             {| status_code := 200;
                response_headers := [("content-type", "application/json")];
                body := Some (rpc_result (JObj [])) |});
      [reflexivity|simpl; lia|reflexivity].
Defined.

(** A body with neither field decodes as a success, and a body with both
    as the error outcome; neither is a decode error. *)
Lemma neither_or_both_fields_decode :
  decode_tool_response (JObj [("jsonrpc", JStr "2.0"); ("id", JInt 7)])
  = Return (tool_dict "" JNull)
  /\ decode_tool_response
       (JObj [("result", JObj [("content", JArr [text_item "ok"])]);
              ("error", JObj [("code", JInt (-32000))])])
     = Return (ToolTuple (JObj [("error", JObj [("code", JInt (-32000))])]) 500).
Proof. split; reflexivity. Qed.

(** A JSON-RPC error, a result with two textual entries around an
    image entry, and two results that cannot be read: null, and a textual
    entry whose text is a number. *)
Lemma decode_tool_response_cases_witness :
  decode_tool_response (rpc_error (-32602) "index not ready")
  = Return (ToolTuple
              (JObj [("error", JObj [("code", JInt (-32602));
                                     ("message", JStr "index not ready")])]) 500)
  /\ decode_tool_response
       (rpc_result (JObj [("content",
                           JArr [text_item "one";
                                 JObj [("type", JStr "image"); ("data", JStr "...")];
                                 text_item "two"]);
                          ("structuredContent", JObj [("n", JInt 2)])]))
     = Return (tool_dict ("one" ++ nl ++ "two") (JObj [("n", JInt 2)]))
  /\ decode_tool_response (rpc_result JNull) = Raise PyTypeError
  /\ decode_tool_response
       (rpc_result (JObj [("content",
                           JArr [JObj [("type", JStr "text"); ("text", JInt 5)]])]))
     = Raise PyTypeError.
Proof.
  destruct decode_tool_response_cases
    as (_ & Herr & _ & Hres & _ & Hnull & _ & Hentry & _).
  split; [|split; [|split]].
  - apply (Herr _ (JObj [("code", JInt (-32602)); ("message", JStr "index not ready")])).
    reflexivity.
  - apply (Hres _ [("content",
                    JArr [text_item "one";
                          JObj [("type", JStr "image"); ("data", JStr "...")];
                          text_item "two"]);
                   ("structuredContent", JObj [("n", JInt 2)])]
                [text_item "one";
                 JObj [("type", JStr "image"); ("data", JStr "...")];
                 text_item "two"]); reflexivity.
  - apply (Hnull _ JNull); reflexivity.
  - apply (Hentry _ [("content",
                      JArr [JObj [("type", JStr "text"); ("text", JInt 5)]])]
                  (JArr [JObj [("type", JStr "text"); ("text", JInt 5)]])
                  [JObj [("type", JStr "text"); ("text", JInt 5)]]); reflexivity.
Defined.

(** The search tool answers "index not ready": 500 with that payload,
    and the wire log ends with the search request. *)
Lemma search_upstream_error_500_witness :
  exists st',
    run_search (scripted search_rejected file_text) foo_body initial_state
    = (Return {| response_payload :=
                   JObj [("error", JObj [("code", JInt (-32602));
                                         ("message", JStr "index not ready")])];
                 response_status := 500 |}, st')
    /\ sent st' =
       (sent (session_ready demo_url demo_token)
        ++ [tools_call_request demo_url demo_token "sess-1"
              (_request_id (session_ready demo_url demo_token) + 1) "dir2mcp.search"
              (JObj [("query", JStr "foo"); ("k", JInt 2)])])%list
    /\ tool_calls (sent st') =
       (tool_calls (sent initial_state)
        ++ [(JStr "dir2mcp.search", JObj [("query", JStr "foo"); ("k", JInt 2)])])%list.
Proof.
  apply (search_upstream_error_500 demo_url demo_token
           (scripted search_rejected file_text) demo_str
           [("query", JStr "foo"); ("k", JInt 2)] (JStr "foo") (JInt 2)
           initial_state (session_ready demo_url demo_token) "sess-1"
           {| status_code := 200; response_headers := [];
              body := Some (rpc_error (-32602) "index not ready") |}
           [("jsonrpc", JStr "2.0"); ("id", JInt 0);
            ("error", JObj [("code", JInt (-32602));
                            ("message", JStr "index not ready")])]
           (JObj [("code", JInt (-32602)); ("message", JStr "index not ready")]));
    try reflexivity.
  simpl. lia.
Defined.

Lemma demo_search_returned open_file :
  search_returned demo_url demo_token (scripted (hits_answer demo_hits) open_file)
    foo_arguments initial_state demo_hits
    (after_search demo_url demo_token (scripted (hits_answer demo_hits) open_file)).
Proof. exists "hits", [("hits", JArr demo_hits)]. split; reflexivity. Qed.

(** The second hit's fetch is answered HTTP 503 after the first hit was
    fetched; the request raises instead of answering. *)
Lemma fetch_http_failure_aborts :
  fst (run_search (scripted (hits_answer demo_hits) second_unavailable)
         foo_body initial_state) = Raise (HTTPError 503)
  /\ fst (run_ask (scripted (hits_answer demo_hits) second_unavailable)
            foo_question initial_state) = Raise (HTTPError 503)
  /\ map fst
        (tool_calls
           (sent (snd (run_search (scripted (hits_answer demo_hits) second_unavailable)
                         foo_body initial_state))))
     = [JStr "dir2mcp.search"; JStr "dir2mcp.open_file"; JStr "dir2mcp.open_file"].
Proof. repeat split; vm_compute; reflexivity. Qed.

(** [b.md] comes back as a tool error: three blocks all the same, the
    second with empty content. *)
Lemma tool_error_fetch_tolerated_witness :
  run_search tolerant_upstream foo_body initial_state
  = (Return (result_response
               (spec_search_result demo_str
                  (search_entries (firstn 3 demo_hits)
                     (demo_fetched demo_url demo_token tolerant_upstream)))),
     after_fetches demo_url demo_token tolerant_upstream)
  /\ nth_error (search_entries (firstn 3 demo_hits)
                  (demo_fetched demo_url demo_token tolerant_upstream)) 1
     = Some {| se_file := JStr "b.md";
               se_score := JFloat 0.5;
               se_content := JStr "" |}
  /\ fst (run_search tolerant_upstream foo_body initial_state)
     = Return (result_response
         ("=== a.md (relevance: 87%) ===" ++ nl ++ "line one" ++ nl ++ "line two"
          ++ nl ++ nl ++
          "=== b.md (relevance: 50%) ===" ++ nl
          ++ nl ++ nl ++
          "=== c.pdf (relevance: 0%) ===" ++ nl ++ "line one" ++ nl ++ "line two")).
Proof.
  assert (Hloop : fetches tolerant_upstream (firstn 3 demo_hits)
                    (after_search demo_url demo_token tolerant_upstream)
                  = (Return (demo_fetched demo_url demo_token tolerant_upstream),
                     after_fetches demo_url demo_token tolerant_upstream))
    by (vm_compute; reflexivity).
  destruct (proj1 (tool_error_fetch_tolerated demo_url demo_token tolerant_upstream
                     demo_str)
              [("query", JStr "foo"); ("k", JInt 2)] (JStr "foo") (JInt 2)
              initial_state demo_hits
              (after_search demo_url demo_token tolerant_upstream)
              (demo_fetched demo_url demo_token tolerant_upstream)
              (after_fetches demo_url demo_token tolerant_upstream)
              eq_refl eq_refl eq_refl (demo_search_returned second_tool_error)
              Hloop eq_refl)
    as (Hrun & _ & Herr & _).
  split; [exact Hrun|]. split.
  - apply (Herr 1%nat
             (JObj [("RelPath", JStr "b.md"); ("Score", JFloat 0.5);
                    ("Span", JObj [("Kind", JStr "lines")])])
             (JStr "b.md")
             (JObj [("error", JObj [("code", JInt (-32000));
                                    ("message", JStr "file not found")])])
             500); vm_compute; reflexivity.
  - vm_compute. reflexivity.
Defined.


Example open_file_arguments_examples :
  map spec_open_file_arguments (firstn 3 demo_hits)
  = [ JObj [("rel_path", JStr "a.md"); ("max_chars", JInt 3000);
            ("start_line", JInt 5); ("end_line", JInt 9)];
      JObj [("rel_path", JStr "b.md"); ("max_chars", JInt 3000);
            ("start_line", JInt 1); ("end_line", JInt 100)];
      JObj [("rel_path", JStr "c.pdf"); ("max_chars", JInt 3000)] ].
Proof. reflexivity. Qed.

(** The text of the answer is the blank-line join of the three blocks. *)
Lemma composite_result_format_witness :
  exists fetched,
    fetches tolerant_upstream (firstn 3 demo_hits)
      (after_search demo_url demo_token tolerant_upstream)
    = (Return fetched, after_fetches demo_url demo_token tolerant_upstream)
    /\ length (search_entries (firstn 3 demo_hits) fetched)
       = length (firstn 3 demo_hits)
    /\ result_response
         ("=== a.md (relevance: 87%) ===" ++ nl ++ "line one" ++ nl ++ "line two"
          ++ nl ++ nl ++
          "=== b.md (relevance: 50%) ===" ++ nl
          ++ nl ++ nl ++
          "=== c.pdf (relevance: 0%) ===" ++ nl ++ "line one" ++ nl ++ "line two")
       = result_response
           (spec_search_result demo_str (search_entries (firstn 3 demo_hits) fetched)).
Proof.
  apply (proj1 (composite_result_format demo_url demo_token tolerant_upstream demo_str)
           [("query", JStr "foo"); ("k", JInt 2)] (JStr "foo") (JInt 2)
           initial_state demo_hits
           (after_search demo_url demo_token tolerant_upstream)
           _ (after_fetches demo_url demo_token tolerant_upstream)
           eq_refl eq_refl eq_refl (demo_search_returned second_tool_error)).
  vm_compute. reflexivity.
Defined.

Example ask_three_blocks :
  fst (run_ask tolerant_upstream foo_question initial_state)
  = Return (result_response
      ("Question: foo" ++ nl ++ nl ++ "Relevant document content:" ++ nl ++ nl
       ++ "=== Source: a.md ===" ++ nl ++ "line one" ++ nl ++ "line two"
       ++ nl ++ nl ++
       "=== Source: b.md ===" ++ nl
       ++ nl ++ nl ++
       "=== Source: c.pdf ===" ++ nl ++ "line one" ++ nl ++ "line two")).
Proof. vm_compute. reflexivity. Qed.

(** Two threads racing: one handshake, the same session for both. *)
Lemma single_session_handshake_witness :
  observed (history (run_schedule racing_schedule initial_world))
  = ["sess-1"; "sess-1"]
  /\ count is_handshake_sent (history (run_schedule racing_schedule initial_world))
     = 1%nat
  /\ (w_session_id (run_schedule racing_schedule initial_world) = Some "sess-1"
      /\ count is_handshake_established
           (history (run_schedule racing_schedule initial_world)) = 1%nat
      /\ in_flight (run_schedule racing_schedule initial_world) = 0%nat).
Proof.
  split; [reflexivity|]. split; [reflexivity|].
  destruct (proj1 single_session_handshake racing_schedule)
    as (_ & _ & _ & _ & _ & _ & Hobs & _).
  apply (Hobs "sess-1"); [vm_compute; auto|discriminate].
Defined.

(** The ids issued in the race, and the ones issued before the third. *)
Lemma request_ids_strictly_increasing_witness :
  issued (history (run_schedule racing_schedule initial_world)) = [1; 2; 3]
  /\ Forall (fun m => m < 3)
       (issued [EvIssued 0 1; EvHandshakeSent 0 1; EvHandshakeAnswered 0 "sess-1";
                EvSession 0 "sess-1"; EvSession 1 "sess-1"; EvIssued 0 2]).
Proof.
  split; [reflexivity|].
  destruct (proj2 request_ids_strictly_increasing racing_schedule) as (_ & _ & Hbefore).
  apply (Hbefore _ 1%nat 3 [EvToolSent 0 "sess-1" 2; EvToolSent 1 "sess-1" 3]).
  reflexivity.
Defined.

(** A handshake that fails is followed by exactly one more: two sent, one
    lost, one established, and only the second caller gets a session. *)
Example failed_handshake_is_retried :
  history (run_schedule retry_schedule initial_world)
  = [EvIssued 0 1; EvHandshakeSent 0 1; EvHandshakeFailed 0 RequestException;
     EvIssued 1 2; EvHandshakeSent 1 2; EvHandshakeAnswered 1 "sess-1";
     EvSession 1 "sess-1"]
  /\ threads (run_schedule retry_schedule initial_world) 0%nat = Finished
  /\ threads (run_schedule retry_schedule initial_world) 1%nat = HaveSession "sess-1".
Proof. repeat split. Qed.

(* --------------------------------------------------------------- *)
(** *** Whole requests *)

#[local] Abbreviation run_serve up := (serve demo_url demo_token up demo_str).
#[local] Abbreviation run_all up := (serve_all demo_url demo_token up demo_str).
#[local] Abbreviation ready := (session_ready demo_url demo_token).
#[local] Abbreviation called := (after_call_sent demo_url demo_token "sess-1").

(** A search, a health check, a file listing and a question served by a
    fresh process: ten requests, numbered 1 to 10, the first of them the
    handshake. *)
Example ten_requests_numbered :
  let st := run_all (scripted (hits_answer demo_hits) file_text)
                    [PostSearch foo_body; GetHealth; ListFiles; PostAsk foo_question]
                    initial_state in
  posted_ids (sent st) = count_up 10
  /\ map is_initialize (sent st)
     = [true; false; false; false; false; false; false; false; false; false]
  /\ _request_id st = 10.
Proof. vm_compute. repeat split. Qed.

(** A search whose [k] is [1e999], then /stats: three calls of
    [requests.post] with the ids 1, 2 and 3, the second of them refused
    by the library, so that the ids 1 and 3 are what the upstream sees. *)
Example refused_body_leaves_a_gap :
  let st := run_all (refusing (scripted (hits_answer demo_hits) file_text))
                    [PostSearch huge_k_body; Stats] initial_state in
  posted_ids (sent st) = count_up 3
  /\ posted_ids (accepted (sent st)) = [JInt 1; JInt 3]
  /\ map request_tool (sent st)
     = [JNull; JStr "dir2mcp.search"; JStr "dir2mcp.stats"]
  /\ _request_id st = 3.
Proof. vm_compute. repeat split. Qed.

(** An upstream that hands out no session identifier is sent a handshake
    before every tool call: eight requests for one search with three
    hits. *)
Example eight_requests_for_one_search :
  let st := snd (run_serve (stateless (hits_answer demo_hits) file_text)
                           (PostSearch foo_body) initial_state) in
  map is_initialize (sent st) = [true; false; true; false; true; false; true; false]
  /\ map request_session (sent st)
     = [None; Some ""; None; Some ""; None; Some ""; None; Some ""].
Proof. vm_compute. split; reflexivity. Qed.

(** A session the upstream no longer accepts: every request is answered
    401, the identifier stays, no handshake is sent. *)
Lemma established_session_is_kept_witness :
  let st' := run_all unauthorized [PostSearch foo_body; ListFiles; PostAsk foo_question]
                     ready in
  cached_session st' = Some "sess-1"
  /\ exists calls,
       sent st' = (sent ready ++ calls)%list
       /\ Forall (fun r => is_initialize r = false
                           /\ is_tools_call r = true
                           /\ request_session r = Some "sess-1") calls.
Proof.
  apply (established_session_is_kept demo_url demo_token unauthorized demo_str
           [PostSearch foo_body; ListFiles; PostAsk foo_question] ready "sess-1").
  reflexivity.
Defined.

(** The bodies [{"question": ""}], [{"query": "foo", "k": 2}] (no
    question) and null. *)
Lemma ask_missing_question_400_witness :
  run_ask unreachable (JObj [("question", JStr "")]) initial_state
  = (Return (missing_field_response "question"), initial_state)
  /\ run_ask unreachable foo_body initial_state
     = (Return (missing_field_response "question"), initial_state)
  /\ run_ask unreachable JNull initial_state
     = (Return (missing_field_response "question"), initial_state).
Proof.
  split; [|split].
  - apply (ask_missing_question_400 demo_url demo_token unreachable demo_str
             (JObj [("question", JStr "")]) initial_state eq_refl).
    left. reflexivity.
  - apply (ask_missing_question_400 demo_url demo_token unreachable demo_str
             foo_body initial_state eq_refl).
    left. reflexivity.
  - apply (ask_missing_question_400 demo_url demo_token unreachable demo_str
             JNull initial_state eq_refl).
    right. reflexivity.
Defined.

(** /stats and /ask relaying a tool error. *)
Lemma first_call_error_is_relayed_witness :
  run_serve (always (Responded tool_failed)) Stats ready
  = (Return {| response_payload :=
                 JObj [("error", JObj [("code", JInt (-32000));
                                       ("message", JStr "index not ready")])];
               response_status := 500 |},
     called "dir2mcp.stats" (JObj []) ready)
  /\ run_serve (always (Responded tool_failed)) (PostAsk foo_question) ready
     = (Return {| response_payload :=
                    JObj [("error", JObj [("code", JInt (-32000));
                                          ("message", JStr "index not ready")])];
                  response_status := 500 |},
        called "dir2mcp.search" (JObj [("query", JStr "foo"); ("k", JInt 3)]) ready).
Proof.
  split.
  - apply (first_call_error_is_relayed demo_url demo_token
             (always (Responded tool_failed)) demo_str Stats
             "dir2mcp.stats" (JObj []) ready ready "sess-1" tool_failed
             [("jsonrpc", JStr "2.0"); ("id", JInt 0);
              ("error", JObj [("code", JInt (-32000));
                              ("message", JStr "index not ready")])]);
      try reflexivity. simpl. lia.
  - apply (first_call_error_is_relayed demo_url demo_token
             (always (Responded tool_failed)) demo_str (PostAsk foo_question)
             "dir2mcp.search" (JObj [("query", JStr "foo"); ("k", JInt 3)])
             ready ready "sess-1" tool_failed
             [("jsonrpc", JStr "2.0"); ("id", JInt 0);
              ("error", JObj [("code", JInt (-32000));
                              ("message", JStr "index not ready")])]);
      try reflexivity. simpl. lia.
Defined.

(** A 502 carrying a JSON-RPC error, a body that is not JSON, a JSON
    array, and a connection that cannot be opened. *)
Lemma first_call_failure_is_raised_witness :
  let arguments := JObj [("query", JStr "foo"); ("k", JInt 2)] in
  let st2 := called "dir2mcp.search" arguments ready in
  run_serve (always (Responded bad_gateway)) (PostSearch foo_body) ready
  = (Raise (HTTPError 502), st2)
  /\ run_serve (always (Responded html_page)) (PostSearch foo_body) ready
     = (Raise JSONDecodeError, st2)
  /\ run_serve (always (Responded array_page)) (PostSearch foo_body) ready
     = (Raise PyTypeError, st2)
  /\ run_serve unreachable ListFiles ready
     = (Raise RequestException, called "dir2mcp.list_files" (JObj []) ready).
Proof.
  intros arguments st2. split; [|split; [|split]].
  - apply (proj1 (proj2 (proj2
             (first_call_failure_is_raised demo_url demo_token
                (always (Responded bad_gateway)) demo_str (PostSearch foo_body)
                "dir2mcp.search" arguments ready ready "sess-1" eq_refl eq_refl)))
             bad_gateway); [reflexivity|simpl; lia].
  - apply (proj1 (proj2 (proj2 (proj2
             (first_call_failure_is_raised demo_url demo_token
                (always (Responded html_page)) demo_str (PostSearch foo_body)
                "dir2mcp.search" arguments ready ready "sess-1" eq_refl eq_refl))))
             html_page); [reflexivity|simpl; lia|reflexivity].
  - apply (proj2 (proj2 (proj2 (proj2
             (first_call_failure_is_raised demo_url demo_token
                (always (Responded array_page)) demo_str (PostSearch foo_body)
                "dir2mcp.search" arguments ready ready "sess-1" eq_refl eq_refl))))
             array_page (JArr [JInt 1])); [reflexivity|simpl; lia|reflexivity|reflexivity].
  - apply (proj1 (proj2
             (first_call_failure_is_raised demo_url demo_token
                unreachable demo_str ListFiles
                "dir2mcp.list_files" (JObj []) ready ready "sess-1" eq_refl eq_refl))).
    reflexivity.
Defined.

(** /list_files: the two textual entries joined, the image skipped, the
    structured payload as the tool gave it. *)
Lemma list_files_and_stats_pass_result_witness :
  run_serve (always (Responded files_listed)) ListFiles ready
  = (Return {| response_payload :=
                 JObj [("result", JStr ("a.md" ++ nl ++ "b.md"));
                       ("structured",
                        JObj [("files", JArr [JStr "a.md"; JStr "b.md"])])];
               response_status := 200 |},
     called "dir2mcp.list_files" (JObj []) ready).
Proof.
  apply (proj1 (list_files_and_stats_pass_result demo_url demo_token
                  (always (Responded files_listed)) demo_str ListFiles
                  "dir2mcp.list_files" ready ready "sess-1" files_listed
                  [("jsonrpc", JStr "2.0"); ("id", JInt 0);
                   ("result", JObj listed_result)]
                  (or_introl (conj eq_refl eq_refl)) eq_refl eq_refl
                  ltac:(simpl; lia) eq_refl eq_refl)
           listed_result listed_content); reflexivity.
Defined.

(** A search answered with text and no structured payload. *)
Lemma search_needs_structured_content_witness :
  run_serve (always (Responded text_only)) (PostSearch foo_body) ready
  = (Raise PyTypeError,
     called "dir2mcp.search" (JObj [("query", JStr "foo"); ("k", JInt 2)]) ready)
  /\ run_serve (always (Responded text_only)) (PostAsk foo_question) ready
     = (Raise PyTypeError,
        called "dir2mcp.search" (JObj [("query", JStr "foo"); ("k", JInt 3)]) ready).
Proof.
  split.
  - apply (search_needs_structured_content demo_url demo_token
             (always (Responded text_only)) demo_str (PostSearch foo_body)
             (JObj [("query", JStr "foo"); ("k", JInt 2)]) ready ready "sess-1"
             text_only
             [("jsonrpc", JStr "2.0"); ("id", JInt 0);
              ("result", JObj text_only_result)]
             text_only_result [text_item "2 hits"]); try reflexivity. simpl. lia.
  - apply (search_needs_structured_content demo_url demo_token
             (always (Responded text_only)) demo_str (PostAsk foo_question)
             (JObj [("query", JStr "foo"); ("k", JInt 3)]) ready ready "sess-1"
             text_only
             [("jsonrpc", JStr "2.0"); ("id", JInt 0);
              ("result", JObj text_only_result)]
             text_only_result [text_item "2 hits"]); try reflexivity. simpl. lia.
Defined.

(** Two hits, the second scored null: both files are fetched, then the
    view raises.  /ask, which prints no score, answers. *)
Lemma unprintable_score_fails_after_fetching_witness :
  let up := scripted (hits_answer unscored_hits) file_text in
  let st1 := snd (call up "dir2mcp.search" foo_arguments initial_state) in
  let st2 := snd (fetches up unscored_hits st1) in
  run_search up foo_body initial_state = (Raise PyTypeError, st2)
  /\ tool_calls (sent st2)
     = [(JStr "dir2mcp.search", foo_arguments);
        (JStr "dir2mcp.open_file",
         JObj [("rel_path", JStr "a.md"); ("max_chars", JInt 3000)]);
        (JStr "dir2mcp.open_file",
         JObj [("rel_path", JStr "b.md"); ("max_chars", JInt 3000)])].
Proof.
  intros up st1 st2.
  apply (unprintable_score_fails_after_fetching demo_url demo_token up demo_str
           [("query", JStr "foo"); ("k", JInt 2)] (JStr "foo") (JInt 2)
           initial_state st1 st2 unscored_hits
           (match fst (fetches up unscored_hits st1) with
            | Return fetched => fetched
            | Raise _ => []
            end)); try reflexivity.
  exists "hits", [("hits", JArr unscored_hits)]. split; reflexivity.
Defined.

Example unscored_hits_are_answered_by_ask :
  fst (run_ask (scripted (hits_answer unscored_hits) file_text) foo_question initial_state)
  = Return (result_response
      ("Question: foo" ++ nl ++ nl ++ "Relevant document content:" ++ nl ++ nl
       ++ "=== Source: a.md ===" ++ nl ++ "line one" ++ nl ++ "line two"
       ++ nl ++ nl ++
       "=== Source: b.md ===" ++ nl ++ "line one" ++ nl ++ "line two")).
Proof. vm_compute. reflexivity. Qed.

(** A null result, a content that is a number, and a textual entry whose
    text is a number; an image entry with no text at all is skipped. *)
Lemma malformed_result_is_not_decoded_witness :
  decode_tool_response (JObj [("result", JNull)]) = Raise PyTypeError
  /\ decode_tool_response (JObj [("result", JObj [("content", JInt 7)])])
     = Raise PyTypeError
  /\ decode_tool_response
       (JObj [("result",
               JObj [("content",
                      JArr [text_item "ok";
                            JObj [("type", JStr "text"); ("text", JInt 5)]])])])
     = Raise PyTypeError
  /\ decode_tool_response (JObj [("result", JObj listed_result)])
     = Return (tool_dict ("a.md" ++ nl ++ "b.md")
                         (JObj [("files", JArr [JStr "a.md"; JStr "b.md"])])).
Proof.
  split; [|split; [|split]].
  - apply (proj1 (malformed_result_is_not_decoded [("result", JNull)] eq_refl) JNull);
      reflexivity.
  - apply (proj1 (proj2 (malformed_result_is_not_decoded
                           [("result", JObj [("content", JInt 7)])] eq_refl))
             [("content", JInt 7)] (JInt 7) PyTypeError); reflexivity.
  - apply (proj1 (proj2 (proj2
             (malformed_result_is_not_decoded
                [("result",
                  JObj [("content",
                         JArr [text_item "ok";
                               JObj [("type", JStr "text"); ("text", JInt 5)]])])]
                eq_refl)))
             [("content",
               JArr [text_item "ok"; JObj [("type", JStr "text"); ("text", JInt 5)]])]
             (JArr [text_item "ok"; JObj [("type", JStr "text"); ("text", JInt 5)]])
             [text_item "ok"; JObj [("type", JStr "text"); ("text", JInt 5)]]);
      reflexivity.
  - apply (proj2 (proj2 (proj2 (malformed_result_is_not_decoded
                                  [("result", JObj listed_result)] eq_refl)))
             listed_result (JArr listed_content) listed_content); reflexivity.
Defined.

(** A fresh process and an upstream that hands out no identifier. *)
Lemma headerless_handshake_goes_on_witness :
  let st2 := after_call_sent demo_url demo_token "" "dir2mcp.stats" (JObj [])
               (with_session "" (after_handshake_sent demo_url demo_token initial_state)) in
  call no_session_header "dir2mcp.stats" (JObj []) initial_state
  = (tool_outcome (no_session_header (sent st2)), st2)
  /\ sent st2 =
     [initialize_request demo_url demo_token 1;
      tools_call_request demo_url demo_token "" 2 "dir2mcp.stats" (JObj [])]
  /\ cached_session st2 = None
  /\ forall tool' arguments',
       exists rest,
         sent (snd (call no_session_header tool' arguments' st2)) =
         (sent st2 ++ initialize_request demo_url demo_token 3 :: rest)%list.
Proof.
  apply (headerless_handshake_goes_on demo_url demo_token no_session_header
           "dir2mcp.stats" (JObj []) initial_state
           {| status_code := 200;
              response_headers := [("content-type", "application/json")];
              body := Some (rpc_result (JObj [])) |});
    try reflexivity. simpl. lia.
Defined.

(** Thread 1 arrives at the guard while thread 0 is inside it. *)
Lemma locks_never_deadlock_witness :
  let w := run_schedule [(0%nat, TransportFailed)] initial_world in
  exists u,
    u <> 1%nat
    /\ (w_session_lock w = Some u \/ w_id_lock w = Some u)
    /\ forall o', thread_step u o' w <> w.
Proof.
  apply (locks_never_deadlock [(0%nat, TransportFailed)] 1%nat TransportFailed).
  reflexivity.
Defined.

(** Two hits, the second with a null span: the first file is fetched,
    the second is not, and both views raise. *)
Lemma unreadable_hit_aborts_the_view_witness :
  let up := scripted (hits_answer null_span_hits) file_text in
  let st1 := snd (call up "dir2mcp.search" foo_arguments initial_state) in
  let st2 := snd (fetches up (firstn 1 null_span_hits) st1) in
  run_search up foo_body initial_state = (Raise PyTypeError, st2)
  /\ tool_calls (sent st2)
     = [(JStr "dir2mcp.search", foo_arguments);
        (JStr "dir2mcp.open_file",
         JObj [("rel_path", JStr "a.md"); ("max_chars", JInt 3000)])].
Proof.
  intros up st1 st2.
  pose proof (unreadable_hit_aborts_the_view demo_url demo_token up demo_str
                [("query", JStr "foo"); ("k", JInt 2)] initial_state st1 st2
                null_span_hits (firstn 1 null_span_hits) []
                (JObj [("RelPath", JStr "b.md"); ("Score", JFloat 0.5);
                       ("Span", JNull)])
                (match fst (fetches up (firstn 1 null_span_hits) st1) with
                 | Return fetched => fetched
                 | Raise _ => []
                 end)
                eq_refl eq_refl (or_intror eq_refl)) as (Hsearch & _ & Hcalls).
  split; [|exact Hcalls].
  apply (Hsearch (JStr "foo") (JInt 2)); try reflexivity.
  exists "hits", [("hits", JArr null_span_hits)]. split; reflexivity.
Defined.

(** A search that finds nothing, on both views. *)
Lemma no_hits_empty_result_witness :
  let up := scripted (hits_answer []) file_text in
  run_search up foo_body initial_state
  = (Return (result_response ""),
     snd (call up "dir2mcp.search" foo_arguments initial_state))
  /\ run_ask up foo_question initial_state
     = (Return (result_response
                  ("Question: foo" ++ nl ++ nl ++ "Relevant document content:"
                   ++ nl ++ nl)),
        snd (call up "dir2mcp.search" (search_arguments (JStr "foo") (JInt 3))
               initial_state)).
Proof.
  intros up. split.
  - apply (proj1 (no_hits_empty_result demo_url demo_token up demo_str
                    [("query", JStr "foo"); ("k", JInt 2)] initial_state
                    (snd (call up "dir2mcp.search" foo_arguments initial_state)))
             (JStr "foo") (JInt 2)); try reflexivity.
    exists "hits", [("hits", JArr [])]. split; reflexivity.
  - apply (proj2 (no_hits_empty_result demo_url demo_token up demo_str
                    [("question", JStr "foo"); ("k", JInt 9)] initial_state
                    (snd (call up "dir2mcp.search"
                            (search_arguments (JStr "foo") (JInt 3)) initial_state)))
             (JStr "foo")); try reflexivity.
    exists "hits", [("hits", JArr [])]. split; reflexivity.
Defined.
